(** * devious.targets.webapp: build and deploy of a web application target

    A shallow embedding of [tools/devious/src/devious/targets/webapp/webapp.py]:
    the template renderer [copy_files_with_substitution], the compose mutator
    [configure_compose], the certificate procedure [set_up_ssl_cert] and the
    two lifecycle methods [Webapp.build] and [Webapp.deploy].

    The local file system is a tree of named entries; the process is a state
    and exception monad over the file system, [os.environ], the log and the
    calls made on the remote session. *)

From Stdlib Require Import ZArith String Ascii List DecimalString.
From stdpp Require Import base option list gmap strings.

Local Open Scope string_scope.
Local Open Scope list_scope.

(** ** Association lists

    YAML mappings keep the order of their entries, and a new key goes last,
    as in a Python [dict].  The entries of a directory are held in the order
    in which the directory is listed ([os.scandir], which [rglob] follows);
    where the file system lists a new entry is not known, here it goes
    last. *)

Section Assoc.
Context {A : Type}.

Fixpoint assoc (k : string) (l : list (string * A)) : option A :=
  match l with
  | [] => None
  | (k', v) :: l' => if String.eqb k k' then Some v else assoc k l'
  end.

(** [d[k] = v]: a present key keeps its position, a new key goes last. *)
Fixpoint assoc_set (k : string) (v : A) (l : list (string * A)) : list (string * A) :=
  match l with
  | [] => [(k, v)]
  | (k', v') :: l' =>
      if String.eqb k k' then (k', v) :: l' else (k', v') :: assoc_set k v l'
  end.

Fixpoint assoc_del (k : string) (l : list (string * A)) : list (string * A) :=
  match l with
  | [] => []
  | (k', v') :: l' =>
      if String.eqb k k' then assoc_del k l' else (k', v') :: assoc_del k l'
  end.

Definition assoc_upd (k : string) (o : option A) (l : list (string * A)) :=
  match o with
  | Some v => assoc_set k v l
  | None => assoc_del k l
  end.

End Assoc.

(** ** The local file system *)

(** A path is the list of its components below the root. *)
Definition path := list string.

#[warnings="-register-all"] Inductive node :=
| File (content : string)
| Dir (entries : list (string * node)).

Definition is_dir (o : option node) : bool :=
  match o with Some (Dir _) => true | _ => false end.

Definition is_file (o : option node) : bool :=
  match o with Some (File _) => true | _ => false end.

(** The entry found by walking [p] down from [o]; [None] is "no such entry". *)
Fixpoint fs_lookup (p : path) (o : option node) : option node :=
  match p with
  | [] => o
  | x :: p' =>
      match o with
      | Some (Dir es) => fs_lookup p' (assoc x es)
      | _ => None
      end
  end.

(** One system call on the entry at [p]: [f] maps the entry found there
    ([None] when absent) to the new one, or fails.  With [parents] the
    missing directories on the way are created, without it a missing
    directory is an error; a file on the way is always one. *)
Fixpoint at_path (parents : bool) (p : path)
    (f : option node -> option (option node)) (o : option node)
  : option (option node) :=
  match p with
  | [] => f o
  | x :: p' =>
      match o with
      | Some (Dir es) =>
          match at_path parents p' f (assoc x es) with
          | Some o' => Some (Some (Dir (assoc_upd x o' es)))
          | None => None
          end
      | Some (File _) => None
      | None =>
          if parents then
            match at_path parents p' f None with
            | Some o' => Some (Some (Dir (assoc_upd x o' [])))
            | None => None
            end
          else None
      end
  end.

(** *** The system calls the module makes *)

(** [Path.mkdir(parents=True, exist_ok=True)]: a directory that is already
    there is kept as it is, a file in its place is an error. *)
Definition mkdir_f (o : option node) : option (option node) :=
  match o with
  | None => Some (Some (Dir []))
  | Some (Dir es) => Some (Some (Dir es))
  | Some (File _) => None
  end.

Definition fs_mkdir (p : path) : option node -> option (option node) :=
  at_path true p mkdir_f.

(** [Path.write_text]: the file is created or truncated; its directory
    must exist and the path must not name a directory. *)
Definition write_f (s : string) (o : option node) : option (option node) :=
  match o with
  | Some (Dir _) => None
  | _ => Some (Some (File s))
  end.

Definition fs_write (p : path) (s : string) : option node -> option (option node) :=
  at_path false p (write_f s).

(** [shutil.rmtree(p, ignore_errors=True)]: a directory tree is removed,
    anything else (nothing there, a plain file) is an ignored error. *)
Definition rmtree_f (o : option node) : option (option node) :=
  match o with
  | Some (Dir _) => Some None
  | _ => None
  end.

Definition fs_rmtree (p : path) (n : node) : node :=
  match at_path false p rmtree_f (Some n) with
  | Some (Some n') => n'
  | _ => n
  end.

(** [os.makedirs(dst)] of [shutil.copytree] followed by the copy of the
    entries: [dst] must not exist, its parents are created. *)
Definition graft_f (t : node) (o : option node) : option (option node) :=
  match o with
  | None => Some (Some t)
  | Some _ => None
  end.

Definition fs_graft (p : path) (t : node) : option node -> option (option node) :=
  at_path true p (graft_f t).

(** [Path.rglob("*")], relative to the directory searched: the entries of a
    directory in the order the system lists them, then those of each of its
    sub-directories. *)
Fixpoint rglob (n : node) : list path :=
  match n with
  | File _ => []
  | Dir es =>
      map (fun e : string * node => [fst e]) es ++
      flat_map (fun e : string * node =>
                  let (x, c) := e in map (cons x) (rglob c)) es
  end.

Definition rglob_at (p : path) (n : node) : list path :=
  match fs_lookup p (Some n) with
  | Some t => rglob t
  | None => []
  end.

(** ** Exceptions and the process state *)

Inductive exn :=
| KeyError (key : string)
| ValueError (msg : string)
| TypeError
| AttributeError
| FileExistsError (p : path)
| FileNotFoundError (p : path)
| NotADirectoryError (p : path)
| IsADirectoryError (p : path)
| UnicodeDecodeError
| UnicodeEncodeError
| YAMLError
| SystemExit (code : Z)
| SessionError (msg : string).

(** A call made on the remote session. *)
Inductive call :=
| Run (cmd : list string)
| Upload (local_dir : path) (remote_dir : path).

Record state := mkState {
  st_fs : node;                     (* the local file system *)
  st_env : gmap string string;      (* os.environ *)
  st_log : list string;             (* what logger.error wrote *)
  st_trace : list call              (* the calls made on the session so far *)
}.

Definition set_fs (n : node) (s : state) : state :=
  mkState n (st_env s) (st_log s) (st_trace s).
Definition set_env (e : gmap string string) (s : state) : state :=
  mkState (st_fs s) e (st_log s) (st_trace s).
Definition add_log (m : string) (s : state) : state :=
  mkState (st_fs s) (st_env s) (st_log s ++ [m]) (st_trace s).
Definition add_call (c : call) (s : state) : state :=
  mkState (st_fs s) (st_env s) (st_log s) (st_trace s ++ [c]).

(** A statement either completes with a value or raises; both leave a state. *)
Inductive res (A : Type) :=
| Ok (a : A) (s : state)
| Raise (e : exn) (s : state).
Arguments Ok {A} a s.
Arguments Raise {A} e s.

Definition M (A : Type) : Type := state -> res A.

Definition ret {A} (a : A) : M A := fun s => Ok a s.
Definition raise {A} (e : exn) : M A := fun s => Raise e s.
Definition bind {A B} (m : M A) (k : A -> M B) : M B :=
  fun s => match m s with
           | Ok a s' => k a s'
           | Raise e s' => Raise e s'
           end.

Definition lift {A} (r : exn + A) : M A :=
  match r with
  | inr a => ret a
  | inl e => raise e
  end.

#[global] Instance M_ret : MRet M := @ret.
#[global] Instance M_bind : MBind M := fun A B k m => bind m k.

(** [try: m except E: h], where [h e] is [None] for the exceptions the
    clause does not catch. *)
Definition try_except {A} (m : M A) (h : exn -> option (M A)) : M A :=
  fun s => match m s with
           | Ok a s' => Ok a s'
           | Raise e s' =>
               match h e with
               | Some k => k s'
               | None => Raise e s'
               end
           end.

(** [for x in l: body x] *)
Fixpoint for_each {A} (l : list A) (body : A -> M unit) : M unit :=
  match l with
  | [] => ret tt
  | x :: l' => body x ;; for_each l' body
  end.

Definition state_of {A} (r : res A) : state :=
  match r with Ok _ s => s | Raise _ s => s end.

(** *** The file-system calls as statements *)

Definition path_is_dir (p : path) : M bool :=
  fun s => Ok (is_dir (fs_lookup p (Some (st_fs s)))) s.

Definition path_mkdir (p : path) : M unit :=
  fun s => match fs_mkdir p (Some (st_fs s)) with
           | Some (Some n) => Ok tt (set_fs n s)
           | _ => Raise (if is_file (fs_lookup p (Some (st_fs s)))
                         then FileExistsError p else NotADirectoryError p) s
           end.

(** A file stands where a directory on the way to [p] should be. *)
Definition blocked (p : path) (n : node) : bool :=
  existsb (fun k => is_file (fs_lookup (take k p) (Some n))) (seq 0 (length p)).

(** [open(p, "rb").read()]: the content of the file as it is. *)
Definition path_read_bytes (p : path) : M string :=
  fun s => match fs_lookup p (Some (st_fs s)) with
           | Some (File content) => Ok content s
           | Some (Dir _) => Raise (IsADirectoryError p) s
           | None => Raise (if blocked p (st_fs s) then NotADirectoryError p
                            else FileNotFoundError p) s
           end.

(** [open(p, "wb").write(content)]: the file is created or emptied and the
    content written as it is; the directory of the file must exist and the
    path must not name a directory. *)
Definition path_write_bytes (p : path) (content : string) : M unit :=
  fun s => match fs_write p content (Some (st_fs s)) with
           | Some (Some n) => Ok tt (set_fs n s)
           | _ => Raise (if is_dir (fs_lookup p (Some (st_fs s)))
                         then IsADirectoryError p
                         else if blocked p (st_fs s) then NotADirectoryError p
                         else FileNotFoundError p) s
           end.

(** *** Text

    A Python [str] is held as the bytes of its UTF-8 encoding, a lone
    surrogate (the escape of a byte of the environment that could not be
    decoded) as the three bytes [surrogatepass] gives it: the text that can
    be encoded is the text that is well-formed UTF-8.  The preferred
    encoding of the process is taken to be UTF-8 and its line separator a
    line feed. *)

(** Well-formed UTF-8, when [need] continuation bytes are due of which the
    next lies between [lo] and [hi]. *)
Fixpoint utf8_from (need lo hi : nat) (s : string) : bool :=
  match s with
  | EmptyString => (need =? 0)%nat
  | String c s' =>
      let b := nat_of_ascii c in
      match need with
      | O =>
          if (b <=? 127)%nat then utf8_from 0 128 191 s'
          else if ((194 <=? b) && (b <=? 223))%nat then utf8_from 1 128 191 s'
          else if (b =? 224)%nat then utf8_from 2 160 191 s'
          else if (b =? 237)%nat then utf8_from 2 128 159 s'
          else if ((225 <=? b) && (b <=? 239))%nat then utf8_from 2 128 191 s'
          else if (b =? 240)%nat then utf8_from 3 144 191 s'
          else if ((241 <=? b) && (b <=? 243))%nat then utf8_from 3 128 191 s'
          else if (b =? 244)%nat then utf8_from 3 128 143 s'
          else false
      | S n => ((lo <=? b) && (b <=? hi))%nat && utf8_from n 128 191 s'
      end
  end.

Definition utf8_valid (s : string) : bool := utf8_from 0 128 191 s.

(** The translation of line ends when a file is read as text: a carriage
    return, with the line feed that follows it if one does, becomes a line
    feed. *)
Fixpoint newlines_from (after_cr : bool) (s : string) : string :=
  match s with
  | EmptyString => EmptyString
  | String c s' =>
      if Ascii.eqb c "010" then
        if after_cr then newlines_from false s' else String c (newlines_from false s')
      else if Ascii.eqb c "013" then String "010" (newlines_from true s')
      else String c (newlines_from false s')
  end.

Definition universal_newlines (s : string) : string := newlines_from false s.

(** What reading a file as text makes of its content. *)
Definition read_as_text (content : string) : exn + string :=
  if utf8_valid content then inr (universal_newlines content)
  else inl UnicodeDecodeError.

(** [Path.read_text()] *)
Definition path_read_text (p : path) : M string :=
  content ← path_read_bytes p;
  lift (read_as_text content).

(** [Path.write_text(t)]: the file is opened, which creates or empties it,
    then the text is encoded and written; text that cannot be encoded
    leaves the file empty. *)
Definition path_write_text (p : path) (t : string) : M unit :=
  if utf8_valid t then path_write_bytes p t
  else path_write_bytes p "" ;; raise UnicodeEncodeError.

Definition path_rglob (p : path) : M (list path) :=
  fun s => Ok (rglob_at p (st_fs s)) s.

Definition shutil_rmtree (p : path) : M unit :=
  fun s => Ok tt (set_fs (fs_rmtree p (st_fs s)) s).

(** The first directory on the way to a path that [os.makedirs] cannot
    make: the entry below the first file on the way. *)
Fixpoint unmakeable (above below : path) (n : node) : path :=
  match below with
  | [] => above
  | x :: below' =>
      if is_file (fs_lookup above (Some n)) then above ++ [x]
      else unmakeable (above ++ [x]) below' n
  end.

(** [shutil.copytree(src, dst)]: the source is listed first, then the
    destination is created, which fails when it exists. *)
Definition shutil_copytree (src dst : path) : M unit :=
  fun s => match fs_lookup src (Some (st_fs s)) with
           | Some (Dir es) =>
               match fs_graft dst (Dir es) (Some (st_fs s)) with
               | Some (Some n) => Ok tt (set_fs n s)
               | _ => Raise (match fs_lookup dst (Some (st_fs s)) with
                             | Some _ => FileExistsError dst
                             | None => NotADirectoryError (unmakeable [] dst (st_fs s))
                             end) s
               end
           | Some (File _) => Raise (NotADirectoryError src) s
           | None => Raise (FileNotFoundError src) s
           end.

Definition os_environ : M (gmap string string) := fun s => Ok (st_env s) s.

Definition logger_error (m : string) : M unit := fun s => Ok tt (add_log m s).

(** ** [string.Template]

    The placeholder syntax of Python's [string.Template]: [$$] is an escaped
    dollar, [$name] and [${name}] are placeholders, where a name is an ASCII
    letter or underscore followed by letters, digits and underscores; any
    other [$] is ill-formed. *)

Inductive token :=
| Lit (c : ascii)
| Escaped
| Placeholder (name : string)
| Invalid.

Definition between (lo hi : nat) (c : ascii) : bool :=
  (lo <=? nat_of_ascii c)%nat && (nat_of_ascii c <=? hi)%nat.

Definition id_start (c : ascii) : bool :=
  Ascii.eqb c "_" || between 97 122 c || between 65 90 c.

Definition id_char (c : ascii) : bool :=
  id_start c || between 48 57 c.

Definition lits (s : string) : list token := map Lit (list_ascii_of_string s).

(** Where the scanner is after a [$]. *)
Inductive mode :=
| Text
| Dollar
| InNamed (acc : string)
| BraceOpen
| InBraced (acc : string).

Definition snoc (s : string) (c : ascii) : string := s +:+ String c "".

Definition flush (m : mode) : list token :=
  match m with
  | Text => []
  | Dollar => [Invalid]
  | InNamed a => [Placeholder a]
  | BraceOpen => [Invalid; Lit "{"]
  | InBraced a => Invalid :: Lit "{" :: lits a
  end.

Fixpoint scan (m : mode) (s : string) : list token :=
  match s with
  | EmptyString => flush m
  | String c s' =>
      let text := if Ascii.eqb c "$" then scan Dollar s' else Lit c :: scan Text s' in
      match m with
      | Text => text
      | Dollar =>
          if Ascii.eqb c "$" then Escaped :: scan Text s'
          else if id_start c then scan (InNamed (String c "")) s'
          else if Ascii.eqb c "{" then scan BraceOpen s'
          else Invalid :: text
      | InNamed a =>
          if id_char c then scan (InNamed (snoc a c)) s'
          else Placeholder a :: text
      | BraceOpen =>
          if id_start c then scan (InBraced (String c "")) s'
          else Invalid :: Lit "{" :: text
      | InBraced a =>
          if id_char c then scan (InBraced (snoc a c)) s'
          else if Ascii.eqb c "}" then Placeholder a :: scan Text s'
          else Invalid :: Lit "{" :: lits a ++ text
      end
  end.

Definition tokenize (template : string) : list token := scan Text template.

(** [Template.substitute]: the matches are converted from left to right, the
    first one that cannot be stops the substitution: a placeholder without
    a value with [KeyError], an ill-formed [$] with [ValueError] (whose
    message is kept without the line and column). *)
Fixpoint convert (mapping : gmap string string) (ts : list token) : exn + string :=
  match ts with
  | [] => inr ""
  | Lit c :: ts' =>
      match convert mapping ts' with
      | inr out => inr (String c out)
      | inl e => inl e
      end
  | Escaped :: ts' =>
      match convert mapping ts' with
      | inr out => inr (String "$" out)
      | inl e => inl e
      end
  | Placeholder k :: ts' =>
      match mapping !! k with
      | None => inl (KeyError k)
      | Some v =>
          match convert mapping ts' with
          | inr out => inr (v +:+ out)
          | inl e => inl e
          end
      end
  | Invalid :: _ => inl (ValueError "Invalid placeholder in string")
  end.

Definition substitute (template : string) (mapping : gmap string string) : exn + string :=
  convert mapping (tokenize template).

(** The template mentions the placeholder [k]. *)
Definition references (template k : string) : Prop :=
  In (Placeholder k) (tokenize template).

(** The template has an ill-formed [$]. *)
Definition ill_formed (template : string) : Prop :=
  In Invalid (tokenize template).

(** What the renderer makes of a template file with this content: the text
    it writes, or the exception of the decoding, of the substitution or of
    the encoding. *)
Definition rendering (content : string) (mapping : gmap string string) : exn + string :=
  match read_as_text content with
  | inl e => inl e
  | inr text =>
      match substitute text mapping with
      | inl e => inl e
      | inr out => if utf8_valid out then inr out else inl UnicodeEncodeError
      end
  end.

(** ** Compose documents

    What [ruamel.yaml] loads: a tree of mappings (in document order),
    sequences and scalars.  Documents are plain trees, no node of which is
    shared through an anchor. *)

#[warnings="-register-all"] Inductive yaml :=
| YNull
| YBool (b : bool)
| YInt (z : Z)
| YStr (s : string)
| YSeq (items : list yaml)
| YMap (entries : list (string * yaml)).

(** [d[k]] *)
Definition getitem (d : yaml) (k : string) : exn + yaml :=
  match d with
  | YMap es =>
      match assoc k es with
      | Some v => inr v
      | None => inl (KeyError k)
      end
  | _ => inl TypeError
  end.

(** [d.update({k: v})]; only a mapping has the method. *)
Definition update (d : yaml) (k : string) (v : yaml) : exn + yaml :=
  match d with
  | YMap es => inr (YMap (assoc_set k v es))
  | _ => inl AttributeError
  end.

(** The container [d] seen after the object it holds under [k] was mutated
    into [v]: the entry is the same object, at the same place. *)
Definition mutated (d : yaml) (k : string) (v : yaml) : yaml :=
  match d with
  | YMap es => YMap (assoc_set k v es)
  | _ => d
  end.

(** The value found by following the keys [ks] from the top. *)
Fixpoint yaml_at (ks : list string) (d : yaml) : option yaml :=
  match ks with
  | [] => Some d
  | k :: ks' =>
      match d with
      | YMap es =>
          match assoc k es with
          | Some v => yaml_at ks' v
          | None => None
          end
      | _ => None
      end
  end.

(** The keys of the mapping found at [ks], in document order. *)
Definition yaml_keys (ks : list string) (d : yaml) : option (list string) :=
  match yaml_at ks d with
  | Some (YMap es) => Some (map fst es)
  | _ => None
  end.

(** [str(n)] for an [int] *)
Definition str (n : Z) : string := NilZero.string_of_int (Z.to_int n).

(** ** Paths as text *)

(** [PurePath.as_posix()] of an absolute path. *)
Definition as_posix (p : path) : string :=
  match p with
  | [] => "/"
  | _ => String.concat "" (map (fun x => "/" +:+ x) p)
  end.

(** [Path.parent] *)
Definition parent (p : path) : path := removelast p.

(** [str.upper()] on ASCII text *)
Definition upper_char (c : ascii) : ascii :=
  if between 97 122 c then ascii_of_nat (nat_of_ascii c - 32) else c.

Fixpoint upper (s : string) : string :=
  match s with
  | EmptyString => EmptyString
  | String c s' => String (upper_char c) (upper s')
  end.

(** ** The remote session *)

(** What a call on the session gives back: a value, of which [deploy] only
    uses the truth value, or an exception. *)
Inductive reply :=
| Returned (truthy : bool)
| Raised (e : exn).

(** A session answers a call knowing the calls made before it. *)
Definition session := list call -> call -> reply.

Definition session_call (ses : session) (c : call) : M bool :=
  fun s => match ses (st_trace s) c with
           | Returned b => Ok b (add_call c s)
           | Raised e => Raise e (add_call c s)
           end.

Definition session_run (ses : session) (cmd : list string) : M bool :=
  session_call ses (Run cmd).

Definition session_upload (ses : session) (local_dir remote_dir : path) : M unit :=
  session_call ses (Upload local_dir remote_dir) ;; ret tt.

(** What the remote host does with a command: it exits with a status, or
    the transport fails. *)
Inductive outcome :=
| Exit (status : Z)
| Broken (e : exn).

Definition host := list call -> call -> outcome.

(** Modelled from the spec: [ssh.SSHSession.run] is not among the sources.
    The spec gives [session.run(commandArgsList) -> success/failure signal]
    and does not say which truth value is the signal of success.  This is
    the session that returns a true value when the remote command exits with
    status 0; the statements on [deploy] are about any session, and only use
    this one as an example of a session that raises nothing. *)
Definition SSHSession (h : host) : session :=
  fun history c =>
    match h history c with
    | Exit status => Returned (status =? 0)%Z
    | Broken e => Raised e
    end.

(** Modelled from the spec: [linux.chain_commands] is not among the sources.
    "Given an ordered list of command-argument-lists and a join operator,
    returns one composite command": the commands in order, the operator
    between each two. *)
Definition chain_commands (cmds : list (list string)) (operator : string) : list string :=
  match cmds with
  | [] => []
  | c :: cs => c ++ flat_map (fun c' => operator :: c') cs
  end.

(** Modelled from the spec: the environment [utils.temp_env] sets up, which
    is not among the sources: the process environment with the variables
    given, under their upper-case names with [all_caps]. *)
Definition with_vars (vars : list (string * string)) (all_caps : bool)
    (environ : gmap string string) : gmap string string :=
  fold_left (fun e kv => <[(if all_caps then upper (fst kv) else fst kv) := snd kv]> e)
            vars environ.

(** Modelled from the spec: [utils.temp_env] is not among the sources.
    The variables are set for the duration of the block ("scoped only to
    the duration of template rendering"), and the environment is put back
    when the block is left, also by an exception. *)
Definition temp_env {A} (vars : list (string * string)) (all_caps : bool)
    (body : M A) : M A :=
  fun s =>
    let saved := st_env s in
    match body (set_env (with_vars vars all_caps saved) s) with
    | Ok a s' => Ok a (set_env saved s')
    | Raise e s' => Raise e (set_env saved s')
    end.

(** ** The module *)

(** The attributes of a [Webapp]; those of the base class [Target] (the
    source and build directories of the target) are given, not computed. *)
Record Webapp := mkWebapp {
  target_name : string;
  target_src_dir : path;
  target_build_dir : path;
  domain_name : string;
  application_port : Z;
  email : string;
  bind_ports : list (Z * Z);        (* dict[int, int], in insertion order *)
  deployment_dir : path
}.

Definition app_build_dir (self : Webapp) : path := target_build_dir self ++ ["app"].

Definition deployed_docker_compose_yaml (self : Webapp) : path :=
  deployment_dir self ++ ["docker-compose.yaml"].

Section Module.
(** [ruamel.yaml.YAML().load] and [.dump] on the content of a file: the
    codec reads the bytes of the file itself, and writes the document
    encoded. *)
Variable yaml_load : string -> option yaml.
Variable yaml_dump : yaml -> string.
(** [Path(__file__).parent] *)
Variable module_dir : path.
(** The command lists of [devious.wrappers.docker] and [.linux]. *)
Variable install_docker : list string.
Variable docker_compose_build : path -> list string.
Variable apt_get_install : list string -> list string.

Definition WEBAPP_CONFIG_DIR : path := module_dir ++ ["webapp_config"].
Definition NGINX_CONFIG_DIR : path := module_dir ++ ["nginx_config"].

(** One turn of the loop of [copy_files_with_substitution]. *)
Definition copy_entry (template_dir target_dir rel : path) : M unit :=
  d ← path_is_dir (template_dir ++ rel);
  if d : bool then path_mkdir (target_dir ++ rel)
  else
    text ← path_read_text (template_dir ++ rel);
    environ ← os_environ;
    out ← lift (substitute text environ);
    path_write_text (target_dir ++ rel) out.

(** The entries of the template directory are listed when the loop starts;
    each is then looked at, read and copied in its turn. *)
Definition copy_files_with_substitution (template_dir target_dir : path) : M unit :=
  path_mkdir target_dir ;;
  templates ← path_rglob template_dir;
  for_each templates (copy_entry template_dir target_dir).

Definition yaml_load_file (p : path) : M yaml :=
  text ← path_read_bytes p;
  match yaml_load text with
  | Some d => ret d
  | None => raise YAMLError
  end.

Definition yaml_dump_file (d : yaml) (p : path) : M unit :=
  path_write_bytes p (yaml_dump d).

Definition port_strings (ports : list (Z * Z)) : yaml :=
  YSeq (map (fun hd => YStr (str (fst hd) +:+ ":" +:+ str (snd hd))) ports).

Definition configure_compose (dir : path) (app_name : string)
    (app_docker_ports : list (Z * Z)) : M unit :=
  let docker_compose_file := dir ++ ["docker-compose.yaml"] in
  data ← yaml_load_file docker_compose_file;
  services ← lift (getitem data "services");
  service ← lift (getitem services app_name);
  service' ← lift (update service "ports" (port_strings app_docker_ports));
  yaml_dump_file (mutated data "services" (mutated services app_name service'))
                 docker_compose_file.

Definition certbot_cmd (domain_name email : string) : list string :=
  ["certbot"; "--nginx"; "--agree-tos"; "--test-cert"; "--non-interactive";
   "--email"; email; "-d"; domain_name].

Definition cert_commands (domain_name email : string) : list (list string) :=
  [ apt_get_install ["python3"; "python3-venv"; "libaugeas0"];
    ["python3"; "-m"; "venv"; "/opt/certbot/"];
    ["/opt/certbot/bin/pip"; "install"; "--upgrade"; "pip"];
    ["/opt/certbot/bin/pip"; "install"; "certbot"; "certbot-nginx"];
    ["ln"; "-s"; "/opt/certbot/bin/certbot"; "/usr/bin/certbot"];
    ["pkill"; "nginx"];
    certbot_cmd domain_name email;
    ["pkill"; "nginx"] ].

Definition set_up_ssl_cert (domain_name email : string) : list string :=
  chain_commands (cert_commands domain_name email) ";".

Definition build_env (self : Webapp) : list (string * string) :=
  [ ("target_name", target_name self);
    ("exposed_ports", String.concat " " (map (fun hd => str (snd hd)) (bind_ports self)));
    ("application_port", str (application_port self));
    ("deployment_dir", as_posix (deployment_dir self));
    ("domain_name", domain_name self) ].

Definition build_collision (self : Webapp) : string :=
  as_posix (target_build_dir self) +:+ " exists already. To overwrite, build --clean.".

Definition build (self : Webapp) (clean : bool) : M unit :=
  (if clean then shutil_rmtree (target_build_dir self) else ret tt) ;;
  try_except
    (shutil_copytree (parent (target_src_dir self)) (app_build_dir self))
    (fun e => match e with
              | FileExistsError _ =>
                  Some (logger_error (build_collision self) ;; raise (SystemExit 1))
              | _ => None
              end) ;;
  temp_env (build_env self) true
    (copy_files_with_substitution WEBAPP_CONFIG_DIR (target_build_dir self) ;;
     copy_files_with_substitution NGINX_CONFIG_DIR (target_build_dir self ++ ["nginx_config"]) ;;
     configure_compose (target_build_dir self) (target_name self) (bind_ports self)).

Definition probe (tool : string) : list string :=
  ["command"; "-v"; tool; ">/dev/null 2>&1"].

Definition deploy (ses : session) (self : Webapp) : M unit :=
  docker ← session_run ses (probe "docker");
  (if docker : bool then session_run ses install_docker ;; ret tt else ret tt) ;;
  python ← session_run ses (probe "python");
  (if python : bool
   then session_run ses (apt_get_install ["python-is-python3"]) ;; ret tt
   else ret tt) ;;
  nginx ← session_run ses (probe "nginx");
  (if nginx : bool
   then session_run ses (apt_get_install ["nginx"]) ;;
        session_run ses ["rm"; "/etc/nginx/sites-available/default"] ;;
        session_run ses ["rm"; "/etc/nginx/sites-enabled/default"] ;;
        ret tt
   else ret tt) ;;
  session_upload ses (target_build_dir self) (deployment_dir self) ;;
  session_run ses ["cp"; "-r";
                   as_posix (deployment_dir self ++ ["nginx_config"]) +:+ "/.";
                   "/etc/nginx/"] ;;
  session_run ses (docker_compose_build (deployed_docker_compose_yaml self)) ;;
  session_run ses (set_up_ssl_cert (domain_name self) (email self)) ;;
  session_run ses ["service"; "nginx"; "reload"] ;;
  ret tt.

End Module.


(** * Notions used in the statements *)

(** ** Paths and calls on the file system *)

(** Neither path leads to the other. *)
Definition apart (p q : path) : Prop :=
  ~ p `prefix_of` q /\ ~ q `prefix_of` p.

(** A call that leaves what is below the entry as it was. *)
Definition shallow (f : option node -> option (option node)) : Prop :=
  forall o r q, f o = Some r -> q <> [] -> fs_lookup q r = fs_lookup q o.

(** ** What the renderer leaves *)

Section RendererSpec.
Variables T D : path.

(** What the turns for the entries [l] made of the file system [fs0]. *)
Record rendered (env : gmap string string) (fs0 fs : node) (l : list path) : Prop := {
(* the templates are not touched *)
rd_templates : forall q,
  fs_lookup (T ++ q) (Some fs) = fs_lookup (T ++ q) (Some fs0);
(* nor is anything that is not on the way to the destination of an entry *)
rd_elsewhere : forall q,
  (forall rel, In rel l -> ~ q `prefix_of` (D ++ rel)) ->
  fs_lookup q (Some fs) = fs_lookup q (Some fs0);
(* files that are not the destination of a template file are kept *)
rd_files : forall q u,
  fs_lookup q (Some fs0) = Some (File u) ->
  (forall rel, In rel l ->
     is_file (fs_lookup (T ++ rel) (Some fs0)) = true -> q <> D ++ rel) ->
  fs_lookup q (Some fs) = Some (File u);
(* directories are kept *)
rd_dirs : forall q,
  is_dir (fs_lookup q (Some fs0)) = true -> is_dir (fs_lookup q (Some fs)) = true;
(* every entry has its counterpart *)
rd_entries : forall rel, In rel l ->
  (exists text out,
     fs_lookup (T ++ rel) (Some fs0) = Some (File text) /\
     rendering text env = inr out /\
     fs_lookup (D ++ rel) (Some fs) = Some (File out)) \/
  (is_dir (fs_lookup (T ++ rel) (Some fs0)) = true /\
   is_dir (fs_lookup (D ++ rel) (Some fs)) = true)
}.

(** What a completed run of [copy_files_with_substitution] made of the
  file system [fs0]. *)
Record copied (env : gmap string string) (fs0 fs : node) : Prop := {
cp_dest : is_dir (fs_lookup D (Some fs)) = true;
cp_templates : forall q,
  fs_lookup (T ++ q) (Some fs) = fs_lookup (T ++ q) (Some fs0);
cp_elsewhere : forall q,
  ~ q `prefix_of` D ->
  (forall rel, fs_lookup (T ++ rel) (Some fs0) <> None -> ~ q `prefix_of` (D ++ rel)) ->
  fs_lookup q (Some fs) = fs_lookup q (Some fs0);
cp_files : forall q u,
  fs_lookup q (Some fs0) = Some (File u) ->
  (forall rel, is_file (fs_lookup (T ++ rel) (Some fs0)) = true -> q <> D ++ rel) ->
  fs_lookup q (Some fs) = Some (File u);
cp_dirs : forall q,
  is_dir (fs_lookup q (Some fs0)) = true -> is_dir (fs_lookup q (Some fs)) = true;
cp_rendered : forall rel text,
  rel <> [] -> fs_lookup (T ++ rel) (Some fs0) = Some (File text) ->
  exists out, rendering text env = inr out /\
              fs_lookup (D ++ rel) (Some fs) = Some (File out);
cp_mirrored : forall rel,
  rel <> [] -> is_dir (fs_lookup (T ++ rel) (Some fs0)) = true ->
  is_dir (fs_lookup (D ++ rel) (Some fs)) = true
}.

End RendererSpec.

(** One turn of the loop, seen from inside the destination directory:
    [tpl] is the template directory, [o] the destination. *)
Definition render_local (tpl : option node) (env : gmap string string)
    (rel : path) (o : option node) : option (option node) :=
  match fs_lookup rel tpl with
  | Some (Dir _) => fs_mkdir rel o
  | Some (File text) =>
      match rendering text env with
      | inr out => fs_write rel out o
      | inl _ => None
      end
  | None => None
  end.

Fixpoint render_all (tpl : option node) (env : gmap string string)
    (l : list path) (o : option node) : option (option node) :=
  match l with
  | [] => Some o
  | rel :: l' =>
      match render_local tpl env rel o with
      | Some o' => render_all tpl env l' o'
      | None => None
      end
  end.

(** ** Compose documents *)

(** The mapping a compose document holds for a service, if it holds one. *)
Definition service_entry (data : yaml) (app_name : string) : option (list (string * yaml)) :=
  match yaml_at ["services"; app_name] data with
  | Some (YMap m) => Some m
  | _ => None
  end.

(** ** The remote shell *)

(** The control operators between the simple commands of a command line. *)
Inductive control := Seq | AndIf | OrIf.

Definition control_of (token : string) : option control :=
  if String.eqb token ";" then Some Seq
  else if String.eqb token "&&" then Some AndIf
  else if String.eqb token "||" then Some OrIf
  else None.

(** A command line is a first simple command and the following ones, each
    with the operator before it. *)
Fixpoint sh_parse (tokens : list string) : list string * list (control * list string) :=
  match tokens with
  | [] => ([], [])
  | t :: ts =>
      let (c, rest) := sh_parse ts in
      match control_of t with
      | Some o => ([], (o, c) :: rest)
      | None => (t :: c, rest)
      end
  end.

(** The simple commands the shell runs, in order, when the [i]-th simple
    command [c] of the line exits with [status i c]: after [;] always, after
    [&&] when the last status is 0, after [||] when it is not. *)
Fixpoint sh_rest (status : nat -> list string -> Z) (i : nat) (last : Z)
    (rest : list (control * list string)) : list (list string) :=
  match rest with
  | [] => []
  | (o, c) :: rest' =>
      let runs := match o with
                  | Seq => true
                  | AndIf => (last =? 0)%Z
                  | OrIf => negb (last =? 0)%Z
                  end in
      if runs then c :: sh_rest status (S i) (status i c) rest'
      else sh_rest status (S i) last rest'
  end.

Definition sh_run (status : nat -> list string -> Z) (tokens : list string)
  : list (list string) :=
  let (c, rest) := sh_parse tokens in
  c :: sh_rest status 1 (status 0%nat c) rest.

Definition plain (cmd : list string) : Prop :=
  Forall (fun token => control_of token = None) cmd.

(** ** Sequences of calls on the session *)

(** The calls [cs], made one after the other after [history], all returned. *)
Fixpoint all_returned (ses : session) (history : list call) (cs : list call) : Prop :=
  match cs with
  | [] => True
  | c :: cs' =>
      (exists b, ses history c = Returned b) /\ all_returned ses (history ++ [c]) cs'
  end.

(** The local side of the process is untouched. *)
Definition same_local (s s' : state) : Prop :=
  st_fs s' = st_fs s /\ st_env s' = st_env s /\ st_log s' = st_log s.

(** [m] only talks to the session, and the calls it makes follow one of the
    sequences in [L]: when it completes it has made all the calls of one,
    and all returned; when it raises, the exception is the one raised by
    the last call it made, the calls before returned, and none was made
    after it. *)
Definition follows (ses : session) (m : M unit) (L : list call -> Prop) : Prop :=
  forall s,
    match m s with
    | Ok _ s' =>
        same_local s s' /\
        exists cs, L cs /\ st_trace s' = st_trace s ++ cs /\
                   all_returned ses (st_trace s) cs
    | Raise e s' =>
        same_local s s' /\
        exists cs issued c,
          L cs /\ (issued ++ [c]) `prefix_of` cs /\
          st_trace s' = st_trace s ++ issued ++ [c] /\
          all_returned ses (st_trace s) issued /\
          ses (st_trace s ++ issued) c = Raised e
    end.

Definition seq_of (L1 L2 : list call -> Prop) : list call -> Prop :=
  fun cs => exists cs1 cs2, cs = cs1 ++ cs2 /\ L1 cs1 /\ L2 cs2.

(** The calls [cs], one after the other. *)
Definition issue (ses : session) (cs : list call) : M unit :=
  for_each cs (fun c => session_call ses c ;; ret tt).

(** Two statements that do the same in every state. *)
Definition same_runs {A} (m m' : M A) : Prop := forall s, m s = m' s.

Section DeploySpec.
Variable install_docker : list string.
Variable docker_compose_build : path -> list string.
Variable apt_get_install : list string -> list string.

(** The probes and what they may trigger. *)
Definition provisioning : list call :=
[ Run (probe "docker"); Run install_docker;
  Run (probe "python"); Run (apt_get_install ["python-is-python3"]);
  Run (probe "nginx"); Run (apt_get_install ["nginx"]);
  Run ["rm"; "/etc/nginx/sites-available/default"];
  Run ["rm"; "/etc/nginx/sites-enabled/default"] ].

(** The steps after the probes. *)
Definition rollout (self : Webapp) : list call :=
[ Upload (target_build_dir self) (deployment_dir self);
  Run ["cp"; "-r"; as_posix (deployment_dir self ++ ["nginx_config"]) +:+ "/.";
       "/etc/nginx/"];
  Run (docker_compose_build (deployed_docker_compose_yaml self));
  Run (set_up_ssl_cert apt_get_install (domain_name self) (email self));
  Run ["service"; "nginx"; "reload"] ].

Definition ensure (ses : session) (tool : string) (installs : list call) : M unit :=
b ← session_run ses (probe tool);
if b : bool then issue ses installs else ret tt.

End DeploySpec.

(** * A target, its files and its host *)

Module Demo.

(** A flow-style printer standing for [YAML().dump], and the loader that
    reads back what it prints for the compose document of the target. *)
Fixpoint yaml_show (d : yaml) : string :=
  match d with
  | YNull => "null"
  | YBool b => if b then "true" else "false"
  | YInt z => str z
  | YStr s => s
  | YSeq items => "[" +:+ String.concat ", " (map yaml_show items) +:+ "]"
  | YMap es =>
      "{" +:+ String.concat ", "
                (map (fun e : string * yaml =>
                        let (k, v) := e in k +:+ ": " +:+ yaml_show v) es)
          +:+ "}"
  end.

Definition compose : yaml :=
  YMap [("services",
         YMap [("shop",
                YMap [("build", YMap [("context", YStr "."); ("network", YStr "host")]);
                      ("ports", YNull);
                      ("network_mode", YStr "host")])])].

Definition yaml_load (text : string) : option yaml :=
  if String.eqb text (yaml_show compose) then Some compose else None.

Definition module_dir : path := ["pkg"].

Definition self : Webapp :=
  mkWebapp "shop"
           ["repo"; "targets"; "shop"; "src"; "shop"]
           ["repo"; "build"; "shop"]
           "shop.example.org" 8000 "ops@example.org"
           [(8080, 80); (8443, 443)]%Z
           ["srv"; "shop"].

Definition webapp_config : node :=
  Dir [("Dockerfile",
        File "FROM python:3; EXPOSE ${EXPOSED_PORTS}; CMD uvicorn --port $APPLICATION_PORT");
       ("docker-compose.yaml",
        File "{services: {${TARGET_NAME}: {build: {context: ., network: host}, ports: null, network_mode: host}}}")].

Definition site_conf : string :=
  "server_name ${DOMAIN_NAME}; proxy_pass http://127.0.0.1:${APPLICATION_PORT};".

Definition nginx_config : node :=
  Dir [("conf.d", Dir [("site.conf", File site_conf)])].

Definition sources : list (string * node) :=
  [("shop", Dir [("__init__.py", File ""); ("main.py", File "app = FastAPI()")])].

(** The repository with a build directory left by hand: it has no [app]. *)
Definition disk : node :=
  Dir [("pkg", Dir [("webapp_config", webapp_config); ("nginx_config", nginx_config)]);
       ("repo",
        Dir [("targets", Dir [("shop", Dir [("src", Dir sources)])]);
             ("build", Dir [("shop", Dir [("notes.txt", File "keep")])])])].

Definition environ : gmap string string := {["PATH" := "/usr/bin"]}.

Definition start : state := mkState disk environ [] [].

(** The command lists of the wrappers. *)
Definition install_docker : list string :=
  ["curl"; "-fsSL"; "https://get.docker.com"; "|"; "sh"].
Definition docker_compose_build (compose_file : path) : list string :=
  ["docker"; "compose"; "-f"; as_posix compose_file; "build"].
Definition apt_get_install (packages : list string) : list string :=
  ["apt-get"; "install"; "-y"] ++ packages.

(** A host on which every command exits with the same status. *)
Definition host_exits (status : Z) : host := fun _ _ => Exit status.

Definition deploy_on (h : host) : res unit :=
  deploy install_docker docker_compose_build apt_get_install (SSHSession h) self start.

(** The state a clean build leaves. *)
Definition built : state :=
  state_of (build yaml_load yaml_show module_dir self true start).

(** A reverse-proxy template with a rewrite rule next to a placeholder. *)
Definition rewrite_rule : string :=
  "rewrite ^/(.*)$ /$1 break; server_name ${DOMAIN_NAME};".

Definition proxy_only : state :=
  mkState (Dir [("pkg", Dir [("nginx_config", Dir [("site.conf", File rewrite_rule)])])])
          environ [] [].

(** Two templates, each with a placeholder of its own that the environment
    does not have. *)
Definition two_missing : state :=
  mkState (Dir [("tpl", Dir [("a.conf", File "x $A_MISSING");
                             ("b.conf", File "y $B_MISSING")])])
          environ [] [].

(** An environment that has the variables of the Dockerfile template only. *)
Definition partial : state :=
  mkState disk (<["EXPOSED_PORTS" := "80 443"]> (<["APPLICATION_PORT" := "8000"]> environ))
          [] [].

(** An environment for the reverse-proxy templates. *)
Definition proxied : state :=
  mkState disk (<["DOMAIN_NAME" := "shop.example.org"]>
                  (<["APPLICATION_PORT" := "8000"]> environ))
          [] [].

Definition first_run : state :=
  state_of (copy_files_with_substitution ["pkg"; "nginx_config"] ["out"] proxied).

(** A build directory that holds the compose document of the target. *)
Definition artifact : state :=
  mkState (Dir [("art", Dir [("docker-compose.yaml", File (yaml_show compose))])])
          environ [] [].

End Demo.

(** * The rest of the module *)

(** ** Starting and stopping the services *)

Section Lifecycle.
(** The command lists of [devious.wrappers.docker]. *)
Variable docker_compose_up : path -> list string.
Variable docker_compose_stop : path -> list string.

Definition run (ses : session) (self : Webapp) : M unit :=
  session_run ses (docker_compose_up (deployed_docker_compose_yaml self)) ;;
  session_run ses ["service"; "nginx"; "start"] ;;
  ret tt.

Definition stop (ses : session) (self : Webapp) : M unit :=
  session_run ses (docker_compose_stop (deployed_docker_compose_yaml self)) ;;
  ret tt.

End Lifecycle.

(** ** Scaffolding a target *)

(** [Path.mkdir(parents=True)]: the missing directories on the way are
    created; an entry that is already there, of either kind, is an error. *)
Definition path_mkdir_new (p : path) : M unit :=
  fun s => match fs_graft p (Dir []) (Some (st_fs s)) with
           | Some (Some n) => Ok tt (set_fs n s)
           | _ => Raise (match fs_lookup p (Some (st_fs s)) with
                         | Some _ => FileExistsError p
                         | None => NotADirectoryError p
                         end) s
           end.

(** [Path.touch()]: an entry that is there is left as it is (its times are
    not kept here), a missing one becomes an empty file; the directory it
    goes into must exist. *)
Definition touch_f (o : option node) : option (option node) :=
  match o with
  | None => Some (Some (File ""))
  | Some x => Some (Some x)
  end.

Definition fs_touch (p : path) : option node -> option (option node) :=
  at_path false p touch_f.

Definition path_touch (p : path) : M unit :=
  fun s => match fs_touch p (Some (st_fs s)) with
           | Some (Some n) => Ok tt (set_fs n s)
           | _ => Raise (if blocked p (st_fs s) then NotADirectoryError p
                         else FileNotFoundError p) s
           end.

(** [next(dir.glob(name), None)] for a name without wildcards is a true
    value when the directory has an entry of that name, of either kind. *)
Definition path_glob_any (dir : path) (name : string) : M bool :=
  fun s => Ok (match fs_lookup (dir ++ [name]) (Some (st_fs s)) with
               | Some _ => true
               | None => false
               end) s.

(** [logger.info]: messages below the error level are not kept. *)
Definition logger_info (m : string) : M unit := ret tt.

(** The compose document of a new target. *)
Definition scaffold_compose (target_name : string) : yaml :=
  YMap [("services",
         YMap [(target_name,
                YMap [("build", YMap [("context", YStr "."); ("network", YStr "host")]);
                      ("ports", YNull);
                      ("network_mode", YStr "host")])])].

(** The double quote, and the lines of a text, each with its line feed. *)
Definition dq : string := String (ascii_of_nat 34) EmptyString.

Fixpoint unlines (ls : list string) : string :=
  match ls with
  | [] => EmptyString
  | l :: ls' => l +:+ String "010" (unlines ls')
  end.

(** The text [example_main_py()] returns. *)
Definition example_main_py : string :=
  unlines [
    "import asyncio";
    "import concurrent.futures";
    "import logging";
    "from datetime import datetime";
    "from pathlib import Path";
    "from typing import Optional";
    EmptyString;
    "import github";
    "import github.CheckRun";
    "import pydantic";
    "import zoneinfo";
    "from fastapi import FastAPI, Header, HTTPException";
    EmptyString;
    "try:";
    "    # test_main is not in production container but can be used for load tests in test container";
    "    # pylint: disable=unused-import";
    "    from test import test_main  # noqa F401";
    "except ImportError:";
    "    print(" +:+ dq +:+ "PRODUCTION MODE" +:+ dq +:+ ")";
    "    TEST = False";
    "else:";
    "    print(" +:+ dq +:+ "TEST MODE" +:+ dq +:+ ")";
    "    TEST = True";
    EmptyString;
    EmptyString;
    "class SomePayload(pydantic.BaseModel):";
    "    some_string: str";
    EmptyString;
    "    @pydantic.field_validator(" +:+ dq +:+ "some_string" +:+ dq +:+ ")";
    "    @classmethod";
    "    def validate_state(cls, value):";
    "        if value == " +:+ dq +:+ "incorrect" +:+ dq +:+ ":";
    "            logger.debug(" +:+ dq +:+ "Ignoring incorrect value." +:+ dq +:+ ")";
    "            raise HTTPException(status_code=406, detail=" +:+ dq +:+ "Incorrect value" +:+ dq +:+ ")";
    "        return value";
    EmptyString;
    "class Webhook(pydantic.BaseModel):";
    "    some_payload: SomePayload";
    EmptyString;
    EmptyString;
    "logger = util.get_logger()";
    "logger.setLevel(logging.INFO)";
    "if TEST:";
    "    logger.setLevel(logging.DEBUG)";
    EmptyString;
    "app = FastAPI()";
    EmptyString;
    "MAX_RETRIES = 10";
    EmptyString;
    EmptyString;
    "@app.post(" +:+ dq +:+ "/" +:+ dq +:+ ")";
    "async def bot(webhook: Webhook, x_some_header: str = Header()):";
    EmptyString;
    "    event = some_header";
    EmptyString;
    "    supported_events = [" +:+ dq +:+ "some_event" +:+ dq +:+ "]";
    EmptyString;
    "    if event not in supported_events:";
    "        logger.debug(" +:+ dq +:+ "Unsupported event: %s" +:+ dq +:+ ", event)";
    "        raise HTTPException(status_code=406)";
    EmptyString;
    "    logger.info(" +:+ dq +:+ "Handling request with id: %s request_id)";
    EmptyString;
    "    loop = asyncio.get_running_loop()";
    "    with concurrent.futures.ProcessPoolExecutor() as pool:";
    "        try:";
    "            await loop.run_in_executor(";
    "                pool,";
    "                process_event,";
    "                webhook.some_payload.some_string,";
    "            )";
    "        except Exception as exc:";
    "            logger.exception(" +:+ dq +:+ "Failed to process request with id %s" +:+ dq +:+ ", request_id)";
    "            raise HTTPException(status_code=500) from exc";
    EmptyString;
    "    logger.info(" +:+ dq +:+ "Finished request with id %s" +:+ dq +:+ ", request_id)";
    "    return " +:+ dq +:+ "ok" +:+ dq;
    EmptyString;
    EmptyString;
    "def process_event(some_string: str):";
    EmptyString;
    "    # Some setup code";
    EmptyString;
    "    retries = 0";
    "    while retries <= MAX_RETRIES:";
    "        try:";
    "            # Some application code";
    "            return";
    "        except Exception:";
    "            logger.exception(" +:+ dq +:+ "Retry handling of event with some string: %s due to unexpected event" +:+ dq +:+ ", some_string)";
    "            retries += 1";
    "    raise ValueError(f" +:+ dq +:+ "Failed to process request for event with some string: {some_string} after {retries} retries." +:+ dq +:+ ")";
    EmptyString;
    EmptyString;
    "@app.get(" +:+ dq +:+ "/" +:+ dq +:+ ")";
    "async def alive():";
    "    return " +:+ dq +:+ "ok" +:+ dq ].

Section Scaffold.
Variable yaml_dump : yaml -> string.
(** [REPO_CONFIG.app_dir] *)
Variable app_dir : path.
(** [target.extend_pythonpath] and [Target.verify] of the base class. *)
Variable extend_pythonpath : path -> M unit.
Variable super_verify : M bool.

(** The tree of a new target. *)
Definition scaffold (name : string) : node :=
  Dir [("src", Dir [(name, Dir [("main.py", File example_main_py);
                                ("__init__.py", File "")]);
                    ("pyproject.toml", File "")]);
       ("tests", Dir []);
       ("docker-compose.yaml", File (yaml_dump (scaffold_compose name)))].

(** [Webapp.create]; the name of the target is one path component. *)
Definition create (target_name : string) : M unit :=
  let target_dir := app_dir ++ [target_name] in
  path_mkdir_new target_dir ;;
  let target_src_dir := target_dir ++ ["src"; target_name] in
  path_mkdir_new target_src_dir ;;
  let entrypoint := target_src_dir ++ ["main.py"] in
  path_touch (parent target_src_dir ++ ["pyproject.toml"]) ;;
  path_write_text entrypoint example_main_py ;;
  path_touch (target_src_dir ++ ["__init__.py"]) ;;
  let target_tests_dir := target_dir ++ ["tests"] in
  path_mkdir_new target_tests_dir ;;
  extend_pythonpath (parent target_src_dir) ;;
  let docker_compose_file := target_dir ++ ["docker-compose.yaml"] in
  yaml_dump_file yaml_dump (scaffold_compose target_name) docker_compose_file ;;
  logger_info ("Your target " +:+ target_name +:+
               " was set up, please register it in registered_targets.py.").

(** [Webapp.verify], which returns true when the target is not in order;
    [target_dir] is the attribute of the base class. *)
Definition verify (target_dir : path) (self : Webapp) : M bool :=
  failed ← super_verify;
  if failed : bool then ret true
  else
    requirements ← path_glob_any target_dir "requirements.txt";
    if negb requirements
    then logger_error "No Python requirements specified." ;; ret true
    else
      dockerfile ← path_glob_any target_dir "Dockerfile";
      if negb dockerfile
      then logger_error "No Dockerfile." ;; ret true
      else
        src ← path_is_dir (target_src_dir self);
        if negb src
        then logger_error ("Missing a valid 'src' dir in " +:+ as_posix target_dir +:+ ".") ;;
             ret true
        else ret false.

End Scaffold.

(** ** The local debug run *)

(** [PurePath.relative_to]: the path below [base], when it is below it. *)
Fixpoint strip_prefix (base p : path) : option path :=
  match base, p with
  | [], _ => Some p
  | b :: base', x :: p' => if String.eqb b x then strip_prefix base' p' else None
  | _ :: _, [] => None
  end.

Definition relative_to (p base : path) : exn + path :=
  match strip_prefix base p with
  | Some rel => inr rel
  | None => inl (ValueError "path is not in the subpath of the other")
  end.

(** [str.rfind(".")] *)
Fixpoint rfind_dot (s : string) : option nat :=
  match s with
  | EmptyString => None
  | String c s' =>
      match rfind_dot s' with
      | Some i => Some (S i)
      | None => if Ascii.eqb c "." then Some 0%nat else None
      end
  end.

(** [PurePath.suffix] of a name: what starts at its last dot, unless that
    dot is its first or its last character. *)
Definition suffix (name : string) : string :=
  match rfind_dot name with
  | Some i =>
      if ((0 <? i) && (i <? String.length name - 1))%nat
      then substring i (String.length name - i) name
      else ""
  | None => ""
  end.

(** [PurePath.with_suffix(suffix)] with the empty suffix, on a relative
    path. *)
Definition without_suffix (rel : path) : exn + path :=
  match rel with
  | [] => inl (ValueError "path has an empty name")
  | _ =>
      let name := List.last rel "" in
      inr (removelast rel ++
           [substring 0 (String.length name - String.length (suffix name)) name])
  end.

(** [PurePath.as_posix()] of a relative path. *)
Definition as_posix_rel (rel : path) : string :=
  match rel with
  | [] => "."
  | _ => String.concat "/" rel
  end.

(** [str.replace] of one character by another. *)
Fixpoint replace_char (a b : ascii) (s : string) : string :=
  match s with
  | EmptyString => EmptyString
  | String c s' => String (if Ascii.eqb c a then b else c) (replace_char a b s')
  end.

(** [self.entrypoint], set by [__init__]. *)
Definition entrypoint (self : Webapp) : path := target_src_dir self ++ ["main.py"].

Section Debug.
(** [subprocess.run] of a command, whose result is not looked at. *)
Variable subprocess_run : list string -> M unit.

(** The module [uvicorn] is asked to serve. *)
Definition uvicorn_app (self : Webapp) : exn + string :=
  match relative_to (entrypoint self) (parent (target_src_dir self)) with
  | inr rel =>
      match without_suffix rel with
      | inr module => inr (replace_char "/" "." (as_posix_rel module) +:+ ":app")
      | inl e => inl e
      end
  | inl e => inl e
  end.

(** [Webapp.debug]; [target_dir] is the attribute of the base class. *)
Definition debug (target_dir : path) (self : Webapp) : M unit :=
  subprocess_run ["pip"; "install"; "-r"; as_posix (target_dir ++ ["requirements.txt"])] ;;
  subprocess_run ["fastapi"; "dev"; as_posix (target_src_dir self ++ ["main.py"])] ;;
  app ← lift (uvicorn_app self);
  subprocess_run ["uvicorn"; app; "--reload"; "--reload-dir";
                  as_posix (target_src_dir self);
                  "--port"; str (application_port self)].

End Debug.

(** * Further notions used in the statements *)

(** [c in s] for a character. *)
Fixpoint occurs (c : ascii) (s : string) : bool :=
  match s with
  | EmptyString => false
  | String c' s' => Ascii.eqb c c' || occurs c s'
  end.

(** The document [configure_compose] writes for the document [data]. *)
Definition with_ports (app_name : string) (ports : list (Z * Z)) (data : yaml) : yaml :=
  match getitem data "services" with
  | inr services =>
      match getitem services app_name with
      | inr service =>
          match update service "ports" (port_strings ports) with
          | inr service' => mutated data "services" (mutated services app_name service')
          | inl _ => data
          end
      | inl _ => data
      end
  | inl _ => data
  end.

(** A name that is one component of a path. *)
Definition component (name : string) : Prop :=
  name <> "" /\ name <> "." /\ name <> ".." /\ occurs "/" name = false.

(** The state [s'] differs from [s] in what lies at [T] and below, where
    its tree is [t']. *)
Definition changed_below (T : path) (t' : node) (s s' : state) : Prop :=
  fs_lookup T (Some (st_fs s')) = Some t' /\
  (forall q, apart T q -> fs_lookup q (Some (st_fs s')) = fs_lookup q (Some (st_fs s))) /\
  st_env s' = st_env s /\ st_log s' = st_log s /\ st_trace s' = st_trace s.

(** The tokens of a template that are not literal text: its placeholders,
    escapes and ill-formed [$], in their order. *)
Definition is_mark (t : token) : bool :=
  match t with Lit _ => false | _ => true end.

Definition marks (ts : list token) : list token := List.filter is_mark ts.

(** ** The order of a listing *)

(** Every entry of [l] that has a parent comes after it: the parent is in
    [seen] or earlier in [l]. *)
Fixpoint parents_first (seen l : list path) : Prop :=
  match l with
  | [] => True
  | rel :: l' =>
      (removelast rel = [] \/ In (removelast rel) seen) /\ parents_first (rel :: seen) l'
  end.

(** The renderer under way from the file system [fs0], the entries [seen]
    done: the templates are those of [fs0], the destination is a directory,
    it holds no file where the templates have a directory and no directory
    where they have a file, and every entry done has its counterpart. *)
Record underway (T D : path) (fs0 : node) (env : gmap string string)
    (seen : list path) (s : state) : Prop := {
uw_templates : forall q,
  fs_lookup (T ++ q) (Some (st_fs s)) = fs_lookup (T ++ q) (Some fs0);
uw_env : st_env s = env;
uw_dest : is_dir (fs_lookup D (Some (st_fs s))) = true;
uw_files : forall q, q <> [] ->
  is_file (fs_lookup (D ++ q) (Some (st_fs s))) = true ->
  is_dir (fs_lookup (T ++ q) (Some fs0)) = false;
uw_dirs : forall q, q <> [] ->
  is_dir (fs_lookup (D ++ q) (Some (st_fs s))) = true ->
  is_file (fs_lookup (T ++ q) (Some fs0)) = false;
uw_seen : forall q, In q seen -> fs_lookup (D ++ q) (Some (st_fs s)) <> None
}.

(** * More targets and states *)

Module Sample.

(** A file without placeholders, its two lines ended the DOS way, and a
    template set that has it. *)
Definition robots_txt : string :=
  "User-agent: *" +:+ String "013" (String "010" ("Disallow: /private" +:+
  String "013" (String "010" EmptyString))).

Definition static : state :=
  mkState (Dir [("tpl", Dir [("robots.txt", File robots_txt);
                             ("site.conf", File Demo.site_conf)])])
          (st_env Demo.proxied) [] [].

(** The environment of [Demo.proxied] with one more variable. *)
Definition proxied_at_home : state :=
  mkState Demo.disk (<["HOME" := "/root"]> (st_env Demo.proxied)) [] [].

(** A loader that reads back the compose document of [Demo] before and
    after its ports were set to [8080:80]. *)
Definition yaml_load (text : string) : option yaml :=
  if String.eqb text (Demo.yaml_show Demo.compose) then Some Demo.compose
  else if String.eqb text (Demo.yaml_show (with_ports "shop" [(8080, 80)]%Z Demo.compose))
       then Some (with_ports "shop" [(8080, 80)]%Z Demo.compose)
  else None.

Definition configured : state :=
  state_of (configure_compose yaml_load Demo.yaml_show ["art"] "shop" [(8080, 80)]%Z
              Demo.artifact).

(** A target whose source directory is gone. *)
Definition orphan : Webapp :=
  mkWebapp "shop"
           ["repo"; "targets"; "gone"; "src"; "shop"]
           ["repo"; "build"; "shop"]
           "shop.example.org" 8000 "ops@example.org"
           [(8080, 80); (8443, 443)]%Z
           ["srv"; "shop"].

(** Scaffolding a second target, [blog], next to [shop]. *)
Definition app_dir : path := ["repo"; "targets"].

Definition extend_pythonpath (p : path) : M unit :=
  fun s => Ok tt (set_env (<["PYTHONPATH" := as_posix p]> (st_env s)) s).

Definition super_verify : M bool := ret false.

Definition yaml_load_blog (text : string) : option yaml :=
  if String.eqb text (Demo.yaml_show (scaffold_compose "blog"))
  then Some (scaffold_compose "blog") else None.

Definition blog : Webapp :=
  mkWebapp "blog"
           ["repo"; "targets"; "blog"; "src"; "blog"]
           ["repo"; "build"; "blog"]
           "blog.example.org" 8001 "ops@example.org"
           [(8081, 80)]%Z
           ["srv"; "blog"].

(** A destination with a file in the place of the directory [conf.d]. *)
Definition clash : state :=
  mkState (Dir [("pkg", Dir [("nginx_config", Demo.nginx_config)]);
                ("out", Dir [("conf.d", File "stale")])])
          (st_env Demo.proxied) [] [].

(** A template in Latin-1: the last byte is an e with an acute accent, which
    is no UTF-8. *)
Definition menu_latin1 : string := "caf" +:+ String "233" EmptyString.

Definition latin1 : state :=
  mkState (Dir [("tpl", Dir [("menu.txt", File menu_latin1)])]) Demo.environ [] [].

(** An environment with a value that was not UTF-8: [os.environ] gives the
    byte 233 as the lone surrogate U+DCE9, held here as the three bytes of
    its escape. *)
Definition escaped_byte : string :=
  String "237" (String "179" (String "169" EmptyString)).

Definition greeted : state :=
  mkState (Dir [("tpl", Dir [("greeting.txt", File "hello $WHO")])])
          (<["WHO" := "Ren" +:+ escaped_byte]> Demo.environ) [] [].

(** A session that returns a true value for the docker probe and a false
    one for every other call. *)
Definition is_docker_probe (c : call) : bool :=
  match c with
  | Run ("command" :: "-v" :: "docker" :: _) => true
  | _ => false
  end.

Definition answers_docker : session := fun _ c => Returned (is_docker_probe c).

(** A [subprocess.run] that notes the command line in the log. *)
Definition subprocess_run (args : list string) : M unit :=
  fun s => Ok tt (add_log (String.concat " " args) s).

End Sample.

(** * Properties *)

(** ** Association lists *)

Section AssocFacts.
Context {A : Type}.
Implicit Types (v : A) (l : list (string * A)) (o : option A).

Lemma assoc_set_same k v l : assoc k (assoc_set k v l) = Some v.
Proof.
  induction l as [|[k' v'] l IH]; simpl.
  - now rewrite String.eqb_refl.
  - destruct (String.eqb k k') eqn:E; simpl; rewrite E; auto.
Qed.

Lemma assoc_set_other k k' v l : k <> k' -> assoc k' (assoc_set k v l) = assoc k' l.
Proof.
  intros Hne. induction l as [|[k0 v0] l IH]; simpl.
  - destruct (String.eqb_spec k' k); congruence.
  - destruct (String.eqb_spec k k0); simpl.
    + subst. destruct (String.eqb_spec k' k0); congruence.
    + now rewrite IH.
Qed.

Lemma assoc_del_same k l : assoc k (assoc_del k l) = None.
Proof.
  induction l as [|[k' v'] l IH]; simpl; auto.
  destruct (String.eqb k k') eqn:E; simpl; try rewrite E; auto.
Qed.

Lemma assoc_del_other k k' l : k <> k' -> assoc k' (assoc_del k l) = assoc k' l.
Proof.
  intros Hne. induction l as [|[k0 v0] l IH]; simpl; auto.
  destruct (String.eqb_spec k k0); simpl.
  - subst. destruct (String.eqb_spec k' k0); congruence.
  - now rewrite IH.
Qed.

Lemma assoc_upd_same k o l : assoc k (assoc_upd k o l) = o.
Proof. destruct o; simpl; [apply assoc_set_same | apply assoc_del_same]. Qed.

Lemma assoc_upd_other k k' o l : k <> k' -> assoc k' (assoc_upd k o l) = assoc k' l.
Proof. destruct o; simpl; [apply assoc_set_other | apply assoc_del_other]. Qed.


Lemma assoc_In k v l : assoc k l = Some v -> In (k, v) l.
Proof.
  induction l as [|[k' v'] l IH]; simpl; [discriminate|].
  destruct (String.eqb_spec k k').
  - intros [= ->]. subst. now left.
  - intros H. right. now apply IH.
Qed.
End AssocFacts.

(** ** Looking up and updating the file system *)


Lemma fs_lookup_None' p : fs_lookup p None = None.
Proof. destruct p; reflexivity. Qed.

Lemma fs_lookup_File p s : p <> [] -> fs_lookup p (Some (File s)) = None.
Proof. destruct p; [congruence | reflexivity]. Qed.

Lemma fs_lookup_app p q o : fs_lookup (p ++ q) o = fs_lookup q (fs_lookup p o).
Proof.
  revert o. induction p as [|x p IH]; intros o; simpl; [reflexivity|].
  destruct o as [[s|es]|]; simpl; auto using fs_lookup_None'.
  all: now rewrite fs_lookup_None'.
Qed.

(** [at_path] on a concatenated path works inside the subtree. *)
Lemma at_path_app b p q f o :
  at_path b (p ++ q) f o = at_path b p (at_path b q f) o.
Proof.
  revert o. induction p as [|x p IH]; intros o; simpl; [reflexivity|].
  destruct o as [[s|es]|]; simpl; auto.
  - now rewrite IH.
  - destruct b; auto. now rewrite IH.
Qed.

(** What the call leaves at [p] and below is what [f] returned. *)
Lemma at_path_lookup b p f o o' :
  at_path b p f o = Some o' ->
  exists r, f (fs_lookup p o) = Some r /\ forall q, fs_lookup (p ++ q) o' = fs_lookup q r.
Proof.
  revert o o'. induction p as [|x p IH]; intros o o' H; simpl in *.
  - exists o'. split; [|reflexivity]. exact H.
  - destruct o as [[s|es]|]; simpl in *; try discriminate.
    + destruct (at_path b p f (assoc x es)) as [c|] eqn:E; [|discriminate].
      injection H as <-. destruct (IH _ _ E) as (r & Hr & Hq).
      exists r. split; [exact Hr|]. intros q. simpl.
      rewrite assoc_upd_same. apply Hq.
    + destruct b; [|discriminate].
      destruct (at_path true p f None) as [c|] eqn:E; [|discriminate].
      injection H as <-. destruct (IH _ _ E) as (r & Hr & Hq).
      rewrite fs_lookup_None' in Hr.
      exists r. split; [exact Hr|]. intros q. simpl.
      rewrite assoc_upd_same. apply Hq.
Qed.

(** Entries that are neither on the way to [p] nor below it are untouched. *)
Lemma at_path_frame b p f o o' q :
  at_path b p f o = Some o' ->
  ~ q `prefix_of` p -> ~ p `prefix_of` q ->
  fs_lookup q o' = fs_lookup q o.
Proof.
  revert o o' q. induction p as [|x p IH]; intros o o' q H Hqp Hpq.
  - exfalso. apply Hpq. apply prefix_nil.
  - destruct q as [|y q]; [exfalso; apply Hqp, prefix_nil|].
    simpl in H. destruct o as [[s|es]|]; try discriminate.
    + destruct (at_path b p f (assoc x es)) as [c|] eqn:E; [|discriminate].
      injection H as <-. simpl.
      destruct (String.eqb_spec x y) as [->|Hne].
      * rewrite assoc_upd_same. apply (IH _ _ _ E).
        -- intros Hp. apply Hqp. now apply prefix_cons.
        -- intros Hp. apply Hpq. now apply prefix_cons.
      * now rewrite assoc_upd_other.
    + destruct b; [|discriminate].
      destruct (at_path true p f None) as [c|] eqn:E; [|discriminate].
      injection H as <-. simpl.
      destruct (String.eqb_spec x y) as [->|Hne].
      * rewrite assoc_upd_same. rewrite (IH _ _ _ E).
        -- apply fs_lookup_None'.
        -- intros Hp. apply Hqp. now apply prefix_cons.
        -- intros Hp. apply Hpq. now apply prefix_cons.
      * rewrite assoc_upd_other by assumption. simpl. apply fs_lookup_None'.
Qed.

(** The directories on the way to [p] exist after the call. *)
Lemma at_path_ancestors b p f o o' q r :
  at_path b p f o = Some o' -> p = q ++ r -> r <> [] ->
  is_dir (fs_lookup q o') = true.
Proof.
  revert o o' q. induction p as [|x p IH]; intros o o' q H Hp Hr.
  - destruct q, r; simpl in Hp; congruence.
  - simpl in H. destruct q as [|y q]; simpl in Hp.
    + destruct o as [[s|es]|]; try discriminate.
      * destruct (at_path b p f (assoc x es)); [|discriminate]. now injection H as <-.
      * destruct b; [|discriminate].
        destruct (at_path true p f None); [|discriminate]. now injection H as <-.
    + injection Hp as Hxy Hpq. subst x p.
      destruct o as [[s|es]|]; try discriminate.
      * destruct (at_path b (q ++ r) f (assoc y es)) as [c|] eqn:E; [|discriminate].
        injection H as <-. simpl. rewrite assoc_upd_same. eapply IH; eauto.
      * destruct b; [|discriminate].
        destruct (at_path true (q ++ r) f None) as [c|] eqn:E; [|discriminate].
        injection H as <-. simpl. rewrite assoc_upd_same. eapply IH; eauto.
Qed.

(** Every entry below a directory is listed. *)
Lemma rglob_complete p t x :
  p <> [] -> fs_lookup p (Some t) = Some x -> In p (rglob t).
Proof.
  revert t. induction p as [|a p IH]; intros t Hne H; [congruence|].
  simpl in H. destruct t as [s|es]; [discriminate|].
  destruct (assoc a es) as [c|] eqn:Ea; [|now rewrite fs_lookup_None' in H].
  apply assoc_In in Ea. simpl. apply in_or_app.
  destruct p as [|b p].
  - left. apply in_map_iff. exists (a, c). auto.
  - right. apply in_flat_map. exists (a, c). split; [assumption|].
    apply in_map. apply IH; [congruence | assumption].
Qed.


(** ** File-system calls *)

Lemma apart_sym p q : apart p q -> apart q p.
Proof. intros [H1 H2]. split; assumption. Qed.

Lemma apart_app p q a b : apart p q -> apart (p ++ a) (q ++ b).
Proof.
  intros [H1 H2]. split; intros H.
  - destruct (prefix_weak_total p q (q ++ b)) as [?|?]; auto.
    + eapply prefix_app_l. exact H.
    + now apply prefix_app_r.
  - destruct (prefix_weak_total p q (p ++ a)) as [?|?]; auto.
    + now apply prefix_app_r.
    + eapply prefix_app_l. exact H.
Qed.

Lemma apart_app_l p q a : apart p q -> apart (p ++ a) q.
Proof. intros H. rewrite <- (app_nil_r q). now apply apart_app. Qed.

Lemma apart_app_r p q b : apart p q -> apart p (q ++ b).
Proof. intros H. rewrite <- (app_nil_r p). now apply apart_app. Qed.

(** The directories on the way to [p] were not files before the call. *)
Lemma at_path_ancestors_before b p f o o' q r :
  at_path b p f o = Some o' -> p = q ++ r -> r <> [] ->
  is_file (fs_lookup q o) = false.
Proof.
  revert o o' q. induction p as [|x p IH]; intros o o' q H Hp Hr.
  - destruct q, r; simpl in Hp; congruence.
  - simpl in H. destruct q as [|y q]; simpl in Hp.
    + destruct o as [[s|es]|]; try discriminate; reflexivity.
    + injection Hp as Hxy Hpq. subst x p.
      destruct o as [[s|es]|]; try discriminate.
      * destruct (at_path b (q ++ r) f (assoc y es)) as [c|] eqn:E; [|discriminate].
        simpl. eapply IH; eauto.
      * reflexivity.
Qed.

Lemma mkdir_f_shallow : shallow mkdir_f.
Proof.
  intros [[s|es]|] r q H Hq; simpl in H; try discriminate.
  - now injection H as <-.
  - injection H as <-. rewrite fs_lookup_None'. destruct q; [congruence|].
    simpl. apply fs_lookup_None'.
Qed.

Lemma write_f_shallow s : shallow (write_f s).
Proof.
  intros [[t|es]|] r q H Hq; simpl in H; try discriminate; injection H as <-.
  - now rewrite !fs_lookup_File.
  - rewrite fs_lookup_None'. now rewrite fs_lookup_File.
Qed.

(** A shallow call at [p] changes the entries on the way to [p] only. *)
Lemma at_path_elsewhere b p f o o' q :
  shallow f -> at_path b p f o = Some o' -> ~ q `prefix_of` p ->
  fs_lookup q o' = fs_lookup q o.
Proof.
  intros Hf H Hq. destruct (decide (p `prefix_of` q)) as [[r ->]|Hpq].
  - destruct (at_path_lookup _ _ _ _ _ H) as (res & Hres & Hlk).
    rewrite Hlk, fs_lookup_app. apply (Hf _ _ _ Hres).
    intros ->. apply Hq. now rewrite app_nil_r.
  - eapply at_path_frame; eauto.
Qed.

Lemma lookup_below_dir p r o x :
  fs_lookup (p ++ r) o = Some x -> r <> [] -> is_dir (fs_lookup p o) = true.
Proof.
  rewrite fs_lookup_app. intros H Hr.
  destruct (fs_lookup p o) as [[s|es]|]; auto.
  - now rewrite fs_lookup_File in H.
  - now rewrite fs_lookup_None' in H.
Qed.

Lemma prefix_cases (q p : path) :
  q `prefix_of` p -> q = p \/ exists r, p = q ++ r /\ r <> [].
Proof.
  intros [r ->]. destruct r as [|a r].
  - left. now rewrite app_nil_r.
  - right. exists (a :: r). split; [reflexivity | discriminate].
Qed.

(** *** [mkdir] *)

Lemma path_mkdir_ok p s s' :
  path_mkdir p s = Ok tt s' ->
  exists n, s' = set_fs n s /\ fs_mkdir p (Some (st_fs s)) = Some (Some n).
Proof.
  unfold path_mkdir. destruct (fs_mkdir p (Some (st_fs s))) as [[n|]|]; try discriminate.
  intros [= <-]. eauto.
Qed.

Lemma path_mkdir_raise p s e s' : path_mkdir p s = Raise e s' -> s' = s.
Proof.
  unfold path_mkdir. destruct (fs_mkdir p (Some (st_fs s))) as [[n|]|]; try discriminate.
  all: now intros [= _ <-].
Qed.

Lemma fs_mkdir_is_dir p o n :
  fs_mkdir p o = Some (Some n) -> is_dir (fs_lookup p (Some n)) = true.
Proof.
  intros H. destruct (at_path_lookup _ _ _ _ _ H) as (r & Hr & Hlk).
  specialize (Hlk []). rewrite app_nil_r in Hlk. simpl in Hlk. rewrite Hlk.
  unfold mkdir_f in Hr. destruct (fs_lookup p o) as [[s|es]|]; try discriminate.
  all: now injection Hr as <-.
Qed.

Lemma fs_mkdir_fresh p o n :
  fs_lookup p o = None -> fs_mkdir p o = Some (Some n) ->
  fs_lookup p (Some n) = Some (Dir []).
Proof.
  intros Hnone H. destruct (at_path_lookup _ _ _ _ _ H) as (r & Hr & Hlk).
  specialize (Hlk []). rewrite app_nil_r in Hlk. simpl in Hlk. rewrite Hlk.
  rewrite Hnone in Hr. simpl in Hr. now injection Hr as <-.
Qed.

Lemma fs_mkdir_elsewhere p o n q :
  fs_mkdir p o = Some (Some n) -> ~ q `prefix_of` p ->
  fs_lookup q (Some n) = fs_lookup q o.
Proof. intros H. eapply at_path_elsewhere; eauto using mkdir_f_shallow. Qed.

Lemma fs_mkdir_keeps_file p o n q t :
  fs_mkdir p o = Some (Some n) -> fs_lookup q o = Some (File t) ->
  fs_lookup q (Some n) = Some (File t).
Proof.
  intros H Hq. rewrite <- Hq. eapply fs_mkdir_elsewhere; eauto.
  intros Hpre. destruct (prefix_cases _ _ Hpre) as [->|(r & -> & Hr)].
  - destruct (at_path_lookup _ _ _ _ _ H) as (res & Hres & _).
    rewrite Hq in Hres. discriminate.
  - pose proof (at_path_ancestors_before _ _ _ _ _ q r H eq_refl Hr) as Hf.
    rewrite Hq in Hf. discriminate.
Qed.

Lemma fs_mkdir_keeps_dir p o n q :
  fs_mkdir p o = Some (Some n) -> is_dir (fs_lookup q o) = true ->
  is_dir (fs_lookup q (Some n)) = true.
Proof.
  intros H Hq. destruct (decide (q `prefix_of` p)) as [Hpre|Hpre].
  - destruct (prefix_cases _ _ Hpre) as [->|(r & -> & Hr)].
    + eapply fs_mkdir_is_dir; eauto.
    + eapply at_path_ancestors; eauto.
  - erewrite fs_mkdir_elsewhere; eauto.
Qed.

(** *** [write_text] *)

Lemma path_write_bytes_ok p t s s' :
  path_write_bytes p t s = Ok tt s' ->
  exists n, s' = set_fs n s /\ fs_write p t (Some (st_fs s)) = Some (Some n).
Proof.
  unfold path_write_bytes. destruct (fs_write p t (Some (st_fs s))) as [[n|]|]; try discriminate.
  intros [= <-]. eauto.
Qed.

Lemma path_write_bytes_raise p t s e s' : path_write_bytes p t s = Raise e s' -> s' = s.
Proof.
  unfold path_write_bytes. destruct (fs_write p t (Some (st_fs s))) as [[n|]|]; try discriminate.
  all: now intros [= _ <-].
Qed.

Lemma path_write_bytes_error p t s e s' :
  path_write_bytes p t s = Raise e s' ->
  e = IsADirectoryError p \/ e = NotADirectoryError p \/ e = FileNotFoundError p.
Proof.
  unfold path_write_bytes. destruct (fs_write p t (Some (st_fs s))) as [[n|]|]; try discriminate.
  all: destruct (is_dir _); [|destruct (blocked _ _)]; intros [= <- _]; auto.
Qed.

Lemma path_write_text_ok p t s s' :
  path_write_text p t s = Ok tt s' ->
  exists n, s' = set_fs n s /\ fs_write p t (Some (st_fs s)) = Some (Some n).
Proof.
  unfold path_write_text. destruct (utf8_valid t); [apply path_write_bytes_ok|].
  unfold mbind, M_bind, bind. destruct (path_write_bytes p "" s); discriminate.
Qed.

Lemma path_write_text_encodes p t s s' :
  path_write_text p t s = Ok tt s' -> utf8_valid t = true.
Proof.
  unfold path_write_text. destruct (utf8_valid t); [reflexivity|].
  unfold mbind, M_bind, bind. destruct (path_write_bytes p "" s); discriminate.
Qed.

(** A write that fails has changed nothing, unless it is the encoding that
    failed: then the file is there and empty. *)
Lemma path_write_text_raise p t s e s' :
  path_write_text p t s = Raise e s' ->
  (e <> UnicodeEncodeError /\ s' = s) \/
  (e = UnicodeEncodeError /\ utf8_valid t = false /\
   exists n, s' = set_fs n s /\ fs_write p "" (Some (st_fs s)) = Some (Some n)).
Proof.
  unfold path_write_text. destruct (utf8_valid t) eqn:E.
  - intros H. left. split; [|eapply path_write_bytes_raise; eauto].
    destruct (path_write_bytes_error _ _ _ _ _ H) as [->|[->| ->]]; discriminate.
  - unfold mbind, M_bind, bind.
    destruct (path_write_bytes p "" s) as [[] s1|e1 s1] eqn:H.
    + intros [= <- <-]. right. split; [reflexivity|]. split; [reflexivity|].
      apply path_write_bytes_ok in H as (n & -> & Hn). eauto.
    + intros [= <- <-]. left. split; [|eapply path_write_bytes_raise; eauto].
      destruct (path_write_bytes_error _ _ _ _ _ H) as [->|[->| ->]]; discriminate.
Qed.

Lemma path_write_text_error p t s e s' :
  path_write_text p t s = Raise e s' ->
  e = IsADirectoryError p \/ e = NotADirectoryError p \/ e = FileNotFoundError p \/
  e = UnicodeEncodeError.
Proof.
  unfold path_write_text. destruct (utf8_valid t).
  - intros H. destruct (path_write_bytes_error _ _ _ _ _ H) as [->|[->| ->]]; auto.
  - unfold mbind, M_bind, bind.
    destruct (path_write_bytes p "" s) as [[] s1|e1 s1] eqn:H.
    + intros [= <- _]. auto.
    + intros [= <- _]. destruct (path_write_bytes_error _ _ _ _ _ H) as [->|[->| ->]]; auto.
Qed.

Lemma rendering_ok content env out :
  rendering content env = inr out <->
  utf8_valid content = true /\
  substitute (universal_newlines content) env = inr out /\
  utf8_valid out = true.
Proof.
  unfold rendering, read_as_text. destruct (utf8_valid content); [|split; [discriminate|]].
  - destruct (substitute (universal_newlines content) env) as [e|o];
      [split; [discriminate|intros (_ & [=] & _)]|].
    destruct (utf8_valid o) eqn:E; split.
    + intros [= <-]. auto.
    + now intros (_ & [= <-] & _).
    + discriminate.
    + intros (_ & [= <-] & Hv). congruence.
  - intros ([=] & _).
Qed.

Lemma fs_write_is_file p t o n :
  fs_write p t o = Some (Some n) -> fs_lookup p (Some n) = Some (File t).
Proof.
  intros H. destruct (at_path_lookup _ _ _ _ _ H) as (r & Hr & Hlk).
  specialize (Hlk []). rewrite app_nil_r in Hlk. simpl in Hlk. rewrite Hlk.
  unfold write_f in Hr. destruct (fs_lookup p o) as [[s|es]|]; try discriminate.
  all: now injection Hr as <-.
Qed.

Lemma fs_write_elsewhere p t o n q :
  fs_write p t o = Some (Some n) -> ~ q `prefix_of` p ->
  fs_lookup q (Some n) = fs_lookup q o.
Proof. intros H. eapply at_path_elsewhere; eauto using write_f_shallow. Qed.

Lemma fs_write_keeps_file p t o n q u :
  fs_write p t o = Some (Some n) -> fs_lookup q o = Some (File u) -> q <> p ->
  fs_lookup q (Some n) = Some (File u).
Proof.
  intros H Hq Hne. rewrite <- Hq. eapply fs_write_elsewhere; eauto.
  intros Hpre. destruct (prefix_cases _ _ Hpre) as [->|(r & -> & Hr)]; [congruence|].
  pose proof (at_path_ancestors_before _ _ _ _ _ q r H eq_refl Hr) as Hf.
  rewrite Hq in Hf. discriminate.
Qed.

Lemma fs_write_keeps_dir p t o n q :
  fs_write p t o = Some (Some n) -> is_dir (fs_lookup q o) = true ->
  is_dir (fs_lookup q (Some n)) = true.
Proof.
  intros H Hq. destruct (decide (q `prefix_of` p)) as [Hpre|Hpre].
  - destruct (prefix_cases _ _ Hpre) as [->|(r & -> & Hr)].
    + destruct (at_path_lookup _ _ _ _ _ H) as (res & Hres & _).
      unfold write_f in Hres. destruct (fs_lookup p o) as [[s|es]|]; discriminate.
    + eapply at_path_ancestors; eauto.
  - erewrite fs_write_elsewhere; eauto.
Qed.

(** ** Statements *)

Lemma bind_ok {A B} (m : M A) (k : A -> M B) s b s' :
  (m ≫= k) s = Ok b s' -> exists a s1, m s = Ok a s1 /\ k a s1 = Ok b s'.
Proof.
  unfold mbind, M_bind, bind. destruct (m s) as [a s1|e s1]; [eauto | discriminate].
Qed.

Lemma bind_raise {A B} (m : M A) (k : A -> M B) s e s' :
  (m ≫= k) s = Raise e s' ->
  m s = Raise e s' \/ exists a s1, m s = Ok a s1 /\ k a s1 = Raise e s'.
Proof.
  unfold mbind, M_bind, bind.
  destruct (m s) as [a s1|e1 s1]; intros H; [right; eauto | left; congruence].
Qed.

Lemma bind_step {A B} (m : M A) (k : A -> M B) s a s1 :
  m s = Ok a s1 -> (m ≫= k) s = k a s1.
Proof. unfold mbind, M_bind, bind. now intros ->. Qed.


(** A failing loop stops at its first failing turn. *)
Lemma for_each_raise {A} (l : list A) (body : A -> M unit) s e s' :
  for_each l body s = Raise e s' ->
  exists pre x post s1,
    l = pre ++ x :: post /\ for_each pre body s = Ok tt s1 /\ body x s1 = Raise e s'.
Proof.
  revert s. induction l as [|x l IH]; intros s H; simpl in H; [discriminate|].
  apply bind_raise in H as [H|([] & s1 & H1 & H2)].
  - exists [], x, l, s. auto.
  - destruct (IH _ H2) as (pre & y & post & s2 & -> & Hpre & Hy).
    exists (x :: pre), y, post, s2. repeat split; auto.
    simpl. now rewrite (bind_step _ _ _ _ _ H1).
Qed.


(** ** The template renderer *)

Lemma convert_not_unicode env ts : convert env ts <> inl UnicodeEncodeError.
Proof.
  induction ts as [|[c| |k|] ts IH]; simpl; try discriminate.
  - destruct (convert env ts); [congruence|discriminate].
  - destruct (convert env ts); [congruence|discriminate].
  - destruct (env !! k); [|discriminate].
    destruct (convert env ts); [congruence|discriminate].
Qed.

(** One turn of the loop, by what it finds among the templates. *)
Lemma copy_entry_eq T D rel s :
  copy_entry T D rel s =
  match fs_lookup (T ++ rel) (Some (st_fs s)) with
  | Some (Dir _) => path_mkdir (D ++ rel) s
  | Some (File content) =>
      match read_as_text content with
      | inl e => Raise e s
      | inr text =>
          match substitute text (st_env s) with
          | inl e => Raise e s
          | inr out => path_write_text (D ++ rel) out s
          end
      end
  | None => Raise (if blocked (T ++ rel) (st_fs s) then NotADirectoryError (T ++ rel)
                   else FileNotFoundError (T ++ rel)) s
  end.
Proof.
  unfold copy_entry, mbind, M_bind, bind, path_is_dir.
  destruct (fs_lookup (T ++ rel) (Some (st_fs s))) as [[content|es]|] eqn:El;
    cbn [is_dir]; try reflexivity.
  - unfold path_read_text, mbind, M_bind, bind, path_read_bytes. cbv beta. rewrite El.
    unfold lift, os_environ. destruct (read_as_text content) as [e|text]; [reflexivity|].
    unfold ret. destruct (substitute text (st_env s)); reflexivity.
  - unfold path_read_text, mbind, M_bind, bind, path_read_bytes. cbv beta. now rewrite El.
Qed.

(** One turn of the loop either fails and leaves the state as it found it,
    or makes a single call on the destination; when the text it would write
    cannot be encoded, it fails and leaves the file empty. *)
Lemma copy_entry_raise T D rel s e s' :
  copy_entry T D rel s = Raise e s' ->
  (e <> UnicodeEncodeError /\ s' = s) \/
  (e = UnicodeEncodeError /\
   exists content out n,
     fs_lookup (T ++ rel) (Some (st_fs s)) = Some (File content) /\
     utf8_valid content = true /\
     substitute (universal_newlines content) (st_env s) = inr out /\
     utf8_valid out = false /\
     s' = set_fs n s /\ fs_write (D ++ rel) "" (Some (st_fs s)) = Some (Some n)).
Proof.
  rewrite copy_entry_eq.
  destruct (fs_lookup (T ++ rel) (Some (st_fs s))) as [[content|es]|] eqn:El.
  - unfold read_as_text. destruct (utf8_valid content) eqn:Ev.
    + destruct (substitute (universal_newlines content) (st_env s)) as [e1|out] eqn:Es.
      * intros [= <- <-]. left. split; [|reflexivity].
        intros ->. now apply convert_not_unicode in Es.
      * intros H. apply path_write_text_raise in H as [H|(-> & Hv & n & -> & Hn)];
          [now left|right].
        split; [reflexivity|]. exists content, out, n. auto 10.
    + intros [= <- <-]. left. split; [discriminate|reflexivity].
  - unfold path_mkdir. destruct (fs_mkdir _ _) as [[n|]|]; try discriminate.
    all: destruct (is_file _); intros [= <- <-]; left; split; (discriminate || reflexivity).
  - destruct (blocked _ _); intros [= <- <-]; left; split; (discriminate || reflexivity).
Qed.

Lemma copy_entry_ok T D rel s s' :
  copy_entry T D rel s = Ok tt s' ->
  exists n, s' = set_fs n s /\
    ((is_dir (fs_lookup (T ++ rel) (Some (st_fs s))) = true /\
      fs_mkdir (D ++ rel) (Some (st_fs s)) = Some (Some n)) \/
     (exists text out,
        fs_lookup (T ++ rel) (Some (st_fs s)) = Some (File text) /\
        rendering text (st_env s) = inr out /\
        fs_write (D ++ rel) out (Some (st_fs s)) = Some (Some n))).
Proof.
  rewrite copy_entry_eq.
  destruct (fs_lookup (T ++ rel) (Some (st_fs s))) as [[content|es]|] eqn:El;
    [| |discriminate].
  - destruct (read_as_text content) as [e|text] eqn:Er; [discriminate|].
    destruct (substitute text (st_env s)) as [e|out] eqn:Es; [discriminate|].
    intros H. pose proof (path_write_text_encodes _ _ _ _ H) as Hv.
    apply path_write_text_ok in H as (n & -> & Hn).
    exists n. split; [reflexivity|]. right. exists content, out.
    split; [reflexivity|]. split; [|exact Hn].
    unfold rendering. now rewrite Er, Es, Hv.
  - intros H. apply path_mkdir_ok in H as (n & -> & Hn). eauto.
Qed.

Section Renderer.
Variables T D : path.
Hypothesis HTD : apart T D.

Lemma apart_template q rel : ~ (T ++ q) `prefix_of` (D ++ rel).
Proof. apply (apart_app T D q rel HTD). Qed.

Lemma copy_entry_rendered rel s s' :
  copy_entry T D rel s = Ok tt s' ->
  st_env s' = st_env s /\ st_log s' = st_log s /\ st_trace s' = st_trace s /\
  rendered T D (st_env s) (st_fs s) (st_fs s') [rel].
Proof.
  intros H. apply copy_entry_ok in H as (n & -> & [[Hd Hn]|(text & out & Ht & Hs & Hn)]).
  - do 3 (split; [reflexivity|]). simpl. split.
    + intros q. eapply fs_mkdir_elsewhere; eauto using apart_template.
    + intros q Hq. eapply fs_mkdir_elsewhere; eauto. apply Hq. now left.
    + intros q u Hq _. eapply fs_mkdir_keeps_file; eauto.
    + intros q Hq. eapply fs_mkdir_keeps_dir; eauto.
    + intros rel' [<-|[]]. right. split; [assumption|].
      eapply fs_mkdir_is_dir; eauto.
  - do 3 (split; [reflexivity|]). simpl. split.
    + intros q. eapply fs_write_elsewhere; eauto using apart_template.
    + intros q Hq. eapply fs_write_elsewhere; eauto. apply Hq. now left.
    + intros q u Hq Hne. eapply fs_write_keeps_file; eauto.
      apply Hne; [now left | now rewrite Ht].
    + intros q Hq. eapply fs_write_keeps_dir; eauto.
    + intros rel' [<-|[]]. left. exists text, out. repeat split; auto.
      eapply fs_write_is_file; eauto.
Qed.

Lemma rendered_nil env fs : rendered T D env fs fs [].
Proof. split; auto; intros rel []. Qed.

Lemma rendered_cons env fs0 fs1 fs2 x l :
  rendered T D env fs0 fs1 [x] -> rendered T D env fs1 fs2 l -> rendered T D env fs0 fs2 (x :: l).
Proof.
  intros H1 H2. split.
  - intros q. rewrite (rd_templates _ _ _ _ _ _ H2). apply (rd_templates _ _ _ _ _ _ H1).
  - intros q Hq. rewrite (rd_elsewhere _ _ _ _ _ _ H2), (rd_elsewhere _ _ _ _ _ _ H1); auto.
    + intros rel [<-|[]]. apply Hq. now left.
    + intros rel Hin. apply Hq. now right.
  - intros q u Hq Hne. apply (rd_files _ _ _ _ _ _ H2).
    + apply (rd_files _ _ _ _ _ _ H1); auto. intros rel [<-|[]]. apply Hne. now left.
    + intros rel Hin. rewrite (rd_templates _ _ _ _ _ _ H1). apply Hne. now right.
  - intros q Hq. apply (rd_dirs _ _ _ _ _ _ H2), (rd_dirs _ _ _ _ _ _ H1), Hq.
  - intros rel Hin.
    destruct (in_dec (fun a b : path => decide (a = b)) rel l) as [Hl|Hl].
    + destruct (rd_entries _ _ _ _ _ _ H2 rel Hl) as [(text & out & Ht & Hs & Ho)|[Hd Ho]].
      * left. exists text, out. rewrite <- (rd_templates _ _ _ _ _ _ H1). auto.
      * right. rewrite <- (rd_templates _ _ _ _ _ _ H1). auto.
    + destruct Hin as [<-|Hin]; [|contradiction].
      destruct (rd_entries _ _ _ _ _ _ H1 x (or_introl eq_refl))
        as [(text & out & Ht & Hs & Ho)|[Hd Ho]].
      * left. exists text, out. repeat split; auto.
        apply (rd_files _ _ _ _ _ _ H2); auto.
        intros rel Hrel _ Heq. apply app_inv_head in Heq. congruence.
      * right. split; auto. apply (rd_dirs _ _ _ _ _ _ H2), Ho.
Qed.

Lemma for_each_rendered l s s' :
  for_each l (copy_entry T D) s = Ok tt s' ->
  st_env s' = st_env s /\ st_log s' = st_log s /\ st_trace s' = st_trace s /\
  rendered T D (st_env s) (st_fs s) (st_fs s') l.
Proof.
  revert s. induction l as [|x l IH]; intros s H; simpl in H.
  - injection H as <-. do 3 (split; [reflexivity|]). apply rendered_nil.
  - apply bind_ok in H as ([] & s1 & H1 & H2).
    apply copy_entry_rendered in H1 as (He1 & Hl1 & Ht1 & Hr1).
    apply IH in H2 as (He2 & Hl2 & Ht2 & Hr2).
    do 3 (split; [congruence|]).
    rewrite He1 in Hr2. eapply rendered_cons; eauto.
Qed.
End Renderer.

Section RendererRuns.
Variables T D : path.
Hypothesis HTD : apart T D.

Lemma rglob_at_lists rel n x :
  rel <> [] -> fs_lookup (T ++ rel) (Some n) = Some x -> In rel (rglob_at T n).
Proof.
  intros Hne H. rewrite fs_lookup_app in H. unfold rglob_at.
  destruct (fs_lookup T (Some n)) as [t|]; [|now rewrite fs_lookup_None' in H].
  eapply rglob_complete; eauto.
Qed.

Lemma mkdir_dest_templates s s1 q :
  path_mkdir D s = Ok tt s1 ->
  fs_lookup (T ++ q) (Some (st_fs s1)) = fs_lookup (T ++ q) (Some (st_fs s)).
Proof.
  intros H. apply path_mkdir_ok in H as (n & -> & Hn). simpl.
  eapply fs_mkdir_elsewhere; eauto.
  rewrite <- (app_nil_r D). apply (apart_app T D q [] HTD).
Qed.

Lemma mkdir_dest_rglob s s1 :
  path_mkdir D s = Ok tt s1 -> rglob_at T (st_fs s1) = rglob_at T (st_fs s).
Proof.
  intros H. unfold rglob_at.
  pose proof (mkdir_dest_templates _ _ [] H) as Ht. rewrite app_nil_r in Ht.
  now rewrite Ht.
Qed.

Lemma rendered_exists env fs0 fs l rel :
  rendered T D env fs0 fs l -> In rel l -> fs_lookup (T ++ rel) (Some fs0) <> None.
Proof.
  intros H Hin.
  destruct (rd_entries _ _ _ _ _ _ H rel Hin) as [(text & out & Ht & _)|[Hd _]].
  - congruence.
  - intros E. rewrite E in Hd. discriminate.
Qed.

Lemma copy_files_ok s s' :
  copy_files_with_substitution T D s = Ok tt s' ->
  st_env s' = st_env s /\ st_log s' = st_log s /\ st_trace s' = st_trace s /\
  copied T D (st_env s) (st_fs s) (st_fs s').
Proof.
  unfold copy_files_with_substitution. intros H.
  apply bind_ok in H as ([] & s1 & Hmk & H).
  apply bind_ok in H as (l & s2 & Hl & H). injection Hl as <- <-.
  pose proof (mkdir_dest_rglob _ _ Hmk) as Hglob.
  assert (Htpl : forall q, fs_lookup (T ++ q) (Some (st_fs s1)) =
                           fs_lookup (T ++ q) (Some (st_fs s)))
    by (intros q; now apply mkdir_dest_templates).
  apply (for_each_rendered T D HTD) in H as (He & Hlg & Htr & Hr).
  apply path_mkdir_ok in Hmk as (n & -> & Hn). simpl in *.
  do 3 (split; [assumption|]).
  assert (Hex : forall rel, In rel (rglob_at T n) ->
                  fs_lookup (T ++ rel) (Some (st_fs s)) <> None).
  { intros rel Hin. rewrite <- Htpl. eapply rendered_exists; eauto. }
  split.
  - apply (rd_dirs _ _ _ _ _ _ Hr). eapply fs_mkdir_is_dir; eauto.
  - intros q. rewrite (rd_templates _ _ _ _ _ _ Hr). apply Htpl.
  - intros q HqD Hq. rewrite (rd_elsewhere _ _ _ _ _ _ Hr).
    + eapply fs_mkdir_elsewhere; eauto.
    + intros rel Hin. apply Hq. now apply Hex.
  - intros q u Hq Hne. apply (rd_files _ _ _ _ _ _ Hr).
    + eapply fs_mkdir_keeps_file; eauto.
    + intros rel Hin. rewrite Htpl. apply Hne.
  - intros q Hq. apply (rd_dirs _ _ _ _ _ _ Hr). eapply fs_mkdir_keeps_dir; eauto.
  - intros rel text Hne Ht.
    assert (Hin : In rel (rglob_at T n)).
    { rewrite Hglob. eapply rglob_at_lists; eauto. }
    destruct (rd_entries _ _ _ _ _ _ Hr rel Hin) as [(t & out & Ht' & Hs & Ho)|[Hd _]].
    + rewrite Htpl, Ht in Ht'. injection Ht' as <-. eauto.
    + rewrite Htpl, Ht in Hd. discriminate.
  - intros rel Hne Hd.
    destruct (fs_lookup (T ++ rel) (Some (st_fs s))) as [x|] eqn:Ex; [|discriminate].
    assert (Hin : In rel (rglob_at T n)).
    { rewrite Hglob. eapply rglob_at_lists; eauto. }
    destruct (rd_entries _ _ _ _ _ _ Hr rel Hin) as [(t & out & Ht' & Hs & Ho)|[_ Ho]].
    + rewrite Htpl, Ex in Ht'. injection Ht' as ->. discriminate.
    + exact Ho.
Qed.

(** A failing run stopped either at the creation of the destination or at
    the first entry that could not be copied. *)
Lemma copy_files_raise s e s' :
  copy_files_with_substitution T D s = Raise e s' ->
  (path_mkdir D s = Raise e s' /\ s' = s) \/
  exists s1 s2 pre x post,
    path_mkdir D s = Ok tt s1 /\
    rglob_at T (st_fs s) = pre ++ x :: post /\
    for_each pre (copy_entry T D) s1 = Ok tt s2 /\
    copy_entry T D x s2 = Raise e s' /\
    (e <> UnicodeEncodeError -> s' = s2).
Proof.
  unfold copy_files_with_substitution. intros H.
  apply bind_raise in H as [H|([] & s1 & Hmk & H)].
  { left. split; [assumption|]. eapply path_mkdir_raise; eauto. }
  apply bind_raise in H as [H|(l & s2 & Hl & H)]; [discriminate|].
  injection Hl as <- <-. right.
  apply for_each_raise in H as (pre & x & post & s2 & Hsplit & Hpre & Hx).
  exists s1, s2, pre, x, post. rewrite <- (mkdir_dest_rglob _ _ Hmk).
  do 4 (split; [assumption|]).
  intros He. destruct (copy_entry_raise _ _ _ _ _ _ Hx) as [[_ ->]|[-> _]];
    [reflexivity|contradiction].
Qed.
End RendererRuns.

(** ** Substitution *)

(** A failing substitution failed on an ill-formed [$] or on a placeholder
    without a value. *)
Lemma convert_error env ts e :
  convert env ts = inl e ->
  (e = ValueError "Invalid placeholder in string" /\ In Invalid ts) \/
  (exists k, e = KeyError k /\ In (Placeholder k) ts /\ env !! k = None).
Proof.
  induction ts as [|t ts IH]; simpl; [discriminate|].
  destruct t as [c| |k|].
  - destruct (convert env ts) eqn:E; [|discriminate]. intros [= <-].
    destruct (IH eq_refl) as [[-> ?]|(k & -> & ? & ?)]; [left|right]; eauto.
  - destruct (convert env ts) eqn:E; [|discriminate]. intros [= <-].
    destruct (IH eq_refl) as [[-> ?]|(k & -> & ? & ?)]; [left|right]; eauto.
  - destruct (env !! k) eqn:Ek.
    + destruct (convert env ts) eqn:E; [|discriminate]. intros [= <-].
      destruct (IH eq_refl) as [[-> ?]|(k' & -> & ? & ?)]; [left|right]; eauto.
    + intros [= <-]. right. eauto.
  - intros [= <-]. left. auto.
Qed.

(** A placeholder without a value makes the substitution fail. *)
Lemma convert_missing env ts k :
  In (Placeholder k) ts -> env !! k = None -> exists e, convert env ts = inl e.
Proof.
  intros Hin Hk. induction ts as [|t ts IH]; [destruct Hin|].
  destruct Hin as [->|Hin].
  - simpl. rewrite Hk. eauto.
  - destruct (IH Hin) as (e & He). simpl. rewrite He.
    destruct t as [c| |k'|]; eauto. destruct (env !! k'); eauto.
Qed.

Lemma substitute_missing text env k :
  references text k -> env !! k = None ->
  exists e, substitute text env = inl e /\
    ((exists k', e = KeyError k' /\ references text k' /\ env !! k' = None) \/
     (e = ValueError "Invalid placeholder in string" /\ ill_formed text)).
Proof.
  intros Hr Hk. destruct (convert_missing _ _ _ Hr Hk) as (e & He).
  exists e. split; [exact He|].
  destruct (convert_error _ _ _ He) as [[-> ?]|(k' & -> & ? & ?)]; [right|left]; eauto.
Qed.

Lemma marks_app ts1 ts2 : marks (ts1 ++ ts2) = marks ts1 ++ marks ts2.
Proof. apply List.filter_app. Qed.

Lemma marks_lits a : marks (lits a) = [].
Proof.
  unfold lits. induction (list_ascii_of_string a) as [|c l IH]; [reflexivity|exact IH].
Qed.

Lemma marks_In t ts : is_mark t = true -> (In t (marks ts) <-> In t ts).
Proof.
  intros Ht. unfold marks. rewrite List.filter_In. tauto.
Qed.

Lemma marks_cons t ts :
  marks (t :: ts) = if is_mark t then t :: marks ts else marks ts.
Proof. reflexivity. Qed.

(** The translation of the line ends changes the literal text of a template
    only: the placeholders and the ill-formed [$] are the same, in the same
    order. *)
Lemma scan_newlines s :
  (forall m, marks (scan m (newlines_from false s)) = marks (scan m s)) /\
  marks (scan Text (newlines_from true s)) = marks (scan Text s).
Proof.
  assert (Hstep : forall c X Y,
            marks (scan Text X) = marks (scan Text Y) ->
            (forall m, marks (scan m X) = marks (scan m Y)) ->
            forall m, marks (scan m (String c X)) = marks (scan m (String c Y))).
  { intros c X Y HT HX m. cbn [scan].
    destruct m;
      repeat match goal with
             | |- context [if ?b then _ else _] => destruct b
             end;
      repeat (rewrite ?marks_cons, ?marks_app, ?marks_lits; cbn [is_mark app]);
      rewrite ?HX, ?HT; reflexivity. }
  assert (Hends : forall m X Y,
            marks (scan Text X) = marks (scan Text Y) ->
            marks (scan m (String "010" X)) = marks (scan m (String "013" Y))).
  { intros m X Y HT.
    destruct m; cbn [scan];
      repeat match goal with
             | |- context [if ?b then _ else _] =>
                 let v := eval vm_compute in b in change b with v; cbv iota
             end;
      repeat (rewrite ?marks_cons, ?marks_app, ?marks_lits; cbn [is_mark app]);
      rewrite ?HT; reflexivity. }
  induction s as [|c s [IH1 IH2]]; [split; reflexivity|].
  cbn [newlines_from].
  destruct (Ascii.eqb_spec c "010") as [->|Hlf].
  - split.
    + now apply Hstep.
    + rewrite (IH1 Text). cbn [scan].
      change (Ascii.eqb "010" "$") with false. cbv iota.
      now rewrite marks_cons.
  - destruct (Ascii.eqb_spec c "013") as [->|Hcr].
    + split; [intros m|]; now apply Hends.
    + split; [|apply (Hstep c _ _ (IH1 Text) IH1 Text)]. now apply Hstep.
Qed.

Lemma references_newlines text k :
  references (universal_newlines text) k <-> references text k.
Proof.
  unfold references, tokenize, universal_newlines.
  rewrite <- (marks_In (Placeholder k) (scan Text (newlines_from false text))) by reflexivity.
  rewrite <- (marks_In (Placeholder k) (scan Text text)) by reflexivity.
  now rewrite (proj1 (scan_newlines text) Text).
Qed.

Lemma ill_formed_newlines text :
  ill_formed (universal_newlines text) <-> ill_formed text.
Proof.
  unfold ill_formed, tokenize, universal_newlines.
  rewrite <- (marks_In Invalid (scan Text (newlines_from false text))) by reflexivity.
  rewrite <- (marks_In Invalid (scan Text text)) by reflexivity.
  now rewrite (proj1 (scan_newlines text) Text).
Qed.

Lemma copy_entry_KeyError T D rel s k s' :
  copy_entry T D rel s = Raise (KeyError k) s' ->
  exists text, fs_lookup (T ++ rel) (Some (st_fs s)) = Some (File text) /\
               utf8_valid text = true /\
               substitute (universal_newlines text) (st_env s) = inl (KeyError k).
Proof.
  rewrite copy_entry_eq. intros H.
  destruct (fs_lookup (T ++ rel) (Some (st_fs s))) as [[content|es]|] eqn:El.
  - exists content. split; [reflexivity|]. unfold read_as_text in H.
    destruct (utf8_valid content); [|discriminate]. split; [reflexivity|].
    destruct (substitute (universal_newlines content) (st_env s)) as [e|out].
    + now injection H as ->.
    + destruct (path_write_text_error _ _ _ _ _ H) as [E|[E|[E|E]]]; discriminate.
  - unfold path_mkdir in H. destruct (fs_mkdir _ _) as [[?|]|]; try discriminate.
    all: destruct (is_file _); discriminate.
  - destruct (blocked _ _); discriminate.
Qed.

Section RendererFailures.
Variables T D : path.
Hypothesis HTD : apart T D.

(** The turns that completed did not write where a template file that
    cannot be rendered would go. *)
Lemma rendered_skips env fs0 fs l rel text :
  rendered T D env fs0 fs l ->
  fs_lookup (T ++ rel) (Some fs0) = Some (File text) ->
  (forall out, rendering text env <> inr out) ->
  fs_lookup (D ++ rel) (Some fs) = fs_lookup (D ++ rel) (Some fs0).
Proof.
  intros Hr Ht Hbad. apply (rd_elsewhere _ _ _ _ _ _ Hr).
  intros x Hx Hpre. apply prefix_app_inv in Hpre.
  destruct (prefix_cases _ _ Hpre) as [->|(r & -> & Hne)].
  - destruct (rd_entries _ _ _ _ _ _ Hr _ Hx) as [(t & out & Ht' & Hs & _)|[Hd _]].
    + rewrite Ht in Ht'. injection Ht' as <-. now apply (Hbad out).
    + rewrite Ht in Hd. discriminate.
  - assert (Hex : fs_lookup (T ++ rel ++ r) (Some fs0) <> None)
      by (eapply rendered_exists; eauto).
    destruct (fs_lookup (T ++ rel ++ r) (Some fs0)) as [y|] eqn:Ey; [|congruence].
    rewrite app_assoc in Ey. apply lookup_below_dir in Ey; [|assumption].
    rewrite Ht in Ey. discriminate.
Qed.

Lemma mkdir_dest_below s s1 rel :
  rel <> [] -> path_mkdir D s = Ok tt s1 ->
  fs_lookup (D ++ rel) (Some (st_fs s1)) = fs_lookup (D ++ rel) (Some (st_fs s)).
Proof.
  intros Hne H. apply path_mkdir_ok in H as (n & -> & Hn). simpl.
  eapply fs_mkdir_elsewhere; eauto.
  intros Hpre. rewrite <- (app_nil_r D) in Hpre at 2.
  apply prefix_app_inv, prefix_nil_inv in Hpre. contradiction.
Qed.
End RendererFailures.

(** ** When the renderer completes *)

Lemma node_induction (P : node -> Prop) :
  (forall s, P (File s)) ->
  (forall es, Forall (fun e => P (snd e)) es -> P (Dir es)) ->
  forall n, P n.
Proof.
  intros HF HD. fix IH 1. intros [s|es]; [apply HF|]. apply HD.
  induction es as [|[x c] es IHes]; constructor; [apply IH|exact IHes].
Qed.

Lemma rglob_nonempty t rel : In rel (rglob t) -> rel <> [].
Proof.
  destruct t as [s|es]; simpl; [tauto|]. intros H.
  apply in_app_or in H as [H|H].
  - apply in_map_iff in H as (e & <- & _). discriminate.
  - apply in_flat_map in H as ([x c] & _ & H).
    apply in_map_iff in H as (r & <- & _). discriminate.
Qed.

Lemma parents_first_weaken seen seen' l :
  (forall q, In q seen -> In q seen') -> parents_first seen l -> parents_first seen' l.
Proof.
  revert seen seen'. induction l as [|rel l IH]; intros seen seen' Hs; simpl; [auto|].
  intros [H1 H2]. split; [destruct H1; auto|].
  eapply IH; [|exact H2]. intros q [->|Hq]; [now left|right; auto].
Qed.

Lemma parents_first_app seen l1 l2 :
  parents_first seen l1 -> parents_first (rev l1 ++ seen) l2 ->
  parents_first seen (l1 ++ l2).
Proof.
  revert seen. induction l1 as [|a l1 IH]; intros seen; simpl; [auto|].
  intros [H1 H2] H3. split; [assumption|]. apply IH; [assumption|].
  now rewrite <- app_assoc in H3.
Qed.

Lemma parents_first_names seen (es : list (string * node)) :
  parents_first seen (map (fun e => [fst e]) es).
Proof. revert seen. induction es as [|e es IH]; intros seen; simpl; auto. Qed.

Lemma parents_first_below x seen0 seen l :
  In [x] seen -> (forall q, In q seen0 -> In (x :: q) seen) ->
  (forall rel, In rel l -> rel <> []) ->
  parents_first seen0 l -> parents_first seen (map (cons x) l).
Proof.
  revert seen0 seen. induction l as [|rel l IH]; intros seen0 seen Hx Hs Hne; simpl; [auto|].
  intros [H1 H2].
  destruct rel as [|y rel]; [exfalso; apply (Hne []); [now left|reflexivity]|].
  split.
  - right. change (removelast (x :: y :: rel)) with (x :: removelast (y :: rel)).
    destruct H1 as [->|H1]; auto.
  - apply (IH (((y :: rel)) :: seen0)); [now right| |intros; apply Hne; now right|exact H2].
    intros q [<-|Hq]; [now left|right; auto].
Qed.

(** A directory is listed before what it holds. *)
Lemma rglob_parents_first t : parents_first [] (rglob t).
Proof.
  induction t as [s|es H] using node_induction; simpl; [exact I|].
  apply parents_first_app; [apply parents_first_names|]. rewrite app_nil_r.
  set (seen := rev (map (fun e : string * node => [fst e]) es)).
  assert (Hseen : forall e, In e es -> In [fst e] seen).
  { intros e He. unfold seen. rewrite <- in_rev. apply in_map_iff. eauto. }
  assert (G : forall es',
             Forall (fun e => parents_first [] (rglob (snd e))) es' ->
             (forall e, In e es' -> In e es) ->
             forall seen', (forall q, In q seen -> In q seen') ->
             parents_first seen'
               (flat_map (fun e : string * node =>
                            let (x, c) := e in map (cons x) (rglob c)) es')).
  { induction 1 as [|[x c] es' Hc _ IHes']; intros Hsub seen' Hs; simpl; [exact I|].
    apply parents_first_app.
    - apply (parents_first_below x [] seen').
      + apply Hs, (Hseen (x, c)), Hsub. now left.
      + intros q [].
      + intros rel. apply rglob_nonempty.
      + exact Hc.
    - apply IHes'; [intros; apply Hsub; now right|].
      intros q Hq. apply in_or_app. right. auto. }
  apply (G es H (fun e He => He) seen (fun q Hq => Hq)).
Qed.

Lemma prefix_app_split (P D rel : path) :
  P `prefix_of` (D ++ rel) ->
  P `prefix_of` D \/ exists q, q <> [] /\ P = D ++ q /\ q `prefix_of` rel.
Proof.
  intros H.
  destruct (prefix_weak_total P D (D ++ rel)) as [Hp|[q ->]]; auto.
  - now apply prefix_app_r.
  - destruct q as [|a q].
    + left. now rewrite app_nil_r.
    + right. exists (a :: q). split; [discriminate|]. split; [reflexivity|].
      now apply prefix_app_inv in H.
Qed.

(** [mkdir] with [parents] and [exist_ok] fails for a file in the way only. *)
Lemma fs_mkdir_ok p o :
  (forall P, P `prefix_of` p -> is_file (fs_lookup P o) = false) ->
  exists n, fs_mkdir p o = Some (Some n).
Proof.
  unfold fs_mkdir. revert o. induction p as [|x p IH]; intros o H.
  - specialize (H [] (prefix_nil _)). simpl in H.
    destruct o as [[?|?]|]; try discriminate; simpl; eauto.
  - pose proof (H [] (prefix_nil _)) as H0. simpl in H0.
    destruct o as [[?|es]|]; try discriminate; simpl.
    + destruct (IH (assoc x es)) as (n & ->); [|eauto].
      intros P HP. apply (H (x :: P)). now apply prefix_cons.
    + destruct (IH None) as (n & ->); [|eauto].
      intros P _. now rewrite fs_lookup_None'.
Qed.

(** [write_text] completes in a directory that is there, on a name that is
    not a directory. *)
Lemma fs_write_ok P x t o :
  is_dir (fs_lookup P o) = true -> is_dir (fs_lookup (P ++ [x]) o) = false ->
  exists n, fs_write (P ++ [x]) t o = Some (Some n).
Proof.
  unfold fs_write. revert o. induction P as [|a P IH]; intros o Hd Hn; simpl in *.
  - destruct o as [[?|es]|]; try discriminate. unfold write_f.
    destruct (assoc x es) as [[?|?]|]; try discriminate; eauto.
  - destruct o as [[?|es]|]; try (rewrite ?fs_lookup_None' in Hd; discriminate).
    destruct (IH _ Hd Hn) as (n & ->). eauto.
Qed.

Lemma not_blocked p n :
  blocked p n = false -> fs_lookup p (Some n) = None ->
  forall P, P `prefix_of` p -> is_file (fs_lookup P (Some n)) = false.
Proof.
  intros Hb Hf P [r ->]. destruct r as [|a r].
  - rewrite app_nil_r in Hf. now rewrite Hf.
  - destruct (is_file (fs_lookup P (Some n))) eqn:E; [|reflexivity].
    exfalso. unfold blocked in Hb.
    assert (Ht : existsb (fun k => is_file (fs_lookup (take k (P ++ a :: r)) (Some n)))
                   (seq 0 (length (P ++ a :: r))) = true).
    { apply existsb_exists. exists (length P). split.
      - apply in_seq. split; [apply Nat.le_0_l|].
        rewrite length_app. simpl. apply Nat.lt_add_pos_r, Nat.lt_0_succ.
      - now rewrite take_app_length. }
    congruence.
Qed.

Section Completes.
Variables T D : path.
Hypothesis HTD : apart T D.
Variable fs0 : node.
Variable env : gmap string string.

(** One call on the destination of [rel] that leaves there an entry of the
    kind of the template. *)
Lemma underway_step seen s rel n :
  underway T D fs0 env seen s ->
  rel <> [] ->
  fs_lookup (T ++ rel) (Some fs0) <> None ->
  (forall q, ~ q `prefix_of` (D ++ rel) ->
             fs_lookup q (Some n) = fs_lookup q (Some (st_fs s))) ->
  (forall q r, D ++ rel = q ++ r -> r <> [] -> is_dir (fs_lookup q (Some n)) = true) ->
  is_file (fs_lookup (D ++ rel) (Some n)) = is_file (fs_lookup (T ++ rel) (Some fs0)) ->
  is_dir (fs_lookup (D ++ rel) (Some n)) = is_dir (fs_lookup (T ++ rel) (Some fs0)) ->
  underway T D fs0 env (rel :: seen) (set_fs n s).
Proof.
  intros U Hne Hex Helse Hanc Hfile Hdir.
  assert (Hcase : forall q, q <> [] ->
            fs_lookup (D ++ q) (Some n) = fs_lookup (D ++ q) (Some (st_fs s)) \/
            q = rel \/
            (is_dir (fs_lookup (D ++ q) (Some n)) = true /\
             is_dir (fs_lookup (T ++ q) (Some fs0)) = true)).
  { intros q Hq. destruct (decide (q `prefix_of` rel)) as [Hp|Hp].
    - right. destruct (prefix_cases _ _ Hp) as [->|(r & -> & Hr)]; [now left|right].
      split.
      + apply (Hanc (D ++ q) r); [now rewrite app_assoc|exact Hr].
      + rewrite app_assoc in Hex.
        destruct (fs_lookup ((T ++ q) ++ r) (Some fs0)) eqn:E; [|congruence].
        eapply lookup_below_dir; eauto.
    - left. apply Helse. intros Hpre. apply Hp. now apply prefix_app_inv in Hpre. }
  assert (Hthere : fs_lookup (D ++ rel) (Some n) <> None).
  { intros E. rewrite E in Hfile, Hdir. simpl in Hfile, Hdir.
    destruct (fs_lookup (T ++ rel) (Some fs0)) as [[?|?]|]; try discriminate.
    congruence. }
  constructor; cbn [st_fs st_env set_fs].
  - intros q. rewrite Helse by apply (apart_template T D HTD).
    apply (uw_templates _ _ _ _ _ _ U).
  - apply (uw_env _ _ _ _ _ _ U).
  - apply (Hanc D rel eq_refl Hne).
  - intros q Hq Hf. destruct (Hcase q Hq) as [E|[->|[Hd _]]].
    + rewrite E in Hf. now apply (uw_files _ _ _ _ _ _ U).
    + rewrite Hfile in Hf.
      destruct (fs_lookup (T ++ rel) (Some fs0)) as [[?|?]|]; (discriminate || reflexivity).
    + destruct (fs_lookup (D ++ q) (Some n)) as [[?|?]|]; discriminate.
  - intros q Hq Hd. destruct (Hcase q Hq) as [E|[->|[_ Ht]]].
    + rewrite E in Hd. now apply (uw_dirs _ _ _ _ _ _ U).
    + rewrite Hdir in Hd.
      destruct (fs_lookup (T ++ rel) (Some fs0)) as [[?|?]|]; (discriminate || reflexivity).
    + destruct (fs_lookup (T ++ q) (Some fs0)) as [[?|?]|]; (discriminate || reflexivity).
  - intros q [<-|Hin]; [exact Hthere|].
    destruct q as [|a q].
    + rewrite app_nil_r. pose proof (Hanc D rel eq_refl Hne) as Hd.
      intros E. rewrite E in Hd. discriminate.
    + destruct (Hcase (a :: q)) as [E|[->|[Hd _]]]; [discriminate| | |].
      * rewrite E. now apply (uw_seen _ _ _ _ _ _ U).
      * exact Hthere.
      * intros E. rewrite E in Hd. discriminate.
Qed.

(** The destination of a template file whose parent is done can be opened
    for writing. *)
Lemma dest_writable seen s rel content :
  underway T D fs0 env seen s ->
  rel <> [] ->
  fs_lookup (T ++ rel) (Some fs0) = Some (File content) ->
  removelast rel = [] \/ In (removelast rel) seen ->
  forall t, exists n, fs_write (D ++ rel) t (Some (st_fs s)) = Some (Some n).
Proof.
  intros U Hne E Hpar t.
  assert (Hrel : rel = removelast rel ++ [List.last rel ""])
    by (now apply app_removelast_last).
  assert (Hparent : is_dir (fs_lookup (D ++ removelast rel) (Some (st_fs s))) = true).
  { destruct (decide (removelast rel = [])) as [Hp|Hp].
    - rewrite Hp, app_nil_r. apply (uw_dest _ _ _ _ _ _ U).
    - destruct Hpar as [Hq|Hq]; [contradiction|].
      pose proof (uw_seen _ _ _ _ _ _ U _ Hq) as Hthere.
      assert (Hd : is_dir (fs_lookup (T ++ removelast rel) (Some fs0)) = true).
      { apply (lookup_below_dir _ [List.last rel ""] _ (File content)); [|discriminate].
        now rewrite <- app_assoc, <- Hrel. }
      destruct (fs_lookup (D ++ removelast rel) (Some (st_fs s))) as [[u|?]|] eqn:E2;
        [|reflexivity|congruence].
      exfalso. pose proof (uw_files _ _ _ _ _ _ U _ Hp) as Hf.
      rewrite E2 in Hf. specialize (Hf eq_refl). congruence. }
  assert (Hnot : is_dir (fs_lookup (D ++ rel) (Some (st_fs s))) = false).
  { destruct (is_dir (fs_lookup (D ++ rel) (Some (st_fs s)))) eqn:E3; [|reflexivity].
    apply (uw_dirs _ _ _ _ _ _ U rel Hne) in E3. rewrite E in E3. discriminate. }
  destruct (fs_write_ok (D ++ removelast rel) (List.last rel "") t (Some (st_fs s)) Hparent)
    as (n & Hn).
  { now rewrite <- app_assoc, <- Hrel. }
  rewrite <- app_assoc, <- Hrel in Hn. eauto.
Qed.

Lemma underway_written seen s rel content t n :
  underway T D fs0 env seen s ->
  rel <> [] ->
  fs_lookup (T ++ rel) (Some fs0) = Some (File content) ->
  fs_write (D ++ rel) t (Some (st_fs s)) = Some (Some n) ->
  underway T D fs0 env (rel :: seen) (set_fs n s).
Proof.
  intros U Hne E Hn. apply underway_step; auto.
  - rewrite E. discriminate.
  - intros q Hq. eapply fs_write_elsewhere; eauto.
  - intros q r Heq Hr. unfold fs_write in Hn. eapply at_path_ancestors; eauto.
  - now rewrite (fs_write_is_file _ _ _ _ Hn), E.
  - now rewrite (fs_write_is_file _ _ _ _ Hn), E.
Qed.

(** A turn for an entry whose parent is done, and whose text can be rendered
    when it is a file, completes. *)
Lemma copy_entry_completes seen s rel :
  underway T D fs0 env seen s ->
  rel <> [] ->
  fs_lookup (T ++ rel) (Some fs0) <> None ->
  (forall content, fs_lookup (T ++ rel) (Some fs0) = Some (File content) ->
                   exists out, rendering content env = inr out) ->
  removelast rel = [] \/ In (removelast rel) seen ->
  exists s', copy_entry T D rel s = Ok tt s' /\ underway T D fs0 env (rel :: seen) s'.
Proof.
  intros U Hne Hex Hsub Hpar.
  pose proof (uw_templates _ _ _ _ _ _ U rel) as Ht.
  destruct (fs_lookup (T ++ rel) (Some fs0)) as [[text|es]|] eqn:E; [| |congruence].
  - (* a file *)
    destruct (Hsub text eq_refl) as (out & Hs).
    apply rendering_ok in Hs as (Hv & Hs & Hvo).
    destruct (dest_writable seen s rel text U Hne E Hpar out) as (n & Hn).
    exists (set_fs n s). split.
    + rewrite copy_entry_eq, Ht. unfold read_as_text.
      rewrite Hv, (uw_env _ _ _ _ _ _ U), Hs.
      unfold path_write_text. rewrite Hvo. unfold path_write_bytes. now rewrite Hn.
    + eapply underway_written; eauto.
  - (* a directory *)
    destruct (fs_mkdir_ok (D ++ rel) (Some (st_fs s))) as (n & Hn).
    { intros P HP. destruct (prefix_app_split _ _ _ HP) as [[r Hr]|(q & Hq & -> & Hqr)].
      - pose proof (uw_dest _ _ _ _ _ _ U) as Hd. rewrite Hr, fs_lookup_app in Hd.
        destruct (fs_lookup P (Some (st_fs s))) as [[?|?]|]; try reflexivity.
        destruct r; discriminate.
      - destruct (is_file (fs_lookup (D ++ q) (Some (st_fs s)))) eqn:E3; [|reflexivity].
        apply (uw_files _ _ _ _ _ _ U q Hq) in E3.
        assert (Hd : is_dir (fs_lookup (T ++ q) (Some fs0)) = true).
        { destruct (prefix_cases _ _ Hqr) as [->|(r & -> & Hr)]; [now rewrite E|].
          rewrite app_assoc in E. eapply lookup_below_dir; eauto. }
        congruence. }
    pose proof (fs_mkdir_is_dir _ _ _ Hn) as Hd.
    exists (set_fs n s). split.
    + rewrite copy_entry_eq, Ht. unfold path_mkdir. now rewrite Hn.
    + apply underway_step; auto.
      * rewrite E. discriminate.
      * intros q Hq. eapply fs_mkdir_elsewhere; eauto.
      * intros q r Heq Hr. unfold fs_mkdir in Hn. eapply at_path_ancestors; eauto.
      * rewrite E. destruct (fs_lookup (D ++ rel) (Some n)) as [[?|?]|]; try discriminate.
        reflexivity.
      * now rewrite E.
Qed.

(** A turn for a file whose rendering cannot be encoded opens the
    destination, fails, and leaves the file empty. *)
Lemma copy_entry_truncates seen s rel content :
  underway T D fs0 env seen s ->
  rel <> [] ->
  fs_lookup (T ++ rel) (Some fs0) = Some (File content) ->
  rendering content env = inl UnicodeEncodeError ->
  removelast rel = [] \/ In (removelast rel) seen ->
  exists n, copy_entry T D rel s = Raise UnicodeEncodeError (set_fs n s) /\
            fs_write (D ++ rel) "" (Some (st_fs s)) = Some (Some n).
Proof.
  intros U Hne E Hr Hpar.
  destruct (dest_writable seen s rel content U Hne E Hpar "") as (n & Hn).
  exists n. split; [|exact Hn].
  rewrite copy_entry_eq, (uw_templates _ _ _ _ _ _ U rel), E.
  rewrite (uw_env _ _ _ _ _ _ U). unfold rendering in Hr.
  destruct (read_as_text content) as [e1|text] eqn:Et.
  { injection Hr as ->. unfold read_as_text in Et.
    destruct (utf8_valid content); discriminate. }
  destruct (substitute text env) as [e1|out] eqn:Es.
  { injection Hr as ->. now apply convert_not_unicode in Es. }
  destruct (utf8_valid out) eqn:Ev; [discriminate|].
  unfold path_write_text. rewrite Ev. unfold mbind, M_bind, bind, path_write_bytes.
  now rewrite Hn.
Qed.

(** The turns for a listing that names a directory before what it holds
    complete when every file it names can be rendered. *)
Lemma for_each_completes l seen s :
  underway T D fs0 env seen s ->
  parents_first seen l ->
  (forall rel, In rel l -> rel <> [] /\ fs_lookup (T ++ rel) (Some fs0) <> None) ->
  (forall rel content, In rel l -> fs_lookup (T ++ rel) (Some fs0) = Some (File content) ->
                       exists out, rendering content env = inr out) ->
  exists s', for_each l (copy_entry T D) s = Ok tt s' /\
             underway T D fs0 env (rev l ++ seen) s'.
Proof.
  revert seen s. induction l as [|rel l IH]; intros seen s U Hp Hl Hsub.
  - exists s. split; [reflexivity|exact U].
  - destruct Hp as [Hp Hrest].
    destruct (Hl rel (or_introl eq_refl)) as [Hne Hex].
    destruct (copy_entry_completes seen s rel U Hne Hex) as (s1 & R & U1);
      [intros content; apply Hsub; now left|exact Hp|].
    destruct (IH (rel :: seen) s1 U1 Hrest) as (s' & R' & U').
    { intros r Hr. apply Hl. now right. }
    { intros r content Hr. apply Hsub. now right. }
    exists s'. split.
    + simpl. now rewrite (bind_step _ _ _ _ _ R).
    + simpl. now rewrite <- app_assoc.
Qed.

(** A turn for a file that cannot be decoded or substituted fails, and
    leaves the state as it found it. *)
Lemma copy_entry_stops seen s rel content e :
  underway T D fs0 env seen s ->
  fs_lookup (T ++ rel) (Some fs0) = Some (File content) ->
  rendering content env = inl e -> e <> UnicodeEncodeError ->
  copy_entry T D rel s = Raise e s.
Proof.
  intros U E Hr He. rewrite copy_entry_eq, (uw_templates _ _ _ _ _ _ U rel), E.
  rewrite (uw_env _ _ _ _ _ _ U). unfold rendering in Hr.
  destruct (read_as_text content) as [e1|text]; [now injection Hr as ->|].
  destruct (substitute text env) as [e1|out]; [now injection Hr as ->|].
  destruct (utf8_valid out); [discriminate|]. injection Hr as <-. contradiction.
Qed.

End Completes.

(** The renderer starts under way when nothing is in the way of its
    destination and nothing of the wrong kind is below it. *)
Lemma underway_start T D s n0 :
  apart T D ->
  (forall q, q <> [] -> is_file (fs_lookup (D ++ q) (Some (st_fs s))) = true ->
             is_dir (fs_lookup (T ++ q) (Some (st_fs s))) = false) ->
  (forall q, q <> [] -> is_dir (fs_lookup (D ++ q) (Some (st_fs s))) = true ->
             is_file (fs_lookup (T ++ q) (Some (st_fs s))) = false) ->
  fs_mkdir D (Some (st_fs s)) = Some (Some n0) ->
  underway T D (st_fs s) (st_env s) [] (set_fs n0 s).
Proof.
  intros HTD Hf Hd Hn0.
  assert (Hbelow : forall q, q <> [] ->
            fs_lookup (D ++ q) (Some n0) = fs_lookup (D ++ q) (Some (st_fs s))).
  { intros q Hq. eapply fs_mkdir_elsewhere; eauto.
    intros Hpre. rewrite <- (app_nil_r D) in Hpre at 2.
    apply prefix_app_inv, prefix_nil_inv in Hpre. contradiction. }
  constructor; cbn [st_fs st_env set_fs].
  - intros q. eapply fs_mkdir_elsewhere; eauto.
    rewrite <- (app_nil_r D). apply (apart_app T D q [] HTD).
  - reflexivity.
  - eapply fs_mkdir_is_dir; eauto.
  - intros q Hq. rewrite (Hbelow q Hq). now apply Hf.
  - intros q Hq. rewrite (Hbelow q Hq). now apply Hd.
  - intros q [].
Qed.

Lemma for_each_stops {A} (body : A -> M unit) pre x post s s2 e s' :
  for_each pre body s = Ok tt s2 -> body x s2 = Raise e s' ->
  for_each (pre ++ x :: post) body s = Raise e s'.
Proof.
  revert s. induction pre as [|a pre IH]; intros s; simpl.
  - intros [= <-] H. unfold mbind, M_bind, bind. now rewrite H.
  - intros H Hx. apply bind_ok in H as ([] & s1 & H1 & H2).
    rewrite (bind_step _ _ _ _ _ H1). now apply IH.
Qed.

(** The first entry of a list with a property that some entry has. *)
Lemma first_such {A} (P : A -> Prop) (l : list A) :
  (forall x, P x \/ ~ P x) -> (exists x, In x l /\ P x) ->
  exists pre x post, l = pre ++ x :: post /\ P x /\ forall y, In y pre -> ~ P y.
Proof.
  intros Hdec. induction l as [|a l IH]; intros (x & Hin & Hx); [destruct Hin|].
  destruct (Hdec a) as [Ha|Ha].
  - exists [], a, l. split; [reflexivity|]. split; [exact Ha|]. intros y [].
  - destruct IH as (pre & y & post & -> & Hy & Hpre).
    { destruct Hin as [->|Hin]; [contradiction|eauto]. }
    exists (a :: pre), y, post. repeat split; auto.
    intros z [<-|Hz]; auto.
Qed.

(** The substitution stops at the first token it cannot convert. *)
Lemma convert_first_failure env ts e :
  convert env ts = inl e ->
  exists done t rest,
    ts = done ++ t :: rest /\
    (exists out, convert env done = inr out) /\
    ((exists k, t = Placeholder k /\ env !! k = None /\ e = KeyError k) \/
     (t = Invalid /\ e = ValueError "Invalid placeholder in string")).
Proof.
  induction ts as [|t ts IH]; simpl; [discriminate|].
  destruct t as [c| |k|].
  - destruct (convert env ts) eqn:E; [|discriminate]. intros [= <-].
    destruct (IH eq_refl) as (done & t & rest & -> & (out & Ho) & Hk).
    exists (Lit c :: done), t, rest. split; [reflexivity|]. split; [|exact Hk].
    simpl. rewrite Ho. eauto.
  - destruct (convert env ts) eqn:E; [|discriminate]. intros [= <-].
    destruct (IH eq_refl) as (done & t & rest & -> & (out & Ho) & Hk).
    exists (Escaped :: done), t, rest. split; [reflexivity|]. split; [|exact Hk].
    simpl. rewrite Ho. eauto.
  - destruct (env !! k) eqn:Ek.
    + destruct (convert env ts) eqn:E; [|discriminate]. intros [= <-].
      destruct (IH eq_refl) as (done & t & rest & -> & (out & Ho) & Hk).
      exists (Placeholder k :: done), t, rest. split; [reflexivity|]. split; [|exact Hk].
      simpl. rewrite Ek, Ho. eauto.
    + intros [= <-]. exists [], (Placeholder k), ts.
      split; [reflexivity|]. split; [simpl; eauto|]. left. eauto.
  - intros [= <-]. exists [], Invalid, ts.
    split; [reflexivity|]. split; [simpl; eauto|]. now right.
Qed.

Lemma parents_first_split seen l1 l2 :
  parents_first seen (l1 ++ l2) ->
  parents_first seen l1 /\ parents_first (rev l1 ++ seen) l2.
Proof.
  revert seen. induction l1 as [|a l1 IH]; intros seen; simpl; [auto|].
  intros [H1 H2]. apply IH in H2 as [H2 H3]. rewrite <- app_assoc. auto.
Qed.

Lemma rendering_dec content env :
  (exists e, rendering content env = inl e) \/ (exists out, rendering content env = inr out).
Proof. destruct (rendering content env); eauto. Qed.

(** What stops the rendering of a file. *)
Lemma rendering_error content env e :
  rendering content env = inl e ->
  (utf8_valid content = false /\ e = UnicodeDecodeError) \/
  (utf8_valid content = true /\
   ((exists out, substitute (universal_newlines content) env = inr out /\
                 utf8_valid out = false /\ e = UnicodeEncodeError) \/
    substitute (universal_newlines content) env = inl e)).
Proof.
  unfold rendering, read_as_text. destruct (utf8_valid content); [|intros [= <-]; auto].
  destruct (substitute (universal_newlines content) env) as [e1|out].
  - intros [= <-]. auto.
  - destruct (utf8_valid out) eqn:E; [discriminate|]. intros [= <-]. right. eauto 10.
Qed.

Section RendererOutcome.
Variables T D : path.
Hypothesis HTD : apart T D.
Variable s : state.
Hypothesis Hway : forall P, P `prefix_of` D -> is_file (fs_lookup P (Some (st_fs s))) = false.
Hypothesis Hfiles : forall q, q <> [] ->
  is_file (fs_lookup (D ++ q) (Some (st_fs s))) = true ->
  is_dir (fs_lookup (T ++ q) (Some (st_fs s))) = false.
Hypothesis Hdirs : forall q, q <> [] ->
  is_dir (fs_lookup (D ++ q) (Some (st_fs s))) = true ->
  is_file (fs_lookup (T ++ q) (Some (st_fs s))) = false.
Hypothesis Hlist : forall rel, In rel (rglob_at T (st_fs s)) ->
  fs_lookup (T ++ rel) (Some (st_fs s)) <> None.

Lemma rglob_at_parents_first : parents_first [] (rglob_at T (st_fs s)).
Proof.
  unfold rglob_at. destruct (fs_lookup T (Some (st_fs s))); [|exact I].
  apply rglob_parents_first.
Qed.

Lemma rglob_at_nonempty rel : In rel (rglob_at T (st_fs s)) -> rel <> [].
Proof.
  unfold rglob_at. destruct (fs_lookup T (Some (st_fs s))); [|intros []].
  apply rglob_nonempty.
Qed.

(** The turns for the entries listed before one, all of which can be
    rendered, complete. *)
Lemma run_reaches pre rest :
  rglob_at T (st_fs s) = pre ++ rest ->
  (forall r content, In r pre ->
     fs_lookup (T ++ r) (Some (st_fs s)) = Some (File content) ->
     exists out, rendering content (st_env s) = inr out) ->
  exists s1 s2,
    path_mkdir D s = Ok tt s1 /\
    for_each pre (copy_entry T D) s1 = Ok tt s2 /\
    underway T D (st_fs s) (st_env s) (rev pre) s2 /\
    parents_first (rev pre) rest.
Proof.
  intros Hsplit Hpre.
  destruct (fs_mkdir_ok D (Some (st_fs s)) Hway) as (n0 & Hn0).
  assert (Hmk : path_mkdir D s = Ok tt (set_fs n0 s))
    by (unfold path_mkdir; now rewrite Hn0).
  pose proof rglob_at_parents_first as Hpf. rewrite Hsplit in Hpf.
  apply parents_first_split in Hpf as [Hp1 Hp2]. rewrite app_nil_r in Hp2.
  destruct (for_each_completes T D HTD (st_fs s) (st_env s) pre [] (set_fs n0 s))
    as (s2 & Hrun & U); auto.
  - now apply underway_start.
  - intros r Hr.
    assert (Hin : In r (rglob_at T (st_fs s))) by (rewrite Hsplit; apply in_or_app; auto).
    split; [now apply rglob_at_nonempty|now apply Hlist].
  - rewrite app_nil_r in U. eauto 10.
Qed.

(** The run completes when every template file can be rendered. *)
Lemma run_completes :
  (forall r content, In r (rglob_at T (st_fs s)) ->
     fs_lookup (T ++ r) (Some (st_fs s)) = Some (File content) ->
     exists out, rendering content (st_env s) = inr out) ->
  exists s', copy_files_with_substitution T D s = Ok tt s'.
Proof.
  intros Hall.
  destruct (run_reaches (rglob_at T (st_fs s)) []) as (s1 & s2 & Hmk & Hrun & _);
    [now rewrite app_nil_r|exact Hall|].
  exists s2. unfold copy_files_with_substitution. rewrite (bind_step _ _ _ _ _ Hmk).
  unfold mbind, M_bind, bind, path_rglob.
  now rewrite (mkdir_dest_rglob T D HTD _ _ Hmk).
Qed.

(** The run fails at the first template file that cannot be rendered, with
    the exception of its rendering. *)
Lemma run_stops pre rel1 post content1 e :
  rglob_at T (st_fs s) = pre ++ rel1 :: post ->
  (forall r content, In r pre ->
     fs_lookup (T ++ r) (Some (st_fs s)) = Some (File content) ->
     exists out, rendering content (st_env s) = inr out) ->
  fs_lookup (T ++ rel1) (Some (st_fs s)) = Some (File content1) ->
  rendering content1 (st_env s) = inl e ->
  exists s', copy_files_with_substitution T D s = Raise e s'.
Proof.
  intros Hsplit Hpre Hl He.
  destruct (run_reaches pre (rel1 :: post) Hsplit Hpre) as (s1 & s2 & Hmk & Hrun & U & Hp).
  destruct Hp as [Hp _].
  assert (Hne : rel1 <> []).
  { apply rglob_at_nonempty. rewrite Hsplit. apply in_or_app. right. now left. }
  assert (Hturn : exists s', copy_entry T D rel1 s2 = Raise e s').
  { destruct (rendering_error _ _ _ He) as [[_ Hx]|[_ [(out & _ & _ & Hx)|Hx]]].
    - exists s2. eapply copy_entry_stops; eauto. now rewrite Hx.
    - rewrite Hx in He |- *.
      destruct (copy_entry_truncates T D (st_fs s) (st_env s) _ _ _ _ U Hne Hl He Hp)
        as (n & Hn & _). eauto.
    - exists s2. eapply copy_entry_stops; eauto.
      intros ->. now apply convert_not_unicode in Hx. }
  destruct Hturn as (s' & Hturn). exists s'.
  unfold copy_files_with_substitution. rewrite (bind_step _ _ _ _ _ Hmk).
  unfold mbind, M_bind, bind, path_rglob.
  rewrite (mkdir_dest_rglob T D HTD _ _ Hmk), Hsplit.
  eapply for_each_stops; eauto.
Qed.

End RendererOutcome.

(** C4 (amended): a template file that references a placeholder without a
    value in the environment stops the renderer: the run over its template
    set fails, and what is at the destination path of the file is what was
    there before the run.  The exception is that of the first template file
    of the listing that cannot be rendered, which is this file or one listed
    before it.  When nothing is in the way (no file on the path to the
    destination, below it no file where the templates have a directory and
    no directory where they have a file, and every entry the listing names
    is there), that file and its exception are: a file that is not UTF-8,
    with [UnicodeDecodeError]; a file whose substituted text cannot be
    encoded, with [UnicodeEncodeError]; or a file in which the first token
    that cannot be converted is a placeholder without a value, with the
    [KeyError] of its name, or an ill-formed [$], with the [ValueError] of
    [string.Template], which names no key. *)
Theorem missing_placeholder_fails (T D rel : path) (text k : string) (s : state) :
  apart T D ->
  rel <> [] ->
  fs_lookup (T ++ rel) (Some (st_fs s)) = Some (File text) ->
  references text k ->
  st_env s !! k = None ->
  exists e s',
    copy_files_with_substitution T D s = Raise e s' /\
    fs_lookup (D ++ rel) (Some (st_fs s')) = fs_lookup (D ++ rel) (Some (st_fs s)) /\
    ((forall P, P `prefix_of` D -> is_file (fs_lookup P (Some (st_fs s))) = false) ->
     (forall q, q <> [] ->
        is_file (fs_lookup (D ++ q) (Some (st_fs s))) = true ->
        is_dir (fs_lookup (T ++ q) (Some (st_fs s))) = false) ->
     (forall q, q <> [] ->
        is_dir (fs_lookup (D ++ q) (Some (st_fs s))) = true ->
        is_file (fs_lookup (T ++ q) (Some (st_fs s))) = false) ->
     (forall r, In r (rglob_at T (st_fs s)) ->
        fs_lookup (T ++ r) (Some (st_fs s)) <> None) ->
     exists pre rel1 post text1,
       rglob_at T (st_fs s) = pre ++ rel1 :: post /\
       ~ In rel pre /\
       fs_lookup (T ++ rel1) (Some (st_fs s)) = Some (File text1) /\
       (forall r t, In r pre ->
          fs_lookup (T ++ r) (Some (st_fs s)) = Some (File t) ->
          utf8_valid t = true /\
          exists out, substitute (universal_newlines t) (st_env s) = inr out /\
                      utf8_valid out = true) /\
       ((utf8_valid text1 = false /\ e = UnicodeDecodeError) \/
        (utf8_valid text1 = true /\
         ((exists out, substitute (universal_newlines text1) (st_env s) = inr out /\
                       utf8_valid out = false /\ e = UnicodeEncodeError) \/
          (exists done t rest,
             tokenize (universal_newlines text1) = done ++ t :: rest /\
             (exists out, convert (st_env s) done = inr out) /\
             ((exists k1, t = Placeholder k1 /\ st_env s !! k1 = None /\ e = KeyError k1) \/
              (t = Invalid /\ e = ValueError "Invalid placeholder in string"))))))).
Proof.
  intros HTD Hne Ht Href Hk. apply (proj2 (references_newlines _ _)) in Href.
  assert (Hbad : forall out, rendering text (st_env s) <> inr out).
  { intros out Hr. apply rendering_ok in Hr as (_ & Hs & _).
    destruct (substitute_missing _ _ _ Href Hk) as (e0 & He0 & _). congruence. }
  destruct (copy_files_with_substitution T D s) as [[] s'|e s'] eqn:Hrun.
  { apply (copy_files_ok T D HTD) in Hrun as (_ & _ & _ & Hc).
    destruct (cp_rendered _ _ _ _ _ Hc rel text Hne Ht) as (out & Ho & _).
    now destruct (Hbad out). }
  exists e, s'. split; [reflexivity|]. split.
  - apply (copy_files_raise T D HTD) in Hrun
      as [[_ ->]|(s1 & s2 & pre & x & post & Hmk & _ & Hpre & Hx & _)]; [reflexivity|].
    apply (for_each_rendered T D HTD) in Hpre as (He & _ & _ & Hr).
    assert (Htpl : forall q, fs_lookup (T ++ q) (Some (st_fs s1)) =
                             fs_lookup (T ++ q) (Some (st_fs s)))
      by (intros q; apply (mkdir_dest_templates T D HTD _ _ q Hmk)).
    assert (Henv : st_env s1 = st_env s).
    { apply path_mkdir_ok in Hmk as (n & -> & _). reflexivity. }
    assert (Hs2 : fs_lookup (D ++ rel) (Some (st_fs s2)) =
                  fs_lookup (D ++ rel) (Some (st_fs s))).
    { rewrite <- (mkdir_dest_below D _ _ rel Hne Hmk).
      apply (rendered_skips T D _ _ _ _ rel text Hr).
      - now rewrite Htpl.
      - now rewrite Henv. }
    destruct (copy_entry_raise _ _ _ _ _ _ Hx)
      as [[_ ->]|(_ & content & out & n & Hl & Hv & Hs & _ & -> & Hn)]; [exact Hs2|].
    rewrite <- Hs2. cbn [st_fs set_fs]. eapply fs_write_elsewhere; eauto.
    intros Hpre. apply prefix_app_inv in Hpre.
    rewrite (rd_templates _ _ _ _ _ _ Hr), Htpl in Hl. rewrite He, Henv in Hs.
    destruct (prefix_cases _ _ Hpre) as [->|(r & -> & Hr0)].
    + rewrite Ht in Hl. injection Hl as <-.
      apply (Hbad out). apply rendering_ok.
      destruct (substitute_missing _ _ _ Href Hk) as (e0 & He0 & _). congruence.
    + rewrite app_assoc in Hl. apply lookup_below_dir in Hl; [|assumption].
      rewrite Ht in Hl. discriminate.
  - intros Hway Hfiles Hdirs Hlist.
    assert (Hin : In rel (rglob_at T (st_fs s))) by (eapply rglob_at_lists; eauto).
    destruct (first_such
                (fun r => exists content e1,
                     fs_lookup (T ++ r) (Some (st_fs s)) = Some (File content) /\
                     rendering content (st_env s) = inl e1)
                (rglob_at T (st_fs s)))
      as (pre & rel1 & post & Hsplit & (text1 & e1 & Hl1 & He1) & Hpre).
    { intros r. destruct (fs_lookup (T ++ r) (Some (st_fs s))) as [[content|es]|].
      - destruct (rendering content (st_env s)) as [e1|out] eqn:Er; [left; eauto|].
        right. intros (c & e1 & [= <-] & He1). congruence.
      - right. intros (c & e1 & [=] & _).
      - right. intros (c & e1 & [=] & _). }
    { exists rel. split; [exact Hin|].
      destruct (rendering text (st_env s)) as [e1|out] eqn:Er; [eauto|].
      now destruct (Hbad out). }
    assert (Hok : forall r content, In r pre ->
              fs_lookup (T ++ r) (Some (st_fs s)) = Some (File content) ->
              exists out, rendering content (st_env s) = inr out).
    { intros r content Hr Hl.
      destruct (rendering content (st_env s)) as [e2|out] eqn:Er; [|eauto].
      destruct (Hpre r Hr). eauto. }
    destruct (run_stops T D HTD s Hway Hfiles Hdirs Hlist pre rel1 post text1 e1
                Hsplit Hok Hl1 He1) as (s1' & Hrun').
    rewrite Hrun in Hrun'. injection Hrun' as -> _.
    exists pre, rel1, post, text1. split; [exact Hsplit|]. split.
    { intros Hr. destruct (Hok rel text Hr Ht) as (out & Ho). now destruct (Hbad out). }
    split; [exact Hl1|]. split.
    { intros r t Hr Hl. destruct (Hok r t Hr Hl) as (out & Ho).
      apply rendering_ok in Ho as (Hv & Hs & Hvo). eauto. }
    destruct (rendering_error _ _ _ He1) as [Hd|[Hv [Henc|Hsub]]]; [now left|right..].
    + split; [exact Hv|]. now left.
    + split; [exact Hv|]. right. now apply convert_first_failure.
Qed.

(** C10: the renderer is not atomic.  When a run fails with the [KeyError]
    of a template, the template set splits into the entries taken before it,
    the failing file and the rest; the destination directory is there, every
    template file taken before the failing one has its rendering at its
    destination, and nothing was touched but the ways to the destinations of
    the entries taken before: the failing file and what follows it are
    unwritten. *)
Theorem render_not_atomic (T D : path) (k : string) (s s' : state) :
  apart T D ->
  copy_files_with_substitution T D s = Raise (KeyError k) s' ->
  exists pre rel post text,
    rglob_at T (st_fs s) = pre ++ rel :: post /\
    fs_lookup (T ++ rel) (Some (st_fs s)) = Some (File text) /\
    utf8_valid text = true /\
    substitute (universal_newlines text) (st_env s) = inl (KeyError k) /\
    is_dir (fs_lookup D (Some (st_fs s'))) = true /\
    (forall r t, In r pre ->
       fs_lookup (T ++ r) (Some (st_fs s)) = Some (File t) ->
       exists out, utf8_valid t = true /\
                   substitute (universal_newlines t) (st_env s) = inr out /\
                   utf8_valid out = true /\
                   fs_lookup (D ++ r) (Some (st_fs s')) = Some (File out)) /\
    fs_lookup (D ++ rel) (Some (st_fs s')) = fs_lookup (D ++ rel) (Some (st_fs s)) /\
    (forall q, ~ q `prefix_of` D ->
       (forall r, In r pre -> ~ q `prefix_of` (D ++ r)) ->
       fs_lookup q (Some (st_fs s')) = fs_lookup q (Some (st_fs s))).
Proof.
  intros HTD Hrun.
  apply (copy_files_raise T D HTD) in Hrun
    as [[Hmk _]|(s1 & s2 & pre & x & post & Hmk & Hsplit & Hpre & Hx & Hs2)].
  { unfold path_mkdir in Hmk. destruct (fs_mkdir _ _) as [[?|]|]; try discriminate.
    all: destruct (is_file _); discriminate. }
  specialize (Hs2 ltac:(discriminate)). subst s2.
  apply copy_entry_KeyError in Hx as (text & Ht & Hv & Hs).
  apply (for_each_rendered T D HTD) in Hpre as (He & _ & _ & Hr).
  assert (Htpl : forall q, fs_lookup (T ++ q) (Some (st_fs s1)) =
                           fs_lookup (T ++ q) (Some (st_fs s)))
    by (intros q; apply (mkdir_dest_templates T D HTD _ _ q Hmk)).
  assert (Henv : st_env s1 = st_env s).
  { apply path_mkdir_ok in Hmk as (n & -> & _). reflexivity. }
  rewrite (rd_templates _ _ _ _ _ _ Hr), Htpl in Ht. rewrite He, Henv in Hs.
  rewrite Henv in Hr.
  assert (Hx0 : x <> []).
  { intros ->. rewrite app_nil_r in Ht.
    destruct (rglob_at T (st_fs s)) eqn:Hg; [now destruct pre|].
    unfold rglob_at in Hg. rewrite Ht in Hg. discriminate. }
  exists pre, x, post, text. repeat split; auto.
  - apply (rd_dirs _ _ _ _ _ _ Hr).
    apply path_mkdir_ok in Hmk as (n & -> & Hn). eapply fs_mkdir_is_dir; eauto.
  - intros r t Hin Hrt.
    destruct (rd_entries _ _ _ _ _ _ Hr r Hin) as [(t' & out & Ht' & Hs' & Ho)|[Hd _]].
    + rewrite Htpl, Hrt in Ht'. injection Ht' as <-.
      apply rendering_ok in Hs' as (Hvt & Hs' & Hvo). eauto 10.
    + rewrite Htpl, Hrt in Hd. discriminate.
  - rewrite <- (mkdir_dest_below D _ _ x Hx0 Hmk).
    apply (rendered_skips T D _ _ _ _ x text Hr).
    + now rewrite Htpl.
    + intros out Ho. apply rendering_ok in Ho as (_ & Ho & _). congruence.
  - intros q HqD Hq. rewrite (rd_elsewhere _ _ _ _ _ _ Hr) by assumption.
    apply path_mkdir_ok in Hmk as (n & -> & Hn). simpl.
    eapply fs_mkdir_elsewhere; eauto.
Qed.

(** ** Two runs of the renderer *)

Section RendererLocal.
Variables T D : path.
Hypothesis HTD : apart T D.

Lemma at_path_inside b rel f o n :
  at_path b (D ++ rel) f o = Some (Some n) ->
  at_path b rel f (fs_lookup D o) = Some (fs_lookup D (Some n)).
Proof.
  rewrite at_path_app. intros H.
  apply at_path_lookup in H as (r & Hr & Hlk).
  specialize (Hlk []). rewrite app_nil_r in Hlk. simpl in Hlk. now rewrite Hlk.
Qed.

Lemma copy_entry_local rel s s' :
  copy_entry T D rel s = Ok tt s' ->
  render_local (fs_lookup T (Some (st_fs s))) (st_env s) rel
               (fs_lookup D (Some (st_fs s)))
  = Some (fs_lookup D (Some (st_fs s'))).
Proof.
  intros H. apply copy_entry_ok in H as (n & -> & [[Hd Hn]|(text & out & Ht & Hs & Hn)]).
  - unfold render_local. rewrite fs_lookup_app in Hd.
    destruct (fs_lookup rel _) as [[?|es]|]; try discriminate.
    simpl. now apply at_path_inside.
  - unfold render_local. rewrite fs_lookup_app in Ht. rewrite Ht, Hs.
    simpl. now apply at_path_inside.
Qed.

Lemma for_each_local l s s' :
  for_each l (copy_entry T D) s = Ok tt s' ->
  render_all (fs_lookup T (Some (st_fs s))) (st_env s) l
             (fs_lookup D (Some (st_fs s)))
  = Some (fs_lookup D (Some (st_fs s'))).
Proof.
  revert s. induction l as [|x l IH]; intros s H; simpl in H.
  - now injection H as <-.
  - apply bind_ok in H as ([] & s1 & H1 & H2).
    simpl. rewrite (copy_entry_local _ _ _ H1).
    apply (copy_entry_rendered T D HTD) in H1 as (He & _ & _ & Hr).
    pose proof (rd_templates _ _ _ _ _ _ Hr []) as Ht. rewrite app_nil_r in Ht.
    rewrite <- Ht, <- He. now apply IH.
Qed.

(** A completed run into a destination that was not there leaves in it
    what the turns make of an empty directory. *)
Lemma copy_files_fresh s s' :
  fs_lookup D (Some (st_fs s)) = None ->
  copy_files_with_substitution T D s = Ok tt s' ->
  render_all (fs_lookup T (Some (st_fs s))) (st_env s)
             (rglob_at T (st_fs s)) (Some (Dir []))
  = Some (fs_lookup D (Some (st_fs s'))).
Proof.
  unfold copy_files_with_substitution. intros Hfresh H.
  apply bind_ok in H as ([] & s1 & Hmk & H).
  apply bind_ok in H as (l & s2 & Hl & H). injection Hl as <- <-.
  pose proof (mkdir_dest_rglob T D HTD _ _ Hmk) as Hglob.
  pose proof (mkdir_dest_templates T D HTD _ _ [] Hmk) as Htpl.
  rewrite app_nil_r in Htpl.
  apply for_each_local in H. rewrite Hglob, Htpl in H.
  apply path_mkdir_ok in Hmk as (n & -> & Hn). simpl in H.
  now rewrite (fs_mkdir_fresh _ _ _ Hfresh Hn) in H.
Qed.
End RendererLocal.

(** C9: two completed runs of the renderer over the same template set with
    the same environment, each into a destination that did not exist, leave
    the same tree in the two destinations: the same entries, and in every
    file the same text. *)
Theorem render_twice_identical (T D1 D2 : path) (s1 s2 s1' s2' : state) :
  apart T D1 -> apart T D2 ->
  fs_lookup T (Some (st_fs s1)) = fs_lookup T (Some (st_fs s2)) ->
  st_env s1 = st_env s2 ->
  fs_lookup D1 (Some (st_fs s1)) = None ->
  fs_lookup D2 (Some (st_fs s2)) = None ->
  copy_files_with_substitution T D1 s1 = Ok tt s1' ->
  copy_files_with_substitution T D2 s2 = Ok tt s2' ->
  fs_lookup D1 (Some (st_fs s1')) = fs_lookup D2 (Some (st_fs s2')) /\
  forall rel, fs_lookup (D1 ++ rel) (Some (st_fs s1')) =
              fs_lookup (D2 ++ rel) (Some (st_fs s2')).
Proof.
  intros H1 H2 HT Henv Hf1 Hf2 Hr1 Hr2.
  apply (copy_files_fresh T D1 H1 _ _ Hf1) in Hr1.
  apply (copy_files_fresh T D2 H2 _ _ Hf2) in Hr2.
  unfold rglob_at in Hr1, Hr2. rewrite HT, Henv, Hr2 in Hr1.
  injection Hr1 as Heq. split; [now symmetry|].
  intros rel. rewrite !fs_lookup_app. now rewrite Heq.
Qed.

(** ** The compose mutator *)

Lemma fs_write_over_file p t u o :
  fs_lookup p o = Some (File u) -> exists n, fs_write p t o = Some (Some n).
Proof.
  unfold fs_write. revert o. induction p as [|x p IH]; intros o H; simpl in *.
  - subst o. simpl. eauto.
  - destruct o as [[s|es]|]; try discriminate.
    destruct (IH _ H) as (n & ->). eauto.
Qed.

Lemma assoc_set_keys {A} k (v v0 : A) l :
  assoc k l = Some v0 -> map fst (assoc_set k v l) = map fst l.
Proof.
  induction l as [|[k' v'] l IH]; simpl; [discriminate|].
  destruct (String.eqb k k') eqn:E; simpl; [reflexivity|].
  intros H. now rewrite IH.
Qed.

Lemma assoc_set_other_keys {A} k (v : A) l :
  List.filter (fun x => negb (String.eqb k x)) (map fst (assoc_set k v l)) =
  List.filter (fun x => negb (String.eqb k x)) (map fst l).
Proof.
  induction l as [|[k' v'] l IH]; simpl.
  - now rewrite String.eqb_refl.
  - destruct (String.eqb k k') eqn:E; simpl; rewrite E; simpl; [reflexivity|].
    now rewrite IH.
Qed.

Section Compose.
Variable yaml_load : string -> option yaml.
Variable yaml_dump : yaml -> string.

(** A failing mutation has written nothing. *)
Lemma configure_compose_raise dir app ports s e s' :
  configure_compose yaml_load yaml_dump dir app ports s = Raise e s' -> s' = s.
Proof.
  unfold configure_compose, yaml_load_file, yaml_dump_file. intros H.
  apply bind_raise in H as [H|(data & s1 & H1 & H)].
  { apply bind_raise in H as [H|(text & s1 & H1 & H)].
    - unfold path_read_bytes in H. destruct (fs_lookup _ _) as [[?|?]|]; congruence.
    - unfold path_read_bytes in H1. destruct (fs_lookup _ _) as [[c|?]|]; try discriminate.
      injection H1 as <- <-. destruct (yaml_load c); [discriminate|].
      unfold raise in H. congruence. }
  assert (s1 = s) as ->.
  { apply bind_ok in H1 as (text & s2 & H1 & H2).
    unfold path_read_bytes in H1. destruct (fs_lookup _ _) as [[c|?]|]; try discriminate.
    injection H1 as <- <-. destruct (yaml_load c); [|discriminate].
    now injection H2. }
  apply bind_raise in H as [H|(services & s1 & H2 & H)].
  { destruct (getitem data "services"); simpl in H; [|discriminate].
    unfold raise in H. congruence. }
  destruct (getitem data "services"); simpl in H2; [discriminate|].
  injection H2 as -> <-.
  apply bind_raise in H as [H|(service & s1 & H2 & H)].
  { destruct (getitem services app); simpl in H; [|discriminate].
    unfold raise in H. congruence. }
  destruct (getitem services app); simpl in H2; [discriminate|].
  injection H2 as -> <-.
  apply bind_raise in H as [H|(service' & s1 & H2 & H)].
  { destruct (update service "ports" _); simpl in H; [|discriminate].
    unfold raise in H. congruence. }
  destruct (update service "ports" _); simpl in H2; [discriminate|].
  injection H2 as -> <-. now apply path_write_bytes_raise in H.
Qed.

(** What the mutation does to a document that holds the service. *)
Lemma configure_compose_service dir app ports s text data m :
  fs_lookup (dir ++ ["docker-compose.yaml"]) (Some (st_fs s)) = Some (File text) ->
  yaml_load text = Some data ->
  service_entry data app = Some m ->
  exists top services n,
    data = YMap top /\ assoc "services" top = Some (YMap services) /\
    assoc app services = Some (YMap m) /\
    fs_write (dir ++ ["docker-compose.yaml"])
      (yaml_dump (YMap (assoc_set "services"
         (YMap (assoc_set app (YMap (assoc_set "ports" (port_strings ports) m)) services))
         top)))
      (Some (st_fs s)) = Some (Some n) /\
    configure_compose yaml_load yaml_dump dir app ports s = Ok tt (set_fs n s).
Proof.
  intros Hf Hl Hs. unfold service_entry in Hs. simpl in Hs.
  destruct data as [| | | | |top]; try discriminate.
  destruct (assoc "services" top) as [[| | | | |services]|] eqn:E1; try discriminate.
  destruct (assoc app services) as [[| | | | |m']|] eqn:E2; try discriminate.
  injection Hs as ->.
  destruct (fs_write_over_file _
    (yaml_dump (YMap (assoc_set "services"
         (YMap (assoc_set app (YMap (assoc_set "ports" (port_strings ports) m)) services))
         top))) _ _ Hf) as (n & Hn).
  exists top, services, n. repeat split; auto.
  unfold configure_compose, yaml_load_file, yaml_dump_file.
  unfold mbind, M_bind, bind, path_read_bytes, path_write_bytes.
  rewrite Hf, Hl. simpl. unfold ret. simpl. rewrite E1. simpl. rewrite E2. simpl.
  now rewrite Hn.
Qed.

(** C3: on a compose document that holds a service entry for the target,
    the mutation with the port mapping [{8080: 80, 8443: 443}] completes;
    the document written has, under [services.<name>.ports], exactly
    ["8080:80", "8443:443"] in that order; every value that is not on the
    way to that field or below it is the one of the document read; the
    top level and [services] keep their keys, and the service keeps its
    other keys, in their order. *)
Theorem compose_ports_set (dir : path) (app : string) (s : state)
    (text : string) (data : yaml) (m : list (string * yaml)) :
  fs_lookup (dir ++ ["docker-compose.yaml"]) (Some (st_fs s)) = Some (File text) ->
  yaml_load text = Some data ->
  service_entry data app = Some m ->
  exists data' s',
    configure_compose yaml_load yaml_dump dir app [(8080, 80); (8443, 443)]%Z s = Ok tt s' /\
    fs_lookup (dir ++ ["docker-compose.yaml"]) (Some (st_fs s'))
      = Some (File (yaml_dump data')) /\
    yaml_at ["services"; app; "ports"] data'
      = Some (YSeq [YStr "8080:80"; YStr "8443:443"]) /\
    (forall ks, ~ ks `prefix_of` ["services"; app; "ports"] ->
                ~ ["services"; app; "ports"] `prefix_of` ks ->
                yaml_at ks data' = yaml_at ks data) /\
    yaml_keys [] data' = yaml_keys [] data /\
    yaml_keys ["services"] data' = yaml_keys ["services"] data /\
    (exists keys keys',
       yaml_keys ["services"; app] data = Some keys /\
       yaml_keys ["services"; app] data' = Some keys' /\
       List.filter (fun k => negb (String.eqb "ports" k)) keys' =
       List.filter (fun k => negb (String.eqb "ports" k)) keys).
Proof.
  intros Hf Hl Hs.
  destruct (configure_compose_service dir app [(8080, 80); (8443, 443)]%Z
              s text data m Hf Hl Hs)
    as (top & services & n & -> & E1 & E2 & Hn & Hrun).
  eexists _, _. split; [exact Hrun|]. cbn [st_fs set_fs].
  split; [eapply fs_write_is_file; eauto|].
  split.
  { cbn [yaml_at]. rewrite !assoc_set_same. reflexivity. }
  split.
  { intros ks Hpre Hpost.
    destruct ks as [|k1 ks]; [exfalso; apply Hpre, prefix_nil|]. simpl.
    destruct (String.eqb_spec "services" k1) as [<-|Hne];
      [|now rewrite assoc_set_other].
    rewrite assoc_set_same, E1.
    destruct ks as [|k2 ks].
    { exfalso. apply Hpre. now exists [app; "ports"]. }
    simpl. destruct (String.eqb_spec app k2) as [<-|Hne];
      [|now rewrite assoc_set_other].
    rewrite assoc_set_same, E2.
    destruct ks as [|k3 ks].
    { exfalso. apply Hpre. now exists ["ports"]. }
    simpl. destruct (String.eqb_spec "ports" k3) as [<-|Hne];
      [|now rewrite assoc_set_other].
    exfalso. apply Hpost. now exists ks. }
  unfold yaml_keys.
  repeat (cbn [yaml_at]; rewrite ?assoc_set_same, ?E1, ?E2).
  split; [now erewrite assoc_set_keys by eassumption|].
  split; [now erewrite assoc_set_keys by eassumption|].
  eexists _, _. split; [reflexivity|]. split; [reflexivity|].
  apply assoc_set_other_keys.
Qed.

Lemma configure_compose_no_service dir app ports s text data :
  fs_lookup (dir ++ ["docker-compose.yaml"]) (Some (st_fs s)) = Some (File text) ->
  yaml_load text = Some data ->
  service_entry data app = None ->
  exists e,
    configure_compose yaml_load yaml_dump dir app ports s = Raise e s /\
    (e = KeyError "services" \/ e = KeyError app \/ e = TypeError \/ e = AttributeError).
Proof.
  intros Hf Hl Hs.
  unfold configure_compose, yaml_load_file, yaml_dump_file.
  unfold mbind, M_bind, bind, path_read_bytes.
  rewrite Hf, Hl. unfold ret. unfold service_entry in Hs. simpl in Hs.
  destruct data as [| | | | |top]; simpl; eauto 10.
  destruct (assoc "services" top) as [services|] eqn:E1; simpl; eauto 10.
  destruct services as [| | | | |services]; simpl; eauto 10.
  destruct (assoc app services) as [service|] eqn:E2; simpl; eauto 10.
  destruct service as [| | | | |m]; simpl; eauto 10.
  discriminate.
Qed.

(** C5: on a compose document that holds no service entry for the target
    (no mapping under [services.<name>]: a key is missing on the way, or
    what is found is not a mapping) the mutation fails with an exception,
    and the state it fails in is the state it started from: nothing was
    written, the document on disk is the one that was read, and no service
    block was created. *)
Theorem compose_missing_service (dir : path) (app : string)
    (ports : list (Z * Z)) (s : state) (text : string) (data : yaml) :
  fs_lookup (dir ++ ["docker-compose.yaml"]) (Some (st_fs s)) = Some (File text) ->
  yaml_load text = Some data ->
  service_entry data app = None ->
  exists e s',
    configure_compose yaml_load yaml_dump dir app ports s = Raise e s' /\
    (e = KeyError "services" \/ e = KeyError app \/ e = TypeError \/ e = AttributeError) /\
    s' = s /\
    fs_lookup (dir ++ ["docker-compose.yaml"]) (Some (st_fs s')) = Some (File text).
Proof.
  intros Hf Hl Hs.
  destruct (configure_compose_no_service dir app ports s text data Hf Hl Hs)
    as (e & Hrun & He).
  exists e, s. auto.
Qed.
End Compose.

(** ** The build stage *)

Lemma fs_rmtree_frame p n q :
  apart p q -> fs_lookup q (Some (fs_rmtree p n)) = fs_lookup q (Some n).
Proof.
  intros [H1 H2]. unfold fs_rmtree.
  destruct (at_path false p rmtree_f (Some n)) as [[n'|]|] eqn:E; auto.
  eapply at_path_frame; eauto.
Qed.

Lemma fs_rmtree_absent p n :
  fs_lookup p (Some n) = None -> fs_rmtree p n = n.
Proof.
  intros H. unfold fs_rmtree.
  destruct (at_path false p rmtree_f (Some n)) as [[n'|]|] eqn:E; auto.
  apply at_path_lookup in E as (r & Hr & _). rewrite H in Hr. discriminate.
Qed.

Lemma fs_graft_exists p t o x :
  fs_lookup p o = Some x -> fs_graft p t o = None.
Proof.
  intros H. destruct (fs_graft p t o) as [o'|] eqn:E; [|reflexivity].
  apply at_path_lookup in E as (r & Hr & _). rewrite H in Hr. discriminate.
Qed.

Lemma fs_graft_lookup p t o n :
  fs_graft p t o = Some (Some n) -> fs_lookup p (Some n) = Some t.
Proof.
  intros H. apply at_path_lookup in H as (r & Hr & Hlk).
  specialize (Hlk []). rewrite app_nil_r in Hlk. simpl in Hlk. rewrite Hlk.
  unfold graft_f in Hr. destruct (fs_lookup p o); [discriminate|]. now injection Hr.
Qed.

Lemma shutil_copytree_ok src dst s s' :
  shutil_copytree src dst s = Ok tt s' ->
  exists es n, fs_lookup src (Some (st_fs s)) = Some (Dir es) /\
               fs_graft dst (Dir es) (Some (st_fs s)) = Some (Some n) /\
               s' = set_fs n s.
Proof.
  unfold shutil_copytree.
  destruct (fs_lookup src _) as [[?|es]|]; try discriminate.
  destruct (fs_graft dst _ _) as [[n|]|] eqn:E; try discriminate.
  intros [= <-]. eauto.
Qed.

Section Build.
Variable yaml_load : string -> option yaml.
Variable yaml_dump : yaml -> string.
Variable module_dir : path.

Let W := WEBAPP_CONFIG_DIR module_dir.
Let N := NGINX_CONFIG_DIR module_dir.

(** What [configure_compose] found and wrote when it completed. *)
Lemma configure_compose_ok dir app ports s s' :
  configure_compose yaml_load yaml_dump dir app ports s = Ok tt s' ->
  exists text data m n data',
    fs_lookup (dir ++ ["docker-compose.yaml"]) (Some (st_fs s)) = Some (File text) /\
    yaml_load text = Some data /\
    service_entry data app = Some m /\
    fs_write (dir ++ ["docker-compose.yaml"]) (yaml_dump data') (Some (st_fs s))
      = Some (Some n) /\
    yaml_at ["services"; app; "ports"] data' = Some (port_strings ports) /\
    s' = set_fs n s.
Proof.
  intros H.
  destruct (fs_lookup (dir ++ ["docker-compose.yaml"]) (Some (st_fs s)))
    as [[text|?]|] eqn:Hf;
    try (unfold configure_compose, yaml_load_file, mbind, M_bind, bind,
           path_read_bytes in H; rewrite Hf in H; discriminate).
  destruct (yaml_load text) as [data|] eqn:Hl;
    [|unfold configure_compose, yaml_load_file, mbind, M_bind, bind,
        path_read_bytes in H; rewrite Hf, Hl in H; discriminate].
  destruct (service_entry data app) as [m|] eqn:Hs.
  - destruct (configure_compose_service yaml_load yaml_dump dir app ports
                s text data m Hf Hl Hs) as (top & svcs & n & _ & _ & _ & Hn & Hrun).
    rewrite Hrun in H. injection H as <-.
    exists text, data, m, n. eexists. repeat split; eauto.
    cbn [yaml_at]. now rewrite !assoc_set_same.
  - destruct (configure_compose_no_service yaml_load yaml_dump dir app ports
                s text data Hf Hl Hs) as (e & Hrun & _).
    rewrite Hrun in H. discriminate.
Qed.

(** The stages of a build that completed. *)
Lemma build_ok_stages self clean s s' :
  build yaml_load yaml_dump module_dir self clean s = Ok tt s' ->
  let s0 := if clean then set_fs (fs_rmtree (target_build_dir self) (st_fs s)) s else s in
  exists s1 s2 s3 s4,
    shutil_copytree (parent (target_src_dir self)) (app_build_dir self) s0 = Ok tt s1 /\
    copy_files_with_substitution W (target_build_dir self)
      (set_env (with_vars (build_env self) true (st_env s)) s1) = Ok tt s2 /\
    copy_files_with_substitution N (target_build_dir self ++ ["nginx_config"]) s2
      = Ok tt s3 /\
    configure_compose yaml_load yaml_dump (target_build_dir self) (target_name self)
      (bind_ports self) s3 = Ok tt s4 /\
    s' = set_env (st_env s) s4.
Proof.
  intros H s0. unfold build in H.
  apply bind_ok in H as ([] & sa & Ha & H).
  assert (sa = s0) as ->.
  { subst s0. destruct clean; simpl in Ha; now injection Ha. }
  apply bind_ok in H as ([] & s1 & H1 & H).
  unfold try_except in H1.
  destruct (shutil_copytree _ _ s0) as [[] s1'|e s1'] eqn:Hc.
  2:{ destruct e; discriminate. }
  injection H1 as ->.
  assert (Henv : st_env s1 = st_env s).
  { apply shutil_copytree_ok in Hc as (es & n & _ & _ & ->). subst s0.
    destruct clean; reflexivity. }
  unfold temp_env in H. rewrite Henv in H.
  match type of H with
  | match ?body ?st with _ => _ end = _ => destruct (body st) as [[] s4|] eqn:Hb
  end; [|discriminate].
  injection H as <-.
  apply bind_ok in Hb as ([] & s2 & H2 & Hb).
  apply bind_ok in Hb as ([] & s3 & H3 & H4).
  exists s1, s2, s3, s4. auto.
Qed.
End Build.

Lemma at_path_defined b p f o x r :
  fs_lookup p o = Some x -> f (Some x) = Some r -> exists o', at_path b p f o = Some o'.
Proof.
  revert o. induction p as [|a p IH]; intros o H Hf; simpl in *.
  - subst o. eauto.
  - destruct o as [[s|es]|]; try discriminate.
    destruct (IH _ H Hf) as (o' & ->). eauto.
Qed.

Lemma fs_rmtree_removes p n :
  p <> [] -> is_dir (fs_lookup p (Some n)) = true ->
  fs_lookup p (Some (fs_rmtree p n)) = None.
Proof.
  intros Hne Hd. unfold fs_rmtree.
  destruct (fs_lookup p (Some n)) as [[?|es]|] eqn:E; try discriminate.
  destruct (at_path_defined false p rmtree_f _ _ None E eq_refl) as (o' & Ho).
  rewrite Ho. pose proof Ho as Ho'.
  apply at_path_lookup in Ho as (r & Hr & Hlk). rewrite E in Hr. injection Hr as <-.
  specialize (Hlk []). rewrite app_nil_r in Hlk. simpl in Hlk.
  destruct o' as [n'|]; [exact Hlk|].
  destruct p as [|a p]; [congruence|]. simpl in Ho'.
  destruct n as [?|es']; [discriminate|].
  destruct (at_path false p rmtree_f (assoc a es')); discriminate.
Qed.

Section BuildClaims.
Variable yaml_load : string -> option yaml.
Variable yaml_dump : yaml -> string.
Variable module_dir : path.

Let W := WEBAPP_CONFIG_DIR module_dir.
Let N := NGINX_CONFIG_DIR module_dir.

(** C6 (amended): when the [app] sub-directory of the build directory is
    there (and the source directory of the target can be listed),
    [build(clean=False)] logs that the build directory exists already and
    that [--clean] overwrites it, and exits with status 1; the file system
    is left as it was. *)
Theorem build_refuses_existing_app (self : Webapp) (s : state)
    (src : list (string * node)) (x : node) :
  fs_lookup (parent (target_src_dir self)) (Some (st_fs s)) = Some (Dir src) ->
  fs_lookup (app_build_dir self) (Some (st_fs s)) = Some x ->
  exists s',
    build yaml_load yaml_dump module_dir self false s = Raise (SystemExit 1) s' /\
    st_fs s' = st_fs s /\
    st_log s' = st_log s ++ [build_collision self] /\
    st_trace s' = st_trace s.
Proof.
  intros Hsrc Happ. exists (add_log (build_collision self) s).
  split; [|auto].
  unfold build, mbind, M_bind, bind, try_except, shutil_copytree. simpl.
  rewrite Hsrc, (fs_graft_exists _ _ _ _ Happ), Happ. reflexivity.
Qed.

(** C7: [build(clean=True)] is the removal of the build directory tree, which
    changes nothing when there is none, followed by the build proper.  When
    it completes (the source, the two template sets and the build directory
    lying apart, the webapp templates having no entry [app]), the build
    directory holds the source tree under [app]; every webapp template file
    is UTF-8 and its text, newlines translated, substituted in the
    environment that has the name of the target under [TARGET_NAME], its
    container ports with a space between under [EXPOSED_PORTS], its
    application port under [APPLICATION_PORT], its deployment directory under
    [DEPLOYMENT_DIR] and its domain under [DOMAIN_NAME], is at its place (the
    compose file and what the reverse-proxy set overwrites apart); so is
    every reverse-proxy template file under [nginx_config]; and the compose
    document has, as the [ports] of the target's service, one string
    [<host port>:<container port>] for each pair of the port mapping, in its
    order.  The session has seen no call and [os.environ] is as before. *)
Theorem build_clean (self : Webapp) (s s' : state) (src : list (string * node)) :
  let B := target_build_dir self in
  let env :=
    <["DOMAIN_NAME" := domain_name self]>
      (<["DEPLOYMENT_DIR" := as_posix (deployment_dir self)]>
         (<["APPLICATION_PORT" := str (application_port self)]>
            (<["EXPOSED_PORTS" :=
                 String.concat " " (map (fun hd => str (snd hd)) (bind_ports self))]>
               (<["TARGET_NAME" := target_name self]> (st_env s))))) in
  apart B (parent (target_src_dir self)) -> apart B W -> apart B N ->
  fs_lookup (parent (target_src_dir self)) (Some (st_fs s)) = Some (Dir src) ->
  fs_lookup (W ++ ["app"]) (Some (st_fs s)) = None ->
  build yaml_load yaml_dump module_dir self true s = Ok tt s' ->
  build yaml_load yaml_dump module_dir self true s
    = build yaml_load yaml_dump module_dir self false
        (set_fs (fs_rmtree B (st_fs s)) s) /\
  (fs_lookup B (Some (st_fs s)) = None -> fs_rmtree B (st_fs s) = st_fs s) /\
  (B <> [] -> is_dir (fs_lookup B (Some (st_fs s))) = true ->
   fs_lookup B (Some (fs_rmtree B (st_fs s))) = None) /\
  fs_lookup (B ++ ["app"]) (Some (st_fs s')) = Some (Dir src) /\
  (forall rel text,
     rel <> [] -> fs_lookup (W ++ rel) (Some (st_fs s)) = Some (File text) ->
     ~ ["nginx_config"] `prefix_of` rel -> rel <> ["docker-compose.yaml"] ->
     exists out, utf8_valid text = true /\
                 substitute (universal_newlines text) env = inr out /\
                 utf8_valid out = true /\
                 fs_lookup (B ++ rel) (Some (st_fs s')) = Some (File out)) /\
  (forall rel text,
     rel <> [] -> fs_lookup (N ++ rel) (Some (st_fs s)) = Some (File text) ->
     exists out, utf8_valid text = true /\
                 substitute (universal_newlines text) env = inr out /\
                 utf8_valid out = true /\
                 fs_lookup ((B ++ ["nginx_config"]) ++ rel) (Some (st_fs s'))
                   = Some (File out)) /\
  (exists data',
     fs_lookup (B ++ ["docker-compose.yaml"]) (Some (st_fs s'))
       = Some (File (yaml_dump data')) /\
     yaml_at ["services"; target_name self; "ports"] data'
       = Some (YSeq (map (fun hd => YStr (str (fst hd) +:+ ":" +:+ str (snd hd)))
                         (bind_ports self)))) /\
  st_trace s' = st_trace s /\
  st_env s' = st_env s.
Proof.
  intros B env HBS HBW HBN Hsrc Hnoapp Hrun.
  split; [reflexivity|].
  split; [apply fs_rmtree_absent|].
  split; [apply fs_rmtree_removes|].
  apply build_ok_stages in Hrun as (s1 & s2 & s3 & s4 & Hc & H1 & H2 & H3 & ->).
  fold B in Hc, H1, H2, H3.
  change (with_vars (build_env self) true (st_env s)) with env in H1.
  cbn [st_fs st_trace st_env set_env].
  (* the copy of the source *)
  apply shutil_copytree_ok in Hc as (src' & n1 & Hsrc' & Hg & ->).
  cbn [st_fs set_fs] in Hsrc', Hg.
  rewrite (fs_rmtree_frame _ _ _ HBS), Hsrc in Hsrc'. injection Hsrc' as <-.
  assert (F1 : forall q, apart B q ->
                 fs_lookup q (Some n1) = fs_lookup q (Some (st_fs s))).
  { intros q Hq. rewrite <- (fs_rmtree_frame B (st_fs s) q Hq).
    destruct (apart_app_l B q ["app"] Hq) as [Ha Hb].
    eapply at_path_frame; eauto. }
  (* the two runs of the renderer *)
  apply (copy_files_ok W B (apart_sym _ _ HBW)) in H1 as (He1 & _ & Ht1 & C1).
  cbn [st_fs st_env st_trace set_env set_fs] in He1, Ht1, C1.
  apply (copy_files_ok N (B ++ ["nginx_config"])
           (apart_sym _ _ (apart_app_l _ _ _ HBN))) in H2 as (He2 & _ & Ht2 & C2).
  rewrite He1 in C2.
  (* the compose document *)
  apply configure_compose_ok in H3 as (ctext & data & m & n4 & data' & _ & _ & _ & Hw & Hp & ->).
  cbn [st_fs st_trace st_env set_fs].
  assert (Hneq : forall a b (r1 r2 : path), a <> b -> B ++ a :: r1 <> B ++ b :: r2).
  { intros a b r1 r2 Hab Heq. apply app_inv_head in Heq. congruence. }
  assert (Hnpre : forall a b (r2 : path), a <> b -> ~ (B ++ [a]) `prefix_of` (B ++ b :: r2)).
  { intros a b r2 Hab Hpre. apply prefix_app_inv, prefix_cons_inv_1 in Hpre. congruence. }
  split; [|split; [|split; [|split; [|split]]]].
  - (* app *)
    rewrite (fs_write_elsewhere _ _ _ _ _ Hw) by (apply Hnpre; discriminate).
    rewrite (cp_elsewhere _ _ _ _ _ C2).
    + rewrite (cp_elsewhere _ _ _ _ _ C1).
      * eapply fs_graft_lookup; eauto.
      * apply prefix_snoc_not.
      * intros rel Hex Hpre. apply prefix_app_inv in Hpre. destruct Hpre as [r ->].
        apply Hex.
        rewrite app_assoc, fs_lookup_app, F1 by (now apply apart_app_r).
        rewrite Hnoapp. apply fs_lookup_None'.
    + apply Hnpre. discriminate.
    + intros rel _. rewrite <- app_assoc. apply Hnpre. discriminate.
  - (* the webapp templates *)
    intros rel text Hne Ht Hng Hdc.
    rewrite <- F1 in Ht by (now apply apart_app_r).
    destruct (cp_rendered _ _ _ _ _ C1 rel text Hne Ht) as (out & Hs & Ho).
    apply rendering_ok in Hs as (Hv & Hs & Hvo).
    exists out. do 3 (split; [assumption|]).
    eapply fs_write_keeps_file; eauto.
    + apply (cp_files _ _ _ _ _ C2); auto.
      intros rel' _ Heq. rewrite <- app_assoc in Heq. apply app_inv_head in Heq.
      apply Hng. exists rel'. exact Heq.
    + intros Heq. apply app_inv_head in Heq. contradiction.
  - (* the reverse-proxy templates *)
    intros rel text Hne Ht.
    rewrite <- F1 in Ht by (now apply apart_app_r).
    rewrite <- (cp_elsewhere _ _ _ _ _ C1) in Ht.
    + destruct (cp_rendered _ _ _ _ _ C2 rel text Hne Ht) as (out & Hs & Ho).
      apply rendering_ok in Hs as (Hv & Hs & Hvo).
      exists out. do 3 (split; [assumption|]).
      eapply fs_write_keeps_file; eauto.
      rewrite <- app_assoc. apply Hneq. discriminate.
    + apply (apart_app_l N B rel (apart_sym _ _ HBN)).
    + intros rel' _. apply (apart_app N B rel rel' (apart_sym _ _ HBN)).
  - (* the compose document *)
    exists data'. split; [|exact Hp]. eapply fs_write_is_file; eauto.
  - congruence.
  - reflexivity.
Qed.
End BuildClaims.

(** ** The remote shell *)

Lemma sh_parse_plain cmd tokens :
  plain cmd ->
  sh_parse (cmd ++ tokens) = (cmd ++ fst (sh_parse tokens), snd (sh_parse tokens)).
Proof.
  induction 1 as [|t cmd Ht _ IH]; simpl.
  - now destruct (sh_parse tokens).
  - rewrite IH, Ht. reflexivity.
Qed.

Lemma sh_parse_chained cmds :
  Forall plain cmds ->
  sh_parse (flat_map (fun c => ";" :: c) cmds) = ([], map (pair Seq) cmds).
Proof.
  induction 1 as [|c cmds Hc _ IH]; simpl; [reflexivity|].
  rewrite (sh_parse_plain _ _ Hc), IH. simpl. now rewrite app_nil_r.
Qed.

Lemma sh_parse_chain c cmds :
  plain c -> Forall plain cmds ->
  sh_parse (chain_commands (c :: cmds) ";") = (c, map (pair Seq) cmds).
Proof.
  intros Hc Hcs. simpl. rewrite (sh_parse_plain _ _ Hc), (sh_parse_chained _ Hcs).
  simpl. now rewrite app_nil_r.
Qed.

Lemma sh_rest_seq status i last cmds :
  sh_rest status i last (map (pair Seq) cmds) = cmds.
Proof.
  revert i last. induction cmds as [|c cmds IH]; intros i last; simpl; [reflexivity|].
  now rewrite IH.
Qed.

Section Certificate.
Variable apt_get_install : list string -> list string.

(** C8: [set_up_ssl_cert] returns one command line: the eight commands of
    the procedure in their order (packages, virtual environment, [pip]
    upgrade, [certbot] and its nginx plugin, symbolic link, [pkill nginx],
    the non-interactive [certbot] request that agrees to the terms for the
    given e-mail address and domain, [pkill nginx] again) with [;] between
    each two.  The shell reads it as these eight simple commands in
    sequence, and runs every one of them whatever the statuses the
    commands exit with. *)
Theorem cert_chain_unconditional (domain email : string) :
  plain (apt_get_install ["python3"; "python3-venv"; "libaugeas0"]) ->
  control_of domain = None ->
  control_of email = None ->
  let commands :=
    [ apt_get_install ["python3"; "python3-venv"; "libaugeas0"];
      ["python3"; "-m"; "venv"; "/opt/certbot/"];
      ["/opt/certbot/bin/pip"; "install"; "--upgrade"; "pip"];
      ["/opt/certbot/bin/pip"; "install"; "certbot"; "certbot-nginx"];
      ["ln"; "-s"; "/opt/certbot/bin/certbot"; "/usr/bin/certbot"];
      ["pkill"; "nginx"];
      ["certbot"; "--nginx"; "--agree-tos"; "--test-cert"; "--non-interactive";
       "--email"; email; "-d"; domain];
      ["pkill"; "nginx"] ] in
  set_up_ssl_cert apt_get_install domain email = chain_commands commands ";" /\
  sh_parse (set_up_ssl_cert apt_get_install domain email)
    = (hd [] commands, map (pair Seq) (tl commands)) /\
  forall status,
    sh_run status (set_up_ssl_cert apt_get_install domain email) = commands.
Proof.
  intros Hapt Hd He commands.
  assert (Hparse : sh_parse (set_up_ssl_cert apt_get_install domain email)
                   = (hd [] commands, map (pair Seq) (tl commands))).
  { unfold set_up_ssl_cert, cert_commands, certbot_cmd.
    apply sh_parse_chain; [exact Hapt|].
    repeat (apply Forall_cons; split); try apply Forall_nil; try reflexivity;
      assumption. }
  split; [reflexivity|]. split; [exact Hparse|].
  intros status. unfold sh_run. rewrite Hparse. cbn [hd tl].
  now rewrite sh_rest_seq.
Qed.
End Certificate.

(** ** The provisioning sequence *)

Lemma all_returned_app ses history cs1 cs2 :
  all_returned ses history (cs1 ++ cs2) <->
  all_returned ses history cs1 /\ all_returned ses (history ++ cs1) cs2.
Proof.
  revert history. induction cs1 as [|c cs1 IH]; intros history; simpl.
  - rewrite app_nil_r. tauto.
  - rewrite IH, <- app_assoc. simpl. tauto.
Qed.

Lemma same_local_refl s : same_local s s.
Proof. repeat split. Qed.

Lemma same_local_call c s : same_local s (add_call c s).
Proof. repeat split. Qed.

Lemma same_local_trans s1 s2 s3 :
  same_local s1 s2 -> same_local s2 s3 -> same_local s1 s3.
Proof. unfold same_local. intuition congruence. Qed.

Lemma follows_ret ses : follows ses (ret tt) (fun cs => cs = []).
Proof.
  intros s. simpl. split; [apply same_local_refl|].
  exists []. now rewrite app_nil_r.
Qed.

Lemma follows_call ses c : follows ses (session_call ses c ;; ret tt) (fun cs => cs = [c]).
Proof.
  intros s. unfold mbind, M_bind, bind, session_call.
  destruct (ses (st_trace s) c) as [b|e] eqn:E; simpl.
  - split; [apply same_local_call|]. exists [c]. simpl. eauto.
  - split; [apply same_local_call|]. exists [c], [], c.
    rewrite app_nil_r. simpl. auto.
Qed.

Lemma follows_seq ses m1 m2 L1 L2 :
  follows ses m1 L1 -> follows ses m2 L2 -> (exists cs, L2 cs) ->
  follows ses (m1 ;; m2) (seq_of L1 L2).
Proof.
  intros H1 H2 (cs0 & Hcs0) s. unfold mbind, M_bind, bind.
  specialize (H1 s). destruct (m1 s) as [[] s1|e s1].
  - destruct H1 as (Hl1 & cs1 & HL1 & Ht1 & Hr1).
    specialize (H2 s1). destruct (m2 s1) as [[] s2|e s2].
    + destruct H2 as (Hl2 & cs2 & HL2 & Ht2 & Hr2).
      split; [eapply same_local_trans; eauto|].
      exists (cs1 ++ cs2). split; [now exists cs1, cs2|].
      split; [now rewrite Ht2, Ht1, app_assoc|].
      apply all_returned_app. rewrite <- Ht1. auto.
    + destruct H2 as (Hl2 & cs2 & issued & c & HL2 & Hpre & Ht2 & Hr2 & He).
      split; [eapply same_local_trans; eauto|].
      exists (cs1 ++ cs2), (cs1 ++ issued), c.
      split; [now exists cs1, cs2|].
      split; [rewrite <- app_assoc; now apply prefix_app|].
      split; [now rewrite Ht2, Ht1, <- !app_assoc|].
      split; [apply all_returned_app; rewrite <- Ht1; auto|].
      now rewrite app_assoc, <- Ht1.
  - destruct H1 as (Hl1 & cs1 & issued & c & HL1 & Hpre & Ht1 & Hr1 & He).
    split; [assumption|].
    exists (cs1 ++ cs0), issued, c.
    split; [now exists cs1, cs0|].
    split; [now apply prefix_app_r|]. auto.
Qed.

Lemma follows_weaken ses m (L L' : list call -> Prop) :
  follows ses m L -> (forall cs, L cs -> L' cs) -> follows ses m L'.
Proof.
  intros H HL s. specialize (H s). destruct (m s) as [[] s'|e s'].
  - destruct H as (Hl & cs & Hcs & H). split; [assumption|]. exists cs. auto.
  - destruct H as (Hl & cs & issued & c & Hcs & H). split; [assumption|].
    exists cs, issued, c. auto.
Qed.

Lemma follows_ext ses (m m' : M unit) L :
  (forall s, m s = m' s) -> follows ses m L -> follows ses m' L.
Proof. intros Heq H s. rewrite <- Heq. apply H. Qed.

(** A probe, and the commands issued when what it returns is true. *)
Lemma follows_probe ses cmd (installs : M unit) cs :
  follows ses installs (fun l => l = cs) ->
  follows ses (b ← session_run ses cmd; if b : bool then installs else ret tt)
          (fun l => l = [Run cmd] \/ l = Run cmd :: cs).
Proof.
  intros Hi s. unfold mbind, M_bind, bind, session_run, session_call.
  destruct (ses (st_trace s) (Run cmd)) as [b|e] eqn:E.
  - destruct b.
    + specialize (Hi (add_call (Run cmd) s)).
      destruct (installs (add_call (Run cmd) s)) as [[] s'|e s'].
      * destruct Hi as (Hl & l & -> & Ht & Hr). split; [exact Hl|].
        exists (Run cmd :: cs). split; [now right|].
        simpl in Ht. rewrite <- app_assoc in Ht. split; [exact Ht|].
        simpl. eauto.
      * destruct Hi as (Hl & l & issued & c & -> & Hpre & Ht & Hr & He).
        split; [exact Hl|].
        exists (Run cmd :: cs), (Run cmd :: issued), c.
        split; [now right|]. split; [now apply prefix_cons|].
        simpl in Ht, He. rewrite <- app_assoc in Ht, He.
        split; [exact Ht|]. split; [simpl; eauto|exact He].
    + simpl. split; [apply same_local_call|].
      exists [Run cmd]. split; [now left|]. simpl. eauto.
  - split; [apply same_local_call|].
    exists [Run cmd], [], (Run cmd). rewrite app_nil_r. simpl. auto.
Qed.

Lemma follows_issue ses cs : follows ses (issue ses cs) (fun l => l = cs).
Proof.
  induction cs as [|c cs IH].
  - apply follows_ret.
  - eapply follows_weaken.
    + apply (follows_seq ses _ _ _ _ (follows_call ses c) IH). eauto.
    + intros l (l1 & l2 & -> & -> & ->). reflexivity.
Qed.

Lemma run_issue ses cmd (rest : M unit) cs :
  same_runs rest (issue ses cs) ->
  same_runs (session_run ses cmd ;; rest) (issue ses (Run cmd :: cs)).
Proof.
  intros H s. unfold issue. cbn [for_each].
  unfold mbind, M_bind, bind, session_run.
  destruct (session_call ses (Run cmd) s) as [b s1|e s1]; [|reflexivity].
  apply H.
Qed.

Lemma upload_issue ses a b (rest : M unit) cs :
  same_runs rest (issue ses cs) ->
  same_runs (session_upload ses a b ;; rest) (issue ses (Upload a b :: cs)).
Proof.
  intros H s. unfold issue, session_upload. cbn [for_each].
  unfold mbind, M_bind, bind.
  destruct (session_call ses (Upload a b) s) as [x s1|e s1]; [|reflexivity].
  apply H.
Qed.

Lemma ret_issue ses : same_runs (ret tt) (issue ses []).
Proof. intros s. reflexivity. Qed.

Lemma probe_step (m : M bool) (k k' rest rest' : M unit) :
  same_runs k k' -> same_runs rest rest' ->
  same_runs (b ← m; ((if b : bool then k else ret tt) ;; rest))
            ((b ← m; if b : bool then k' else ret tt) ;; rest').
Proof.
  intros Hk Hr s. unfold mbind, M_bind, bind.
  destruct (m s) as [[] s1|e s1]; [| |reflexivity].
  - rewrite Hk. destruct (k' s1) as [[] s2|e s2]; [apply Hr|reflexivity].
  - unfold ret. apply Hr.
Qed.

Section Deploy.
Variable install_docker : list string.
Variable docker_compose_build : path -> list string.
Variable apt_get_install : list string -> list string.

Lemma deploy_shape ses self :
  same_runs
    (deploy install_docker docker_compose_build apt_get_install ses self)
    (ensure ses "docker" [Run install_docker] ;;
     ensure ses "python" [Run (apt_get_install ["python-is-python3"])] ;;
     ensure ses "nginx" [Run (apt_get_install ["nginx"]);
                         Run ["rm"; "/etc/nginx/sites-available/default"];
                         Run ["rm"; "/etc/nginx/sites-enabled/default"]] ;;
     issue ses (rollout docker_compose_build apt_get_install self)).
Proof.
  unfold deploy, ensure.
  apply probe_step; [apply run_issue, ret_issue|].
  apply probe_step; [apply run_issue, ret_issue|].
  apply probe_step; [do 3 apply run_issue; apply ret_issue|].
  unfold rollout. apply upload_issue. do 4 apply run_issue. apply ret_issue.
Qed.

Lemma follows_ensure ses tool installs :
  follows ses (ensure ses tool installs)
          (fun l => l = [Run (probe tool)] \/ l = Run (probe tool) :: installs).
Proof. apply follows_probe, follows_issue. Qed.

Lemma follows_deploy ses self :
  follows ses (deploy install_docker docker_compose_build apt_get_install ses self)
    (fun cs => exists pre,
       Forall (fun c => In c (provisioning install_docker apt_get_install)) pre /\ cs = pre ++ rollout docker_compose_build apt_get_install self).
Proof.
  eapply follows_ext; [intros s; symmetry; apply deploy_shape|].
  eapply follows_weaken.
  - apply follows_seq; [apply follows_ensure| |].
    + apply follows_seq; [apply follows_ensure| |].
      * apply follows_seq; [apply follows_ensure|apply follows_issue|eauto].
      * eexists. eexists _, _. split; [reflexivity|]. split; [now left|reflexivity].
    + eexists. eexists _, _. split; [reflexivity|]. split; [now left|].
      eexists _, _. split; [reflexivity|]. split; [now left|reflexivity].
  - intros cs (l1 & r1 & -> & H1 & l2 & r2 & -> & H2 & l3 & r3 & -> & H3 & ->).
    exists (l1 ++ l2 ++ l3). split; [|now rewrite <- !app_assoc].
    unfold provisioning.
    repeat apply Forall_app_2;
      [destruct H1 as [->| ->] | destruct H2 as [->| ->] | destruct H3 as [->| ->]];
      repeat (apply Forall_cons_2 || apply Forall_nil_2); simpl; tauto.
Qed.

(** Whatever happens, a statement that follows sequences which all begin
    with the call [c0] has made that call first. *)
Lemma follows_first ses (m : M unit) (L : list call -> Prop) c0 s :
  follows ses m L -> (forall cs, L cs -> exists tl, cs = c0 :: tl) ->
  exists rest, st_trace (state_of (m s)) = st_trace s ++ c0 :: rest.
Proof.
  intros H Hc0. specialize (H s). destruct (m s) as [[] s'|e s']; simpl.
  - destruct H as (_ & cs & Hcs & Ht & _).
    destruct (Hc0 _ Hcs) as (tl & ->). eauto.
  - destruct H as (_ & cs & issued & c & Hcs & Hpre & Ht & _).
    destruct (Hc0 _ Hcs) as (tl & ->).
    destruct issued as [|a issued]; simpl in Hpre.
    + apply prefix_cons_inv_1 in Hpre as ->. exists []. exact Ht.
    + apply prefix_cons_inv_1 in Hpre as ->. exists (issued ++ [c]). exact Ht.
Qed.

(** C1 (amended): [deploy] writes nothing locally and talks to the session
    only.  When it completes it has made, after calls that are all probes
    or installs, the five calls of the roll-out in their order: upload of
    the build directory, copy of the reverse-proxy configuration, compose
    build, certificate procedure, reload.  When it raises, the exception is
    the one its last call raised: the calls before it had returned, they
    and it are the beginning of such a sequence, and no later step was
    started; so an exception in a probe aborts before the upload.  What a
    call returns does not abort anything: on a session that raises nothing
    [deploy] completes, whatever the values returned. *)
Theorem deploy_order (ses : session) (self : Webapp) (s : state) :
  match deploy install_docker docker_compose_build apt_get_install ses self s with
  | Ok _ s' =>
      same_local s s' /\
      exists pre,
        Forall (fun c => In c (provisioning install_docker apt_get_install)) pre /\
        st_trace s' = st_trace s ++ pre ++ rollout docker_compose_build apt_get_install self /\
        all_returned ses (st_trace s) (pre ++ rollout docker_compose_build apt_get_install self)
  | Raise e s' =>
      same_local s s' /\
      exists pre issued c,
        Forall (fun c => In c (provisioning install_docker apt_get_install)) pre /\
        (issued ++ [c]) `prefix_of` (pre ++ rollout docker_compose_build apt_get_install self) /\
        st_trace s' = st_trace s ++ issued ++ [c] /\
        all_returned ses (st_trace s) issued /\
        ses (st_trace s ++ issued) c = Raised e
  end /\
  ((forall history c, exists b, ses history c = Returned b) ->
   exists s', deploy install_docker docker_compose_build apt_get_install ses self s
              = Ok tt s').
Proof.
  pose proof (follows_deploy ses self s) as H.
  destruct (deploy _ _ _ ses self s) as [[] s'|e s'].
  - destruct H as (Hl & cs & (pre & Hpre & ->) & Ht & Hr). split; [|eauto].
    split; [exact Hl|]. exists pre. auto.
  - destruct H as (Hl & cs & issued & c & (pre & Hpre & ->) & Hp & Ht & Hr & He).
    split.
    + split; [exact Hl|]. exists pre, issued, c. auto.
    + intros Hnever. destruct (Hnever (st_trace s ++ issued) c) as (b & Hb).
      congruence.
Qed.
End Deploy.

(** * The claims on the target *)

Ltac apart_paths := split; intros [r Hr]; simpl in Hr; discriminate Hr.
Ltac in_list := repeat (try (left; reflexivity); right).

(** C1, as stated, fails: on a host where every command exits with status 1
    [session.run] returns a false value for every step and [deploy] goes on
    to the end, the five steps of the roll-out included; the same holds when
    every call returns a true value. *)
Lemma failed_steps_do_not_abort :
  Demo.deploy_on (Demo.host_exits 1) =
    Ok tt (mkState Demo.disk Demo.environ []
             ([Run (probe "docker"); Run (probe "python"); Run (probe "nginx")] ++
              rollout Demo.docker_compose_build Demo.apt_get_install Demo.self)) /\
  deploy Demo.install_docker Demo.docker_compose_build Demo.apt_get_install
         (fun _ _ => Returned true) Demo.self Demo.start =
    Ok tt (mkState Demo.disk Demo.environ []
             (provisioning Demo.install_docker Demo.apt_get_install ++
              rollout Demo.docker_compose_build Demo.apt_get_install Demo.self)).
Proof. split; vm_compute; reflexivity. Qed.

(** The compose document of the target gets its two ports. *)
Lemma compose_ports_set_witness :
  fs_lookup (["art"] ++ ["docker-compose.yaml"]) (Some (st_fs Demo.artifact))
    = Some (File (Demo.yaml_show Demo.compose)) /\
  Demo.yaml_load (Demo.yaml_show Demo.compose) = Some Demo.compose /\
  exists data' s',
    configure_compose Demo.yaml_load Demo.yaml_show ["art"] "shop"
      [(8080, 80); (8443, 443)]%Z Demo.artifact = Ok tt s' /\
    fs_lookup (["art"] ++ ["docker-compose.yaml"]) (Some (st_fs s'))
      = Some (File (Demo.yaml_show data')) /\
    yaml_at ["services"; "shop"; "ports"] data'
      = Some (YSeq [YStr "8080:80"; YStr "8443:443"]).
Proof.
  split; [reflexivity|]. split; [reflexivity|].
  destruct (compose_ports_set Demo.yaml_load Demo.yaml_show ["art"] "shop"
              Demo.artifact (Demo.yaml_show Demo.compose) Demo.compose
              [("build", YMap [("context", YStr "."); ("network", YStr "host")]);
               ("ports", YNull); ("network_mode", YStr "host")]
              eq_refl eq_refl eq_refl)
    as (data' & s' & Hrun & Hfile & Hports & _).
  exists data', s'. auto.
Defined.

(** The compose document of the target has no service [blog]. *)
Lemma compose_missing_service_witness :
  service_entry Demo.compose "blog" = None /\
  exists e s',
    configure_compose Demo.yaml_load Demo.yaml_show ["art"] "blog"
      [(8080, 80)]%Z Demo.artifact = Raise e s' /\
    (e = KeyError "services" \/ e = KeyError "blog" \/ e = TypeError \/ e = AttributeError) /\
    s' = Demo.artifact /\
    fs_lookup (["art"] ++ ["docker-compose.yaml"]) (Some (st_fs s'))
      = Some (File (Demo.yaml_show Demo.compose)).
Proof.
  split; [reflexivity|].
  apply (compose_missing_service Demo.yaml_load Demo.yaml_show ["art"] "blog"
           [(8080, 80)]%Z Demo.artifact (Demo.yaml_show Demo.compose) Demo.compose);
    reflexivity.
Defined.

(** C4, as stated, fails.  The first template below references
    [DOMAIN_NAME], which the environment does not have, and its rendering
    fails with an error that names no key, because the [$] of the rewrite
    rule stops the substitution first.  In the second template set the file
    [b.conf] references [B_MISSING] only, and the run fails with an error
    that names [A_MISSING], the placeholder of the file listed before it. *)
Lemma missing_key_not_named :
  (fs_lookup ["pkg"; "nginx_config"; "site.conf"] (Some (st_fs Demo.proxy_only))
     = Some (File Demo.rewrite_rule) /\
   references Demo.rewrite_rule "DOMAIN_NAME" /\
   st_env Demo.proxy_only !! "DOMAIN_NAME" = None /\
   substitute Demo.rewrite_rule (st_env Demo.proxy_only)
     = inl (ValueError "Invalid placeholder in string") /\
   exists s',
     copy_files_with_substitution ["pkg"; "nginx_config"] ["out"] Demo.proxy_only
       = Raise (ValueError "Invalid placeholder in string") s') /\
  (fs_lookup ["tpl"; "b.conf"] (Some (st_fs Demo.two_missing))
     = Some (File "y $B_MISSING") /\
   (forall k, references "y $B_MISSING" k -> k = "B_MISSING") /\
   st_env Demo.two_missing !! "B_MISSING" = None /\
   exists s',
     copy_files_with_substitution ["tpl"] ["out"] Demo.two_missing
       = Raise (KeyError "A_MISSING") s').
Proof.
  split.
  - split; [reflexivity|]. split; [unfold references; vm_compute; in_list|].
    split; [reflexivity|]. split; [reflexivity|].
    eexists. vm_compute. reflexivity.
  - split; [reflexivity|]. split.
    + intros k Hk. unfold references in Hk.
      assert (Ht : tokenize "y $B_MISSING" = [Lit "y"; Lit " "; Placeholder "B_MISSING"])
        by (vm_compute; reflexivity).
      rewrite Ht in Hk. destruct Hk as [Hk|[Hk|[Hk|[]]]]; try discriminate.
      now injection Hk.
    + split; [reflexivity|]. eexists. vm_compute. reflexivity.
Qed.

(** The template [b.conf] misses [B_MISSING]; the run fails at [a.conf], the
    first file of the listing, at its placeholder [A_MISSING]. *)
Lemma missing_placeholder_fails_witness :
  references "y $B_MISSING" "B_MISSING" /\
  st_env Demo.two_missing !! "B_MISSING" = None /\
  exists e s',
    copy_files_with_substitution ["tpl"] ["out"] Demo.two_missing = Raise e s' /\
    fs_lookup (["out"] ++ ["b.conf"]) (Some (st_fs s'))
      = fs_lookup (["out"] ++ ["b.conf"]) (Some (st_fs Demo.two_missing)) /\
    exists pre rel1 post text1,
      rglob_at ["tpl"] (st_fs Demo.two_missing) = pre ++ rel1 :: post /\
      ~ In ["b.conf"] pre /\
      fs_lookup (["tpl"] ++ rel1) (Some (st_fs Demo.two_missing)) = Some (File text1) /\
      (forall r t, In r pre ->
         fs_lookup (["tpl"] ++ r) (Some (st_fs Demo.two_missing)) = Some (File t) ->
         utf8_valid t = true /\
         exists out, substitute (universal_newlines t) (st_env Demo.two_missing) = inr out /\
                     utf8_valid out = true) /\
      ((utf8_valid text1 = false /\ e = UnicodeDecodeError) \/
       (utf8_valid text1 = true /\
        ((exists out, substitute (universal_newlines text1) (st_env Demo.two_missing)
                        = inr out /\
                      utf8_valid out = false /\ e = UnicodeEncodeError) \/
         (exists done t rest,
            tokenize (universal_newlines text1) = done ++ t :: rest /\
            (exists out, convert (st_env Demo.two_missing) done = inr out) /\
            ((exists k1, t = Placeholder k1 /\ st_env Demo.two_missing !! k1 = None /\
                         e = KeyError k1) \/
             (t = Invalid /\ e = ValueError "Invalid placeholder in string")))))).
Proof.
  assert (Href : references "y $B_MISSING" "B_MISSING")
    by (unfold references; vm_compute; in_list).
  assert (Hapart : apart ["tpl"] ["out"]) by apart_paths.
  assert (Hrel : ["b.conf"] <> []) by discriminate.
  assert (Hfile : fs_lookup (["tpl"] ++ ["b.conf"]) (Some (st_fs Demo.two_missing))
                  = Some (File "y $B_MISSING")) by (vm_compute; reflexivity).
  assert (Hk : st_env Demo.two_missing !! "B_MISSING" = None) by (vm_compute; reflexivity).
  assert (Hout : forall q, q <> [] ->
            fs_lookup (["out"] ++ q) (Some (st_fs Demo.two_missing)) = None).
  { intros q _. rewrite fs_lookup_app.
    assert (E : fs_lookup ["out"] (Some (st_fs Demo.two_missing)) = None)
      by (vm_compute; reflexivity).
    rewrite E. apply fs_lookup_None'. }
  assert (Hlist : rglob_at ["tpl"] (st_fs Demo.two_missing) = [["a.conf"]; ["b.conf"]])
    by (vm_compute; reflexivity).
  split; [exact Href|]. split; [exact Hk|].
  destruct (missing_placeholder_fails ["tpl"] ["out"] ["b.conf"] "y $B_MISSING"
              "B_MISSING" Demo.two_missing Hapart Hrel Hfile Href Hk)
    as (e & s' & Hrun & Hkeep & Hexact).
  exists e, s'. split; [exact Hrun|]. split; [exact Hkeep|].
  apply Hexact.
  - intros P [r Hr]. destruct P as [|x [|y P]]; [reflexivity| |discriminate Hr].
    injection Hr as <- _. vm_compute. reflexivity.
  - intros q Hq Hf. rewrite (Hout q Hq) in Hf. discriminate Hf.
  - intros q Hq Hd. rewrite (Hout q Hq) in Hd. discriminate Hd.
  - intros r Hr. rewrite Hlist in Hr.
    destruct Hr as [<-|[<-|[]]]; vm_compute; discriminate.
Defined.

(** C6, as stated, fails: the build directory of the target is there, with a
    file in it but no [app], and [build(clean=False)] completes: it copies
    the source into the directory and renders into it. *)
Lemma build_into_existing_directory :
  is_dir (fs_lookup (target_build_dir Demo.self) (Some (st_fs Demo.start))) = true /\
  fs_lookup (target_build_dir Demo.self ++ ["app"]) (Some (st_fs Demo.start)) = None /\
  exists s',
    build Demo.yaml_load Demo.yaml_show Demo.module_dir Demo.self false Demo.start = Ok tt s' /\
    fs_lookup (target_build_dir Demo.self ++ ["app"]) (Some (st_fs s'))
      = Some (Dir Demo.sources) /\
    fs_lookup (target_build_dir Demo.self ++ ["notes.txt"]) (Some (st_fs s'))
      = Some (File "keep") /\
    st_log s' = [].
Proof.
  split; [reflexivity|]. split; [reflexivity|].
  eexists. split; [vm_compute; reflexivity|].
  split; [reflexivity|]. split; reflexivity.
Qed.

(** A second build without [clean] after a completed one is refused. *)
Lemma build_refuses_existing_app_witness :
  fs_lookup (parent (target_src_dir Demo.self)) (Some (st_fs Demo.built))
    = Some (Dir Demo.sources) /\
  fs_lookup (app_build_dir Demo.self) (Some (st_fs Demo.built))
    = Some (Dir Demo.sources) /\
  exists s',
    build Demo.yaml_load Demo.yaml_show Demo.module_dir Demo.self false Demo.built = Raise (SystemExit 1) s' /\
    st_fs s' = st_fs Demo.built /\
    st_log s' = st_log Demo.built ++ [build_collision Demo.self] /\
    st_trace s' = st_trace Demo.built.
Proof.
  assert (H1 : fs_lookup (parent (target_src_dir Demo.self)) (Some (st_fs Demo.built))
               = Some (Dir Demo.sources)) by (vm_compute; reflexivity).
  assert (H2 : fs_lookup (app_build_dir Demo.self) (Some (st_fs Demo.built))
               = Some (Dir Demo.sources)) by (vm_compute; reflexivity).
  split; [exact H1|]. split; [exact H2|].
  exact (build_refuses_existing_app Demo.yaml_load Demo.yaml_show Demo.module_dir
           Demo.self Demo.built Demo.sources (Dir Demo.sources) H1 H2).
Defined.

(** The clean build of the target: the reverse-proxy file with the domain
    and the application port of the target, the compose document with its
    two ports. *)
Lemma build_clean_witness :
  build Demo.yaml_load Demo.yaml_show Demo.module_dir Demo.self true Demo.start
    = Ok tt Demo.built /\
  fs_lookup (target_build_dir Demo.self ++ ["app"]) (Some (st_fs Demo.built))
    = Some (Dir Demo.sources) /\
  substitute (universal_newlines Demo.site_conf)
    (<["DOMAIN_NAME" := "shop.example.org"]>
       (<["DEPLOYMENT_DIR" := "/srv/shop"]>
          (<["APPLICATION_PORT" := "8000"]>
             (<["EXPOSED_PORTS" := "80 443"]>
                (<["TARGET_NAME" := "shop"]> (st_env Demo.start))))))
    = inr "server_name shop.example.org; proxy_pass http://127.0.0.1:8000;" /\
  fs_lookup ((target_build_dir Demo.self ++ ["nginx_config"]) ++ ["conf.d"; "site.conf"])
            (Some (st_fs Demo.built))
    = Some (File "server_name shop.example.org; proxy_pass http://127.0.0.1:8000;") /\
  fs_lookup (target_build_dir Demo.self ++ ["Dockerfile"]) (Some (st_fs Demo.built))
    = Some (File "FROM python:3; EXPOSE 80 443; CMD uvicorn --port 8000") /\
  (exists data',
     fs_lookup (target_build_dir Demo.self ++ ["docker-compose.yaml"])
               (Some (st_fs Demo.built)) = Some (File (Demo.yaml_show data')) /\
     yaml_at ["services"; "shop"; "ports"] data'
       = Some (YSeq [YStr "8080:80"; YStr "8443:443"])) /\
  st_trace Demo.built = st_trace Demo.start.
Proof.
  assert (Hrun : build Demo.yaml_load Demo.yaml_show Demo.module_dir Demo.self true
                   Demo.start = Ok tt Demo.built)
    by (vm_compute; reflexivity).
  assert (HS : apart (target_build_dir Demo.self) (parent (target_src_dir Demo.self)))
    by apart_paths.
  assert (HW : apart (target_build_dir Demo.self) (WEBAPP_CONFIG_DIR Demo.module_dir))
    by apart_paths.
  assert (HN : apart (target_build_dir Demo.self) (NGINX_CONFIG_DIR Demo.module_dir))
    by apart_paths.
  assert (Hsrc : fs_lookup (parent (target_src_dir Demo.self)) (Some (st_fs Demo.start))
                 = Some (Dir Demo.sources)) by (vm_compute; reflexivity).
  assert (Hnoapp : fs_lookup (WEBAPP_CONFIG_DIR Demo.module_dir ++ ["app"])
                     (Some (st_fs Demo.start)) = None) by (vm_compute; reflexivity).
  assert (Hsub : substitute (universal_newlines Demo.site_conf)
            (<["DOMAIN_NAME" := "shop.example.org"]>
               (<["DEPLOYMENT_DIR" := "/srv/shop"]>
                  (<["APPLICATION_PORT" := "8000"]>
                     (<["EXPOSED_PORTS" := "80 443"]>
                        (<["TARGET_NAME" := "shop"]> (st_env Demo.start))))))
            = inr "server_name shop.example.org; proxy_pass http://127.0.0.1:8000;")
    by (vm_compute; reflexivity).
  assert (Hsite : fs_lookup ((target_build_dir Demo.self ++ ["nginx_config"])
                               ++ ["conf.d"; "site.conf"]) (Some (st_fs Demo.built))
            = Some (File "server_name shop.example.org; proxy_pass http://127.0.0.1:8000;"))
    by (vm_compute; reflexivity).
  assert (Hdocker : fs_lookup (target_build_dir Demo.self ++ ["Dockerfile"])
                      (Some (st_fs Demo.built))
            = Some (File "FROM python:3; EXPOSE 80 443; CMD uvicorn --port 8000"))
    by (vm_compute; reflexivity).
  pose proof (build_clean Demo.yaml_load Demo.yaml_show Demo.module_dir Demo.self
                Demo.start Demo.built Demo.sources HS HW HN Hsrc Hnoapp Hrun) as H.
  cbv zeta in H.
  destruct H as (_ & _ & _ & Happ & _ & _ & Hcompose & Htrace & _).
  split; [exact Hrun|]. split; [exact Happ|].
  split; [exact Hsub|]. split; [exact Hsite|]. split; [exact Hdocker|].
  split; [exact Hcompose|exact Htrace].
Defined.

(** The certificate procedure of the target, with [apt-get] for the packages. *)
Lemma cert_chain_unconditional_witness :
  plain (Demo.apt_get_install ["python3"; "python3-venv"; "libaugeas0"]) /\
  forall status,
    sh_run status (set_up_ssl_cert Demo.apt_get_install "shop.example.org" "ops@example.org")
    = [ ["apt-get"; "install"; "-y"; "python3"; "python3-venv"; "libaugeas0"];
        ["python3"; "-m"; "venv"; "/opt/certbot/"];
        ["/opt/certbot/bin/pip"; "install"; "--upgrade"; "pip"];
        ["/opt/certbot/bin/pip"; "install"; "certbot"; "certbot-nginx"];
        ["ln"; "-s"; "/opt/certbot/bin/certbot"; "/usr/bin/certbot"];
        ["pkill"; "nginx"];
        ["certbot"; "--nginx"; "--agree-tos"; "--test-cert"; "--non-interactive";
         "--email"; "ops@example.org"; "-d"; "shop.example.org"];
        ["pkill"; "nginx"] ].
Proof.
  assert (Hp : plain (Demo.apt_get_install ["python3"; "python3-venv"; "libaugeas0"])).
  { unfold plain, Demo.apt_get_install. simpl.
    repeat (apply Forall_cons_2; [reflexivity|]). apply Forall_nil_2. }
  split; [exact Hp|].
  exact (proj2 (proj2 (cert_chain_unconditional Demo.apt_get_install
                         "shop.example.org" "ops@example.org" Hp eq_refl eq_refl))).
Defined.

(** The reverse-proxy templates rendered into [/out], then, from the state
    this leaves, into [/tmp/again]. *)
Lemma render_twice_identical_witness :
  fs_lookup ["pkg"; "nginx_config"] (Some (st_fs Demo.proxied))
    = fs_lookup ["pkg"; "nginx_config"] (Some (st_fs Demo.first_run)) /\
  fs_lookup ["out"] (Some (st_fs Demo.proxied)) = None /\
  fs_lookup ["tmp"; "again"] (Some (st_fs Demo.first_run)) = None /\
  exists s2,
    copy_files_with_substitution ["pkg"; "nginx_config"] ["out"] Demo.proxied
      = Ok tt Demo.first_run /\
    copy_files_with_substitution ["pkg"; "nginx_config"] ["tmp"; "again"] Demo.first_run
      = Ok tt s2 /\
    fs_lookup ["out"] (Some (st_fs Demo.first_run))
      = fs_lookup ["tmp"; "again"] (Some (st_fs s2)) /\
    forall rel,
      fs_lookup (["out"] ++ rel) (Some (st_fs Demo.first_run))
      = fs_lookup (["tmp"; "again"] ++ rel) (Some (st_fs s2)).
Proof.
  assert (HT : fs_lookup ["pkg"; "nginx_config"] (Some (st_fs Demo.proxied))
               = fs_lookup ["pkg"; "nginx_config"] (Some (st_fs Demo.first_run)))
    by (vm_compute; reflexivity).
  assert (H1 : copy_files_with_substitution ["pkg"; "nginx_config"] ["out"] Demo.proxied
               = Ok tt Demo.first_run) by (vm_compute; reflexivity).
  assert (H2 : copy_files_with_substitution ["pkg"; "nginx_config"] ["tmp"; "again"]
                 Demo.first_run
               = Ok tt (state_of (copy_files_with_substitution ["pkg"; "nginx_config"]
                                    ["tmp"; "again"] Demo.first_run)))
    by (vm_compute; reflexivity).
  assert (Hf2 : fs_lookup ["tmp"; "again"] (Some (st_fs Demo.first_run)) = None)
    by (vm_compute; reflexivity).
  assert (Henv : st_env Demo.proxied = st_env Demo.first_run)
    by (vm_compute; reflexivity).
  assert (A1 : apart ["pkg"; "nginx_config"] ["out"]) by apart_paths.
  assert (A2 : apart ["pkg"; "nginx_config"] ["tmp"; "again"]) by apart_paths.
  split; [exact HT|]. split; [reflexivity|]. split; [exact Hf2|].
  eexists. split; [exact H1|]. split; [exact H2|].
  exact (render_twice_identical ["pkg"; "nginx_config"] ["out"] ["tmp"; "again"]
           Demo.proxied Demo.first_run Demo.first_run _
           A1 A2 HT Henv eq_refl Hf2 H1 H2).
Defined.

(** With the variables of the Dockerfile only, the webapp templates are
    rendered up to the compose file, which needs [TARGET_NAME]. *)
Lemma render_not_atomic_witness :
  exists s',
    copy_files_with_substitution ["pkg"; "webapp_config"] ["out"] Demo.partial
      = Raise (KeyError "TARGET_NAME") s' /\
    exists pre rel post text,
      rglob_at ["pkg"; "webapp_config"] (st_fs Demo.partial) = pre ++ rel :: post /\
      fs_lookup (["pkg"; "webapp_config"] ++ rel) (Some (st_fs Demo.partial))
        = Some (File text) /\
      utf8_valid text = true /\
      substitute (universal_newlines text) (st_env Demo.partial)
        = inl (KeyError "TARGET_NAME") /\
      is_dir (fs_lookup ["out"] (Some (st_fs s'))) = true /\
      (forall r t, In r pre ->
         fs_lookup (["pkg"; "webapp_config"] ++ r) (Some (st_fs Demo.partial))
           = Some (File t) ->
         exists out, utf8_valid t = true /\
                     substitute (universal_newlines t) (st_env Demo.partial) = inr out /\
                     utf8_valid out = true /\
                     fs_lookup (["out"] ++ r) (Some (st_fs s')) = Some (File out)) /\
      fs_lookup (["out"] ++ rel) (Some (st_fs s'))
        = fs_lookup (["out"] ++ rel) (Some (st_fs Demo.partial)) /\
      (forall q, ~ q `prefix_of` ["out"] ->
         (forall r, In r pre -> ~ q `prefix_of` (["out"] ++ r)) ->
         fs_lookup q (Some (st_fs s')) = fs_lookup q (Some (st_fs Demo.partial))).
Proof.
  assert (A : apart ["pkg"; "webapp_config"] ["out"]) by apart_paths.
  assert (H : copy_files_with_substitution ["pkg"; "webapp_config"] ["out"] Demo.partial
              = Raise (KeyError "TARGET_NAME")
                  (state_of (copy_files_with_substitution ["pkg"; "webapp_config"]
                               ["out"] Demo.partial)))
    by (vm_compute; reflexivity).
  eexists. split; [exact H|].
  exact (render_not_atomic ["pkg"; "webapp_config"] ["out"] "TARGET_NAME"
           Demo.partial _ A H).
Defined.

(** * Further properties of the module *)

(** ** The template renderer *)

Lemma assoc_set_same_value {A} k (v : A) l : assoc k l = Some v -> assoc_set k v l = l.
Proof.
  induction l as [|[k' v'] l IH]; simpl; [discriminate|].
  destruct (String.eqb k k') eqn:E.
  - now intros [= ->].
  - intros H. now rewrite IH.
Qed.

(** A call that gives back the entry it finds changes nothing. *)
Lemma at_path_same b p f o :
  fs_lookup p o <> None -> f (fs_lookup p o) = Some (fs_lookup p o) ->
  at_path b p f o = Some o.
Proof.
  revert o. induction p as [|x p IH]; intros o Hex Hf; simpl in *; [exact Hf|].
  destruct o as [[s|es]|]; try congruence.
  rewrite (IH _ Hex Hf).
  destruct (assoc x es) as [c|] eqn:E; [|now rewrite fs_lookup_None' in Hex].
  simpl. now rewrite (assoc_set_same_value _ _ _ E).
Qed.

Lemma fs_mkdir_existing p o :
  is_dir (fs_lookup p o) = true -> fs_mkdir p o = Some o.
Proof.
  intros H. apply at_path_same.
  - intros E. rewrite E in H. discriminate.
  - destruct (fs_lookup p o) as [[?|?]|]; try discriminate. reflexivity.
Qed.

Lemma fs_write_same p t o :
  fs_lookup p o = Some (File t) -> fs_write p t o = Some o.
Proof.
  intros H. apply at_path_same; rewrite H; [discriminate|reflexivity].
Qed.

Lemma set_fs_same s : set_fs (st_fs s) s = s.
Proof. now destruct s. Qed.

Lemma path_mkdir_existing p s :
  is_dir (fs_lookup p (Some (st_fs s))) = true -> path_mkdir p s = Ok tt s.
Proof.
  intros H. unfold path_mkdir. rewrite (fs_mkdir_existing _ _ H).
  now rewrite set_fs_same.
Qed.

(** A turn of the loop for an entry that has its counterpart already. *)
Lemma copy_entry_again T D rel s :
  (exists text out,
     fs_lookup (T ++ rel) (Some (st_fs s)) = Some (File text) /\
     rendering text (st_env s) = inr out /\
     fs_lookup (D ++ rel) (Some (st_fs s)) = Some (File out)) \/
  (is_dir (fs_lookup (T ++ rel) (Some (st_fs s))) = true /\
   is_dir (fs_lookup (D ++ rel) (Some (st_fs s))) = true) ->
  copy_entry T D rel s = Ok tt s.
Proof.
  rewrite copy_entry_eq. intros [(text & out & Ht & Hs & Ho)|[Ht Ho]].
  - apply rendering_ok in Hs as (Hv & Hs & Hvo).
    rewrite Ht. unfold read_as_text. rewrite Hv, Hs.
    unfold path_write_text. rewrite Hvo. unfold path_write_bytes.
    rewrite (fs_write_same _ _ _ Ho). now rewrite set_fs_same.
  - destruct (fs_lookup (T ++ rel) (Some (st_fs s))) as [[?|?]|]; try discriminate.
    now apply path_mkdir_existing.
Qed.

Lemma for_each_again T D l s :
  (forall rel, In rel l ->
     (exists text out,
        fs_lookup (T ++ rel) (Some (st_fs s)) = Some (File text) /\
        rendering text (st_env s) = inr out /\
        fs_lookup (D ++ rel) (Some (st_fs s)) = Some (File out)) \/
     (is_dir (fs_lookup (T ++ rel) (Some (st_fs s))) = true /\
      is_dir (fs_lookup (D ++ rel) (Some (st_fs s))) = true)) ->
  for_each l (copy_entry T D) s = Ok tt s.
Proof.
  induction l as [|x l IH]; intros H; simpl; [reflexivity|].
  unfold mbind, M_bind, bind.
  rewrite (copy_entry_again T D x s (H x (or_introl eq_refl))).
  apply IH. intros rel Hin. apply H. now right.
Qed.

(** X1: a completed run of [copy_files_with_substitution] leaves the
    destination a directory, the rendering of every template file (which is
    UTF-8: its text, newlines translated, with the placeholders
    substituted) at the same relative path below it and a directory for
    every template directory; the environment, the log and the session are
    as before. *)
Theorem render_mirrors (T D : path) (s s' : state) :
  apart T D ->
  copy_files_with_substitution T D s = Ok tt s' ->
  is_dir (fs_lookup D (Some (st_fs s'))) = true /\
  (forall rel text,
     rel <> [] -> fs_lookup (T ++ rel) (Some (st_fs s)) = Some (File text) ->
     exists out, utf8_valid text = true /\
                 substitute (universal_newlines text) (st_env s) = inr out /\
                 utf8_valid out = true /\
                 fs_lookup (D ++ rel) (Some (st_fs s')) = Some (File out)) /\
  (forall rel,
     rel <> [] -> is_dir (fs_lookup (T ++ rel) (Some (st_fs s))) = true ->
     is_dir (fs_lookup (D ++ rel) (Some (st_fs s'))) = true) /\
  st_env s' = st_env s /\ st_log s' = st_log s /\ st_trace s' = st_trace s.
Proof.
  intros HTD H. apply (copy_files_ok T D HTD) in H as (He & Hl & Ht & C).
  split; [apply (cp_dest _ _ _ _ _ C)|].
  split.
  { intros rel text Hne Hf.
    destruct (cp_rendered _ _ _ _ _ C rel text Hne Hf) as (out & Hs & Ho).
    apply rendering_ok in Hs as (Hv & Hs & Hvo). eauto 10. }
  split; [apply (cp_mirrored _ _ _ _ _ C)|]. auto.
Qed.

(** X2: a completed run removes nothing.  Every file that is not the
    destination of a template file is kept with its text, stale files of
    the destination included; every directory stays a directory; the
    templates are as before. *)
Theorem render_keeps_other_files (T D : path) (s s' : state) :
  apart T D ->
  copy_files_with_substitution T D s = Ok tt s' ->
  (forall q u,
     fs_lookup q (Some (st_fs s)) = Some (File u) ->
     (forall rel, is_file (fs_lookup (T ++ rel) (Some (st_fs s))) = true -> q <> D ++ rel) ->
     fs_lookup q (Some (st_fs s')) = Some (File u)) /\
  (forall q,
     is_dir (fs_lookup q (Some (st_fs s))) = true ->
     is_dir (fs_lookup q (Some (st_fs s'))) = true) /\
  (forall q, fs_lookup (T ++ q) (Some (st_fs s')) = fs_lookup (T ++ q) (Some (st_fs s))).
Proof.
  intros HTD H. apply (copy_files_ok T D HTD) in H as (_ & _ & _ & C).
  split; [apply (cp_files _ _ _ _ _ C)|].
  split; [apply (cp_dirs _ _ _ _ _ C)|apply (cp_templates _ _ _ _ _ C)].
Qed.

(** X3: rendering again into the same destination changes nothing: after a
    completed run, a second run with the same arguments completes in the
    state the first one left. *)
Theorem render_again_changes_nothing (T D : path) (s s1 : state) :
  apart T D ->
  copy_files_with_substitution T D s = Ok tt s1 ->
  copy_files_with_substitution T D s1 = Ok tt s1.
Proof.
  intros HTD H. unfold copy_files_with_substitution in *.
  apply bind_ok in H as ([] & sa & Hmk & H).
  apply bind_ok in H as (l & sb & Hl & H). injection Hl as <- <-.
  apply (for_each_rendered T D HTD) in H as (He & _ & _ & Hr).
  assert (Hdir : is_dir (fs_lookup D (Some (st_fs s1))) = true).
  { apply (rd_dirs _ _ _ _ _ _ Hr).
    apply path_mkdir_ok in Hmk as (n & -> & Hn). eapply fs_mkdir_is_dir; eauto. }
  unfold mbind, M_bind, bind. rewrite (path_mkdir_existing _ _ Hdir).
  unfold path_rglob.
  assert (Hglob : rglob_at T (st_fs s1) = rglob_at T (st_fs sa)).
  { unfold rglob_at. pose proof (rd_templates _ _ _ _ _ _ Hr []) as E.
    rewrite app_nil_r in E. now rewrite E. }
  rewrite Hglob. apply for_each_again. intros rel Hin.
  destruct (rd_entries _ _ _ _ _ _ Hr rel Hin) as [(text & out & Ht & Hs & Ho)|[Ht Ho]].
  - left. exists text, out. rewrite (rd_templates _ _ _ _ _ _ Hr), He. auto.
  - right. rewrite (rd_templates _ _ _ _ _ _ Hr). auto.
Qed.

(** X4: a template directory without entries (one that is missing, or is a
    file, or is empty) is no error: the run is the creation of the
    destination directory and nothing more. *)
Theorem render_without_templates (T D : path) (s : state) :
  rglob_at T (st_fs s) = [] ->
  ~ T `prefix_of` D ->
  copy_files_with_substitution T D s = path_mkdir D s.
Proof.
  intros Hglob HTD. unfold copy_files_with_substitution, mbind, M_bind, bind.
  destruct (path_mkdir D s) as [[] s1|e s1] eqn:Hmk; [|reflexivity].
  unfold path_rglob.
  assert (E : rglob_at T (st_fs s1) = rglob_at T (st_fs s)).
  { apply path_mkdir_ok in Hmk as (n & -> & Hn). unfold rglob_at. simpl.
    now rewrite (fs_mkdir_elsewhere _ _ _ T Hn HTD). }
  rewrite E, Hglob. reflexivity.
Qed.

(** ** Templates and the environment *)

Lemma scan_plain text : occurs "$" text = false -> scan Text text = lits text.
Proof.
  induction text as [|c text IH]; [reflexivity|].
  cbn [occurs scan]. rewrite (Ascii.eqb_sym "$" c).
  destruct (Ascii.eqb c "$"); [discriminate|].
  intros H. unfold lits in *. cbn [list_ascii_of_string map]. now rewrite IH.
Qed.

Lemma convert_lits env text : convert env (lits text) = inr text.
Proof.
  induction text as [|c text IH]; simpl; [reflexivity|].
  unfold lits in *. now rewrite IH.
Qed.

Lemma substitute_plain text env :
  occurs "$" text = false -> substitute text env = inr text.
Proof.
  intros H. unfold substitute, tokenize. rewrite (scan_plain _ H).
  apply convert_lits.
Qed.

Lemma convert_agree env env' ts :
  (forall k, In (Placeholder k) ts -> env !! k = env' !! k) ->
  convert env ts = convert env' ts.
Proof.
  induction ts as [|t ts IH]; intros H; simpl; [reflexivity|].
  assert (E : convert env ts = convert env' ts)
    by (apply IH; intros k Hk; apply H; now right).
  destruct t as [c| |k|]; rewrite ?E; try reflexivity.
  now rewrite (H k (or_introl eq_refl)).
Qed.

Lemma substitute_agree text env env' :
  (forall k, references text k -> env !! k = env' !! k) ->
  substitute text env = substitute text env'.
Proof. apply convert_agree. Qed.

Lemma convert_ok_iff env ts :
  (exists out, convert env ts = inr out) <->
  (~ In Invalid ts /\ forall k, In (Placeholder k) ts -> env !! k <> None).
Proof.
  induction ts as [|t ts IH]; simpl.
  - split; [intros _; split; [tauto|intros k []]|eauto].
  - destruct IH as [IH1 IH2]. split.
    + intros [out H].
      assert (Hts : exists out', convert env ts = inr out').
      { destruct t as [c| |k|]; try discriminate;
          try (destruct (env !! k); [|discriminate]);
          destruct (convert env ts); try discriminate; eauto. }
      destruct (IH1 Hts) as [Hi Hk]. split.
      * intros [->|Hin]; [discriminate|tauto].
      * intros k [->|Hin]; [|auto]. destruct (env !! k); discriminate.
    + intros [Hi Hk].
      destruct IH2 as [out' E]; [split; [tauto|intros k Hin; apply Hk; now right]|].
      destruct t as [c| |k|]; rewrite ?E; eauto.
      * pose proof (Hk k (or_introl eq_refl)) as Hv.
        destruct (env !! k); [eauto|congruence].
      * exfalso. apply Hi. now left.
Qed.

Lemma substitute_ok_iff text env :
  (exists out, substitute text env = inr out) <->
  (~ ill_formed text /\ forall k, references text k -> env !! k <> None).
Proof. apply convert_ok_iff. Qed.

Lemma render_local_agree tpl env env' rel o :
  (forall text, fs_lookup rel tpl = Some (File text) ->
                substitute (universal_newlines text) env
                = substitute (universal_newlines text) env') ->
  render_local tpl env rel o = render_local tpl env' rel o.
Proof.
  intros H. unfold render_local.
  destruct (fs_lookup rel tpl) as [[text|es]|]; try reflexivity.
  unfold rendering, read_as_text. destruct (utf8_valid text); [|reflexivity].
  now rewrite (H text eq_refl).
Qed.

Lemma render_all_agree tpl env env' l o :
  (forall rel text, fs_lookup rel tpl = Some (File text) ->
                    substitute (universal_newlines text) env
                    = substitute (universal_newlines text) env') ->
  render_all tpl env l o = render_all tpl env' l o.
Proof.
  intros H. revert o. induction l as [|rel l IH]; intros o; simpl; [reflexivity|].
  rewrite (render_local_agree tpl env env' rel o (H rel)).
  destruct (render_local tpl env' rel o); auto.
Qed.

Lemma newlines_plain c b text :
  Ascii.eqb c "010" = false -> occurs c text = false ->
  occurs c (newlines_from b text) = false.
Proof.
  intros Hc. revert b. induction text as [|a text IH]; intros b; [reflexivity|].
  cbn [occurs newlines_from]. intros H. apply orb_false_iff in H as [Ha Ht].
  destruct (Ascii.eqb a "010").
  - destruct b; [now apply IH|]. cbn [occurs]. now rewrite Ha, IH.
  - destruct (Ascii.eqb a "013"); cbn [occurs]; rewrite ?Ha, ?Hc; now rewrite IH.
Qed.

Lemma newlines_without_cr text :
  occurs "013" text = false -> universal_newlines text = text.
Proof.
  unfold universal_newlines. induction text as [|a text IH]; [reflexivity|].
  cbn [occurs newlines_from]. intros H. apply orb_false_iff in H as [Ha Ht].
  rewrite (Ascii.eqb_sym a "013"), Ha.
  destruct (Ascii.eqb a "010"); now rewrite IH.
Qed.

(** X5: a template file without a dollar sign is copied with its line ends
    translated and nothing else changed: it is UTF-8, and what is at its
    destination is its text with a line feed for every carriage return and
    line feed pair and for every other carriage return; a file that has no
    carriage return either is copied as it is. *)
Theorem render_copies_plain_text (T D rel : path) (text : string) (s s' : state) :
  apart T D ->
  copy_files_with_substitution T D s = Ok tt s' ->
  rel <> [] ->
  fs_lookup (T ++ rel) (Some (st_fs s)) = Some (File text) ->
  occurs "$" text = false ->
  utf8_valid text = true /\
  fs_lookup (D ++ rel) (Some (st_fs s')) = Some (File (universal_newlines text)) /\
  (occurs "013" text = false ->
   fs_lookup (D ++ rel) (Some (st_fs s')) = Some (File text)).
Proof.
  intros HTD H Hrel Ht Hplain.
  apply (copy_files_ok T D HTD) in H as (_ & _ & _ & C).
  destruct (cp_rendered _ _ _ _ _ C rel text Hrel Ht) as (out & Hs & Ho).
  apply rendering_ok in Hs as (Hv & Hs & _).
  rewrite substitute_plain in Hs by (now apply newlines_plain).
  injection Hs as <-. split; [exact Hv|]. split; [exact Ho|].
  intros Hcr. now rewrite (newlines_without_cr _ Hcr) in Ho.
Qed.

(** X6: the output depends on the environment through the placeholders of
    the templates only.  Two completed runs over the same template set, each
    into a destination that did not exist, leave the same tree whenever the
    two environments agree on every name a template file mentions, whatever
    else they hold. *)
Theorem render_reads_placeholders_only (T D1 D2 : path) (s1 s2 s1' s2' : state) :
  apart T D1 -> apart T D2 ->
  fs_lookup T (Some (st_fs s1)) = fs_lookup T (Some (st_fs s2)) ->
  (forall rel text k,
     fs_lookup (T ++ rel) (Some (st_fs s1)) = Some (File text) ->
     references text k -> st_env s1 !! k = st_env s2 !! k) ->
  fs_lookup D1 (Some (st_fs s1)) = None ->
  fs_lookup D2 (Some (st_fs s2)) = None ->
  copy_files_with_substitution T D1 s1 = Ok tt s1' ->
  copy_files_with_substitution T D2 s2 = Ok tt s2' ->
  forall rel, fs_lookup (D1 ++ rel) (Some (st_fs s1')) =
              fs_lookup (D2 ++ rel) (Some (st_fs s2')).
Proof.
  intros H1 H2 HT Henv Hf1 Hf2 Hr1 Hr2.
  apply (copy_files_fresh T D1 H1 _ _ Hf1) in Hr1.
  apply (copy_files_fresh T D2 H2 _ _ Hf2) in Hr2.
  unfold rglob_at in Hr1, Hr2. rewrite <- HT in Hr2.
  rewrite (render_all_agree _ (st_env s1) (st_env s2)) in Hr1.
  - rewrite Hr2 in Hr1. injection Hr1 as Heq.
    intros rel. rewrite !fs_lookup_app. now rewrite Heq.
  - intros rel text Hl. apply substitute_agree. intros k Hk.
    apply (proj1 (references_newlines _ _)) in Hk.
    apply (Henv rel text k); [|exact Hk]. now rewrite fs_lookup_app.
Qed.

(** X7: when nothing is in the way (no file on the path to the destination,
    below it no file where the templates have a directory and no directory
    where they have a file, the template set and the destination lying
    apart, every entry the listing names being there), the renderer
    completes exactly when every template file is UTF-8, has no ill-formed
    [$], has a value in the environment for every placeholder, and gives a
    substituted text that can be encoded: no order of the listing, no
    nesting of the templates makes it fail. *)
Theorem render_completes (T D : path) (s : state) :
  apart T D ->
  (forall P, P `prefix_of` D -> is_file (fs_lookup P (Some (st_fs s))) = false) ->
  (forall q, q <> [] ->
     is_file (fs_lookup (D ++ q) (Some (st_fs s))) = true ->
     is_dir (fs_lookup (T ++ q) (Some (st_fs s))) = false) ->
  (forall q, q <> [] ->
     is_dir (fs_lookup (D ++ q) (Some (st_fs s))) = true ->
     is_file (fs_lookup (T ++ q) (Some (st_fs s))) = false) ->
  (forall rel, In rel (rglob_at T (st_fs s)) ->
               fs_lookup (T ++ rel) (Some (st_fs s)) <> None) ->
  ((exists s', copy_files_with_substitution T D s = Ok tt s') <->
   (forall rel text,
      rel <> [] -> fs_lookup (T ++ rel) (Some (st_fs s)) = Some (File text) ->
      utf8_valid text = true /\
      ~ ill_formed text /\
      (forall k, references text k -> st_env s !! k <> None) /\
      (forall out, substitute (universal_newlines text) (st_env s) = inr out ->
                   utf8_valid out = true))).
Proof.
  intros HTD Hway Hfiles Hdirs Hlist. split.
  - intros (s' & H) rel text Hne Hl.
    apply (copy_files_ok T D HTD) in H as (_ & _ & _ & C).
    destruct (cp_rendered _ _ _ _ _ C rel text Hne Hl) as (out & Hs & _).
    apply rendering_ok in Hs as (Hv & Hs & Hvo).
    split; [exact Hv|].
    destruct (proj1 (substitute_ok_iff _ _) (ex_intro _ out Hs)) as [Hi Hk].
    split; [now rewrite <- ill_formed_newlines|].
    split; [intros k Hr; now apply Hk, references_newlines|].
    intros out' Ho. congruence.
  - intros Hph. apply (run_completes T D HTD s Hway Hfiles Hdirs Hlist).
    intros r content Hin Hl.
    destruct (Hph r content (rglob_at_nonempty T s r Hin) Hl) as (Hv & Hi & Hk & Henc).
    destruct (proj2 (substitute_ok_iff (universal_newlines content) (st_env s)))
      as (out & Hs).
    { split; [now rewrite ill_formed_newlines|].
      intros k Hr. now apply Hk, references_newlines. }
    exists out. apply rendering_ok. auto.
Qed.

(** ** What a run leaves in a new destination, and what stops it *)

(** X8: a destination that was not there has, after a completed run, the shape
    of the template set and nothing else: below it, a path is a file exactly
    when it is a file among the templates, and a directory exactly when it
    is a directory there. *)
Theorem render_fresh_same_shape (T D : path) (s s' : state) :
  apart T D ->
  fs_lookup D (Some (st_fs s)) = None ->
  copy_files_with_substitution T D s = Ok tt s' ->
  forall rel, rel <> [] ->
    is_file (fs_lookup (D ++ rel) (Some (st_fs s')))
      = is_file (fs_lookup (T ++ rel) (Some (st_fs s))) /\
    is_dir (fs_lookup (D ++ rel) (Some (st_fs s')))
      = is_dir (fs_lookup (T ++ rel) (Some (st_fs s))).
Proof.
  intros HTD Hfresh H rel Hne.
  apply (copy_files_ok T D HTD) in H as (_ & _ & _ & C).
  destruct (fs_lookup (T ++ rel) (Some (st_fs s))) as [[text|es]|] eqn:E.
  - destruct (cp_rendered _ _ _ _ _ C rel text Hne E) as (out & _ & ->). auto.
  - pose proof (cp_mirrored _ _ _ _ _ C rel Hne) as Hd. rewrite E in Hd.
    specialize (Hd eq_refl).
    destruct (fs_lookup (D ++ rel) (Some (st_fs s'))) as [[?|?]|]; try discriminate. auto.
  - rewrite (cp_elsewhere _ _ _ _ _ C).
    + now rewrite fs_lookup_app, Hfresh, fs_lookup_None'.
    + intros [r Hr]. apply (f_equal (@length string)) in Hr.
      rewrite !length_app in Hr. destruct rel; [congruence|]. simpl in Hr. lia.
    + intros rel' Hex Hpre. apply prefix_app_inv in Hpre as [r ->].
      apply Hex. now rewrite app_assoc, fs_lookup_app, E, fs_lookup_None'.
Qed.

(** X9: nothing of the wrong kind is replaced.  When the destination holds a
    file where the template set has a directory, or a directory where it
    has a file, the run does not complete: it raises. *)
Theorem render_fails_on_kind_clash (T D rel : path) (s : state) :
  apart T D -> rel <> [] ->
  (is_dir (fs_lookup (T ++ rel) (Some (st_fs s))) = true /\
   is_file (fs_lookup (D ++ rel) (Some (st_fs s))) = true) \/
  (is_file (fs_lookup (T ++ rel) (Some (st_fs s))) = true /\
   is_dir (fs_lookup (D ++ rel) (Some (st_fs s))) = true) ->
  exists e s', copy_files_with_substitution T D s = Raise e s'.
Proof.
  intros HTD Hne Hclash.
  destruct (copy_files_with_substitution T D s) as [[] s'|e s'] eqn:H; [|eauto].
  exfalso. apply (copy_files_ok T D HTD) in H as (_ & _ & _ & C).
  destruct Hclash as [[Ht Hd]|[Ht Hd]].
  - pose proof (cp_mirrored _ _ _ _ _ C rel Hne Ht) as Hm.
    destruct (fs_lookup (D ++ rel) (Some (st_fs s))) as [[u|?]|] eqn:E; try discriminate.
    rewrite (cp_files _ _ _ _ _ C _ u E) in Hm; [discriminate|].
    intros rel' Hf Heq. apply app_inv_head in Heq. subst rel'.
    destruct (fs_lookup (T ++ rel) (Some (st_fs s))) as [[?|?]|]; discriminate.
  - destruct (fs_lookup (T ++ rel) (Some (st_fs s))) as [[text|?]|] eqn:E; try discriminate.
    destruct (cp_rendered _ _ _ _ _ C rel text Hne E) as (out & _ & Ho).
    pose proof (cp_dirs _ _ _ _ _ C _ Hd) as Hk. rewrite Ho in Hk. discriminate.
Qed.

(** ** The compose document *)

Lemma assoc_set_set {A} k (v1 v2 : A) l :
  assoc_set k v2 (assoc_set k v1 l) = assoc_set k v2 l.
Proof.
  induction l as [|[k' v'] l IH]; simpl.
  - now rewrite String.eqb_refl.
  - destruct (String.eqb k k') eqn:E; simpl; rewrite E; [reflexivity|].
    now rewrite IH.
Qed.

Lemma fs_write_some p t o r : fs_write p t o = Some r -> exists n, r = Some n.
Proof.
  unfold fs_write. destruct p as [|x p]; simpl.
  - unfold write_f. destruct o as [[?|?]|]; intros [= <-]; eauto.
  - destruct o as [[?|es]|]; try discriminate.
    destruct (at_path false p (write_f t) (assoc x es)); intros [= <-]; eauto.
Qed.

(** Writing a file that is there twice is writing it once. *)
Lemma fs_write_twice p t1 t2 u o r :
  fs_lookup p o = Some (File u) ->
  fs_write p t1 o = Some r -> fs_write p t2 r = fs_write p t2 o.
Proof.
  unfold fs_write. revert o r. induction p as [|x p IH]; intros o r Hl Hw; simpl in *.
  - subst o. simpl in Hw. now injection Hw as <-.
  - destruct o as [[?|es]|]; try discriminate.
    destruct (at_path false p (write_f t1) (assoc x es)) as [o'|] eqn:E; [|discriminate].
    injection Hw as <-.
    destruct (fs_write_some _ _ _ _ E) as (n & ->).
    cbn [assoc_upd]. rewrite assoc_set_same, (IH _ _ Hl E).
    destruct (at_path false p (write_f t2) (assoc x es)) as [o2|] eqn:E2; [|reflexivity].
    destruct (fs_write_some _ _ _ _ E2) as (n2 & ->).
    cbn [assoc_upd]. now rewrite assoc_set_set.
Qed.

Lemma with_ports_service app ports top services m :
  assoc "services" top = Some (YMap services) ->
  assoc app services = Some (YMap m) ->
  with_ports app ports (YMap top) =
  YMap (assoc_set "services"
          (YMap (assoc_set app (YMap (assoc_set "ports" (port_strings ports) m)) services))
          top).
Proof. intros E1 E2. unfold with_ports. simpl. rewrite E1. simpl. now rewrite E2. Qed.

(** A path is blocked when a file stands on the way to it. *)
Lemma blocked_iff p n :
  blocked p n = true <->
  exists P r, p = P ++ r /\ r <> [] /\ is_file (fs_lookup P (Some n)) = true.
Proof.
  unfold blocked. rewrite existsb_exists. split.
  - intros (k & Hk & Hf). apply in_seq in Hk as [_ Hk]. simpl in Hk.
    exists (take k p), (drop k p). split; [now rewrite take_drop|]. split; [|exact Hf].
    intros E. apply (f_equal (@length string)) in E. rewrite length_drop in E.
    simpl in E. lia.
  - intros (P & r & -> & Hr & Hf). exists (length P). split.
    + apply in_seq. split; [apply Nat.le_0_l|].
      rewrite length_app. destruct r; [congruence|]. simpl. lia.
    + now rewrite take_app_length.
Qed.

Section ComposeMore.
Variable yaml_load : string -> option yaml.
Variable yaml_dump : yaml -> string.

(** X10: [configure_compose] completes exactly when the compose file is
    there, is read as a document and the document holds a mapping for the
    service; in every other case it raises, and has written nothing when it
    does: a missing or unreadable document is never replaced, and no
    service entry is made up.  A compose file that is not there is reported
    with [FileNotFoundError] when no file stands on the way to it, and with
    [NotADirectoryError] when one does (the directory, or one above it, is
    a file). *)
Theorem compose_all_or_nothing (dir : path) (app : string) (ports : list (Z * Z))
    (s : state) :
  ((exists s', configure_compose yaml_load yaml_dump dir app ports s = Ok tt s') <->
   (exists text data m,
      fs_lookup (dir ++ ["docker-compose.yaml"]) (Some (st_fs s)) = Some (File text) /\
      yaml_load text = Some data /\ service_entry data app = Some m)) /\
  (forall e s', configure_compose yaml_load yaml_dump dir app ports s = Raise e s' ->
                s' = s) /\
  (fs_lookup (dir ++ ["docker-compose.yaml"]) (Some (st_fs s)) = None ->
   (forall P, P `prefix_of` dir -> is_file (fs_lookup P (Some (st_fs s))) = false) ->
   configure_compose yaml_load yaml_dump dir app ports s
     = Raise (FileNotFoundError (dir ++ ["docker-compose.yaml"])) s) /\
  ((exists P, P `prefix_of` dir /\ is_file (fs_lookup P (Some (st_fs s))) = true) ->
   configure_compose yaml_load yaml_dump dir app ports s
     = Raise (NotADirectoryError (dir ++ ["docker-compose.yaml"])) s).
Proof.
  split; [|split; [|split]].
  - split.
    + intros [s' H].
      destruct (fs_lookup (dir ++ ["docker-compose.yaml"]) (Some (st_fs s)))
        as [[text|?]|] eqn:Hf;
        try (unfold configure_compose, yaml_load_file, mbind, M_bind, bind,
               path_read_bytes in H; rewrite Hf in H; discriminate).
      destruct (yaml_load text) as [data|] eqn:Hl;
        [|unfold configure_compose, yaml_load_file, mbind, M_bind, bind,
            path_read_bytes in H; rewrite Hf, Hl in H; discriminate].
      destruct (service_entry data app) as [m|] eqn:Hs; [now exists text, data, m|].
      destruct (configure_compose_no_service yaml_load yaml_dump dir app ports
                  s text data Hf Hl Hs) as (e & Hrun & _).
      rewrite Hrun in H. discriminate.
    + intros (text & data & m & Hf & Hl & Hs).
      destruct (configure_compose_service yaml_load yaml_dump dir app ports
                  s text data m Hf Hl Hs) as (_ & _ & n & _ & _ & _ & _ & Hrun).
      eauto.
  - intros e s'. apply configure_compose_raise.
  - intros Hf Hway.
    assert (Hb : blocked (dir ++ ["docker-compose.yaml"]) (st_fs s) = false).
    { destruct (blocked _ _) eqn:E; [|reflexivity].
      apply blocked_iff in E as (P & r & HP & Hr & HfP).
      assert (Hpre : P `prefix_of` dir).
      { rewrite (app_removelast_last "" Hr), app_assoc in HP.
        apply app_inj_tail in HP as [-> _]. now exists (removelast r). }
      rewrite (Hway P Hpre) in HfP. discriminate. }
    unfold configure_compose, yaml_load_file, mbind, M_bind, bind, path_read_bytes.
    now rewrite Hf, Hb.
  - intros (P & [r ->] & HfP).
    assert (Hb : blocked ((P ++ r) ++ ["docker-compose.yaml"]) (st_fs s) = true).
    { apply blocked_iff. exists P, (r ++ ["docker-compose.yaml"]).
      split; [now rewrite app_assoc|]. split; [now destruct r|exact HfP]. }
    assert (Hf : fs_lookup ((P ++ r) ++ ["docker-compose.yaml"]) (Some (st_fs s)) = None).
    { rewrite <- app_assoc, fs_lookup_app.
      destruct (fs_lookup P (Some (st_fs s))) as [[u|?]|]; try discriminate.
      now destruct r. }
    unfold configure_compose, yaml_load_file, mbind, M_bind, bind, path_read_bytes.
    now rewrite Hf, Hb.
Qed.

(** X11: the port mapping is replaced, not added to.  When the codec reads
    back the document a first call wrote, a second call with another
    mapping does what it would have done without the first one: the file
    holds the ports of the last call only, and a call repeated with the
    same mapping changes nothing. *)
Theorem compose_last_mapping_wins (dir : path) (app : string) (P Q : list (Z * Z))
    (s s1 : state) (text : string) (data : yaml) :
  fs_lookup (dir ++ ["docker-compose.yaml"]) (Some (st_fs s)) = Some (File text) ->
  yaml_load text = Some data ->
  yaml_load (yaml_dump (with_ports app P data)) = Some (with_ports app P data) ->
  configure_compose yaml_load yaml_dump dir app P s = Ok tt s1 ->
  configure_compose yaml_load yaml_dump dir app Q s1
    = configure_compose yaml_load yaml_dump dir app Q s /\
  configure_compose yaml_load yaml_dump dir app P s1 = Ok tt s1.
Proof.
  intros Hf Hl Hrt Hrun.
  assert (Hboth : forall R, configure_compose yaml_load yaml_dump dir app R s1
                            = configure_compose yaml_load yaml_dump dir app R s).
  { intros R.
    destruct (service_entry data app) as [m|] eqn:Hs.
    2:{ destruct (configure_compose_no_service yaml_load yaml_dump dir app P
                    s text data Hf Hl Hs) as (e & Hr & _). congruence. }
    destruct (configure_compose_service yaml_load yaml_dump dir app P
                s text data m Hf Hl Hs) as (top & svcs & n & -> & E1 & E2 & Hn & Hr).
    rewrite Hr in Hrun. injection Hrun as <-.
    rewrite (with_ports_service app P top svcs m E1 E2) in Hrt.
    destruct (configure_compose_service yaml_load yaml_dump dir app R
                s text (YMap top) m Hf Hl Hs) as (top' & svcs' & nR & Ht & E1' & E2' & HnR & HrR).
    injection Ht as <-. rewrite E1 in E1'. injection E1' as <-.
    rewrite HrR.
    assert (Hf1 : fs_lookup (dir ++ ["docker-compose.yaml"]) (Some (st_fs (set_fs n s)))
                  = Some (File (yaml_dump (YMap (assoc_set "services"
                      (YMap (assoc_set app (YMap (assoc_set "ports" (port_strings P) m)) svcs))
                      top)))))
      by (cbn [st_fs set_fs]; eapply fs_write_is_file; eauto).
    assert (Hs1 : service_entry (YMap (assoc_set "services"
                      (YMap (assoc_set app (YMap (assoc_set "ports" (port_strings P) m)) svcs))
                      top)) app = Some (assoc_set "ports" (port_strings P) m)).
    { unfold service_entry. cbn [yaml_at]. now rewrite !assoc_set_same. }
    destruct (configure_compose_service yaml_load yaml_dump dir app R
                (set_fs n s) _ _ _ Hf1 Hrt Hs1)
      as (top2 & svcs2 & n2 & Ht2 & E12 & E22 & Hn2 & Hr2).
    injection Ht2 as <-. rewrite assoc_set_same in E12. injection E12 as <-.
    rewrite Hr2. f_equal. cbn [st_fs set_fs] in Hn2.
    rewrite !assoc_set_set in Hn2.
    rewrite (fs_write_twice _ _ _ _ _ _ Hf Hn) in Hn2.
    rewrite HnR in Hn2. injection Hn2 as <-. reflexivity. }
  split; [apply Hboth|]. now rewrite Hboth.
Qed.

End ComposeMore.

(** ** The build stage and the life cycle *)

Section BuildMore.
Variable yaml_load : string -> option yaml.
Variable yaml_dump : yaml -> string.
Variable module_dir : path.

(** X12: the source is looked at after the clean-up.  When the directory
    that holds the source of the target is not there (or is a file), a
    build without [clean] fails and changes nothing, but a build with
    [clean] has removed the build directory of the last build when it
    fails: the old artifact is lost and none is made. *)
Theorem clean_build_removes_before_it_checks (self : Webapp) (s : state) :
  let B := target_build_dir self in
  let S := parent (target_src_dir self) in
  apart B S -> B <> [] ->
  is_dir (fs_lookup B (Some (st_fs s))) = true ->
  is_dir (fs_lookup S (Some (st_fs s))) = false ->
  exists e s',
    (e = FileNotFoundError S \/ e = NotADirectoryError S) /\
    build yaml_load yaml_dump module_dir self false s = Raise e s /\
    build yaml_load yaml_dump module_dir self true s = Raise e s' /\
    fs_lookup B (Some (st_fs s')) = None /\
    (forall q, apart B q -> fs_lookup q (Some (st_fs s')) = fs_lookup q (Some (st_fs s))) /\
    st_env s' = st_env s /\ st_log s' = st_log s /\ st_trace s' = st_trace s.
Proof.
  intros B S HBS Hne HB HS.
  exists (match fs_lookup S (Some (st_fs s)) with
          | Some (File _) => NotADirectoryError S
          | _ => FileNotFoundError S
          end), (set_fs (fs_rmtree B (st_fs s)) s).
  split; [destruct (fs_lookup S _) as [[?|?]|]; auto|].
  split; [|split].
  - unfold build, mbind, M_bind, bind, try_except, shutil_copytree. simpl.
    fold S. destruct (fs_lookup S (Some (st_fs s))) as [[?|?]|]; try discriminate; reflexivity.
  - unfold build, mbind, M_bind, bind, try_except, shutil_copytree, shutil_rmtree.
    cbn [st_fs set_fs]. fold S B. rewrite (fs_rmtree_frame _ _ _ HBS).
    destruct (fs_lookup S (Some (st_fs s))) as [[?|?]|]; try discriminate; reflexivity.
  - cbn [st_fs st_env st_log st_trace set_fs].
    split; [now apply fs_rmtree_removes|].
    split; [intros q Hq; now apply fs_rmtree_frame|auto].
Qed.

End BuildMore.

Section LifecycleFacts.
Variable docker_compose_up : path -> list string.
Variable docker_compose_stop : path -> list string.

(** X13: [run] only talks to the session: it asks for the services of the
    deployed compose file to be brought up, then for nginx to be started,
    in that order.  What the first command returns is not looked at, the
    second is issued when the first has failed; an exception of the
    session ends the run at the call that raised it.  [stop] issues the
    one command that stops the services.  Neither touches the local files,
    the environment or the log. *)
Theorem run_and_stop_calls (ses : session) (self : Webapp) :
  follows ses (run docker_compose_up ses self)
    (fun cs => cs = [Run (docker_compose_up (deployed_docker_compose_yaml self));
                     Run ["service"; "nginx"; "start"]]) /\
  follows ses (stop docker_compose_stop ses self)
    (fun cs => cs = [Run (docker_compose_stop (deployed_docker_compose_yaml self))]).
Proof.
  split.
  - eapply follows_ext; [|apply follows_issue].
    intros s'. symmetry. unfold run. do 2 apply run_issue. apply ret_issue.
  - eapply follows_ext; [|apply follows_issue].
    intros s'. symmetry. unfold stop. apply run_issue. apply ret_issue.
Qed.

End LifecycleFacts.

(** ** The debug run *)

Lemma strip_prefix_app base r : strip_prefix base (base ++ r) = Some r.
Proof.
  induction base as [|b base IH]; simpl; [now destruct r|].
  now rewrite String.eqb_refl.
Qed.

Lemma append_assoc' (a b c : string) : (a +:+ b) +:+ c = a +:+ (b +:+ c).
Proof.
  induction a as [|x a IH]; [reflexivity|].
  change (String x ((a +:+ b) +:+ c) = String x (a +:+ (b +:+ c))). now rewrite IH.
Qed.

Lemma replace_char_app a b s1 s2 :
  replace_char a b (s1 +:+ s2) = replace_char a b s1 +:+ replace_char a b s2.
Proof.
  induction s1 as [|c s1 IH]; [reflexivity|].
  change (String (if Ascii.eqb c a then b else c) (replace_char a b (s1 +:+ s2)) =
          String (if Ascii.eqb c a then b else c)
                 (replace_char a b s1 +:+ replace_char a b s2)).
  now rewrite IH.
Qed.

Lemma replace_char_absent a b s : occurs a s = false -> replace_char a b s = s.
Proof.
  induction s as [|c s IH]; [reflexivity|]. cbn [occurs replace_char].
  rewrite (Ascii.eqb_sym a c). destruct (Ascii.eqb c a); [discriminate|].
  intros H. now rewrite IH.
Qed.

Lemma uvicorn_app_main self base name :
  target_src_dir self = base ++ [name] ->
  occurs "/" name = false ->
  uvicorn_app self = inr (name +:+ ".main:app").
Proof.
  intros Hsrc Hname. unfold uvicorn_app, entrypoint, relative_to, parent.
  rewrite Hsrc, removelast_last, <- app_assoc, strip_prefix_app.
  change (without_suffix ([name] ++ ["main.py"])) with (@inr exn path [name; "main"]).
  cbv iota beta. change (as_posix_rel [name; "main"]) with (name +:+ "/main").
  rewrite replace_char_app, (replace_char_absent _ _ _ Hname), append_assoc'.
  reflexivity.
Qed.

(** X14: for a target whose source directory is [<base>/<name>], the name being
    one path component, [debug] runs three commands one after the other:
    [pip install -r] on the requirements of the target, [fastapi dev] on
    [<base>/<name>/main.py], and [uvicorn] on the application
    [<name>.main:app], reloading on changes below the source directory,
    on the application port of the target. *)
Theorem debug_serves_main_module (subprocess_run : list string -> M unit)
    (target_dir : path) (self : Webapp) (base : path) (name : string) :
  target_src_dir self = base ++ [name] ->
  component name ->
  same_runs
    (debug subprocess_run target_dir self)
    (subprocess_run ["pip"; "install"; "-r"; as_posix (target_dir ++ ["requirements.txt"])] ;;
     subprocess_run ["fastapi"; "dev"; as_posix (base ++ [name; "main.py"])] ;;
     subprocess_run ["uvicorn"; name +:+ ".main:app"; "--reload"; "--reload-dir";
                     as_posix (base ++ [name]);
                     "--port"; str (application_port self)]).
Proof.
  intros Hsrc (_ & _ & _ & Hname) s. unfold debug.
  rewrite (uvicorn_app_main self base name Hsrc Hname), Hsrc, <- app_assoc.
  reflexivity.
Qed.

(** ** Scaffolding *)

(** A call below a directory that is there works on the tree of that
    directory, and leaves alone what lies apart from it. *)
Lemma at_path_below b T rel f n t t' :
  fs_lookup T (Some n) = Some t ->
  at_path b rel f (Some t) = Some (Some t') ->
  exists n', at_path b (T ++ rel) f (Some n) = Some (Some n') /\
             fs_lookup T (Some n') = Some t' /\
             forall q, apart T q -> fs_lookup q (Some n') = fs_lookup q (Some n).
Proof.
  intros Hl H. rewrite at_path_app.
  destruct (at_path_defined b T (at_path b rel f) (Some n) t (Some t') Hl H) as (o' & Ho).
  destruct (at_path_lookup _ _ _ _ _ Ho) as (r & Hr & Hlk).
  rewrite Hl, H in Hr. injection Hr as <-.
  specialize (Hlk []). rewrite app_nil_r in Hlk. simpl in Hlk.
  destruct o' as [n'|]; [|now rewrite fs_lookup_None' in Hlk].
  exists n'. split; [exact Ho|]. split; [exact Hlk|].
  intros q [H1 H2]. eapply at_path_frame; eauto.
Qed.

Lemma path_mkdir_new_below T rel s t t' :
  fs_lookup T (Some (st_fs s)) = Some t ->
  fs_graft rel (Dir []) (Some t) = Some (Some t') ->
  exists s', path_mkdir_new (T ++ rel) s = Ok tt s' /\ changed_below T t' s s'.
Proof.
  intros Hl H. destruct (at_path_below _ _ _ _ _ _ _ Hl H) as (n' & Hn & Ht & Hf).
  exists (set_fs n' s). unfold path_mkdir_new, fs_graft. rewrite Hn.
  repeat split; auto.
Qed.

Lemma path_touch_below T rel s t t' :
  fs_lookup T (Some (st_fs s)) = Some t ->
  fs_touch rel (Some t) = Some (Some t') ->
  exists s', path_touch (T ++ rel) s = Ok tt s' /\ changed_below T t' s s'.
Proof.
  intros Hl H. destruct (at_path_below _ _ _ _ _ _ _ Hl H) as (n' & Hn & Ht & Hf).
  exists (set_fs n' s). unfold path_touch, fs_touch. rewrite Hn.
  repeat split; auto.
Qed.

Lemma path_write_bytes_below T rel text s t t' :
  fs_lookup T (Some (st_fs s)) = Some t ->
  fs_write rel text (Some t) = Some (Some t') ->
  exists s', path_write_bytes (T ++ rel) text s = Ok tt s' /\ changed_below T t' s s'.
Proof.
  intros Hl H. destruct (at_path_below _ _ _ _ _ _ _ Hl H) as (n' & Hn & Ht & Hf).
  exists (set_fs n' s). unfold path_write_bytes, fs_write. rewrite Hn.
  repeat split; auto.
Qed.

Lemma path_write_text_below T rel text s t t' :
  utf8_valid text = true ->
  fs_lookup T (Some (st_fs s)) = Some t ->
  fs_write rel text (Some t) = Some (Some t') ->
  exists s', path_write_text (T ++ rel) text s = Ok tt s' /\ changed_below T t' s s'.
Proof.
  intros Hv. unfold path_write_text. rewrite Hv. apply path_write_bytes_below.
Qed.

(** The example text is plain ASCII. *)
Lemma example_main_py_encodes : utf8_valid example_main_py = true.
Proof. vm_compute. reflexivity. Qed.

Lemma assoc_set_fresh {A} k (v : A) l : assoc k l = None -> assoc_set k v l = l ++ [(k, v)].
Proof.
  induction l as [|[k' v'] l IH]; simpl; [reflexivity|].
  destruct (String.eqb k k'); [discriminate|]. intros H. now rewrite IH.
Qed.

Lemma assoc_here {A} k (v : A) l : assoc k ((k, v) :: l) = Some v.
Proof. simpl. now rewrite String.eqb_refl. Qed.

Ltac eqb_closed :=
  repeat match goal with
         | |- context [String.eqb ?a ?b] =>
             let v := eval vm_compute in (String.eqb a b) in
             match v with
             | true => change (String.eqb a b) with true
             | false => change (String.eqb a b) with false
             end
         end.

Ltac tree_step Hne :=
  unfold fs_graft, fs_touch, fs_write;
  repeat (cbn [at_path assoc assoc_upd assoc_set graft_f touch_f write_f];
          rewrite ?String.eqb_refl, ?Hne; eqb_closed);
  reflexivity.

(** What the tree of a new target holds. *)
Lemma scaffold_entries (yaml_dump : yaml -> string) name q :
  name <> "pyproject.toml" ->
  fs_lookup q (Some (scaffold yaml_dump name)) <> None ->
  In q [ []; ["src"]; ["src"; name]; ["src"; name; "main.py"];
         ["src"; name; "__init__.py"]; ["src"; "pyproject.toml"];
         ["tests"]; ["docker-compose.yaml"] ].
Proof.
  intros Hname. unfold scaffold.
  destruct q as [|a q]; [now left|]. cbn [fs_lookup assoc].
  destruct (String.eqb_spec a "src") as [->|_].
  { destruct q as [|b q]; [simpl; tauto|]. cbn [fs_lookup assoc].
    destruct (String.eqb_spec b name) as [->|_].
    - destruct q as [|c q]; [simpl; tauto|]. cbn [fs_lookup assoc].
      destruct (String.eqb_spec c "main.py") as [->|_].
      { destruct q; [simpl; tauto|]. simpl. congruence. }
      destruct (String.eqb_spec c "__init__.py") as [->|_].
      { destruct q; [simpl; tauto|]. simpl. congruence. }
      rewrite fs_lookup_None'. congruence.
    - destruct (String.eqb_spec b "pyproject.toml") as [->|_].
      { destruct q; [simpl; tauto|]. simpl. congruence. }
      rewrite fs_lookup_None'. congruence. }
  destruct (String.eqb_spec a "tests") as [->|_].
  { destruct q; [simpl; tauto|]. simpl. rewrite fs_lookup_None'. congruence. }
  destruct (String.eqb_spec a "docker-compose.yaml") as [->|_].
  { destruct q; [simpl; tauto|]. simpl. congruence. }
  rewrite fs_lookup_None'. congruence.
Qed.

Section ScaffoldFacts.
Variable yaml_load : string -> option yaml.
Variable yaml_dump : yaml -> string.
Variable app_dir : path.
Variable extend_pythonpath : path -> M unit.
Variable super_verify : M bool.

Lemma create_ok name s es :
  name <> "pyproject.toml" ->
  fs_lookup app_dir (Some (st_fs s)) = Some (Dir es) ->
  assoc name es = None ->
  (forall s0, exists s1,
     extend_pythonpath (app_dir ++ [name; "src"]) s0 = Ok tt s1 /\
     fs_lookup (app_dir ++ [name]) (Some (st_fs s1))
       = fs_lookup (app_dir ++ [name]) (Some (st_fs s0))) ->
  exists s',
    create yaml_dump app_dir extend_pythonpath name s = Ok tt s' /\
    fs_lookup (app_dir ++ [name]) (Some (st_fs s'))
      = Some (scaffold yaml_dump name).
Proof.
  intros Hname Hdir Hfresh Hext.
  assert (Hne : String.eqb "pyproject.toml" name = false)
    by (apply String.eqb_neq; congruence).
  unfold create.
  replace (parent ((app_dir ++ [name]) ++ ["src"; name]))
    with ((app_dir ++ [name]) ++ ["src"])
    by (unfold parent; now rewrite removelast_app by discriminate).
  rewrite <- !(app_assoc (app_dir ++ [name])). cbn [app].
  set (T := app_dir ++ [name]).
  (* the target directory *)
  destruct (path_mkdir_new_below app_dir [name] s (Dir es) (Dir (es ++ [(name, Dir [])])) Hdir)
    as (s1 & R1 & C1).
  { unfold fs_graft. cbn [at_path]. rewrite Hfresh. cbn [graft_f assoc_upd].
    now rewrite (assoc_set_fresh _ _ _ Hfresh). }
  fold T in R1. rewrite (bind_step _ _ _ _ _ R1).
  assert (L1 : fs_lookup T (Some (st_fs s1)) = Some (Dir [])).
  { unfold T. rewrite fs_lookup_app. destruct C1 as (-> & _). cbn [fs_lookup].
    rewrite <- (assoc_set_fresh _ (Dir []) _ Hfresh). apply assoc_set_same. }
  (* the source directory, its files, the tests *)
  destruct (path_mkdir_new_below T ["src"; name] s1 _
              (Dir [("src", Dir [(name, Dir [])])]) L1) as (s2 & R2 & (L2 & _));
    [tree_step Hne|]. rewrite (bind_step _ _ _ _ _ R2).
  destruct (path_touch_below T ["src"; "pyproject.toml"] s2 _
              (Dir [("src", Dir [(name, Dir []); ("pyproject.toml", File "")])]) L2)
    as (s3 & R3 & (L3 & _)); [tree_step Hne|]. rewrite (bind_step _ _ _ _ _ R3).
  destruct (path_write_text_below T ["src"; name; "main.py"] example_main_py s3 _
              (Dir [("src", Dir [(name, Dir [("main.py", File example_main_py)]);
                                 ("pyproject.toml", File "")])])
              example_main_py_encodes L3)
    as (s4 & R4 & (L4 & _)); [tree_step Hne|]. rewrite (bind_step _ _ _ _ _ R4).
  destruct (path_touch_below T ["src"; name; "__init__.py"] s4 _
              (Dir [("src", Dir [(name, Dir [("main.py", File example_main_py);
                                             ("__init__.py", File "")]);
                                 ("pyproject.toml", File "")])]) L4)
    as (s5 & R5 & (L5 & _)); [tree_step Hne|]. rewrite (bind_step _ _ _ _ _ R5).
  destruct (path_mkdir_new_below T ["tests"] s5 _
              (Dir [("src", Dir [(name, Dir [("main.py", File example_main_py);
                                             ("__init__.py", File "")]);
                                 ("pyproject.toml", File "")]);
                    ("tests", Dir [])]) L5)
    as (s6 & R6 & (L6 & _)); [tree_step Hne|]. rewrite (bind_step _ _ _ _ _ R6).
  (* the python path and the compose document *)
  destruct (Hext s6) as (s7 & R7 & L7).
  replace (T ++ ["src"]) with (app_dir ++ [name; "src"])
    by (unfold T; now rewrite <- app_assoc).
  rewrite (bind_step _ _ _ _ _ R7). fold T in L7. rewrite L6 in L7.
  destruct (path_write_bytes_below T ["docker-compose.yaml"]
              (yaml_dump (scaffold_compose name)) s7 _
              (scaffold yaml_dump name) L7)
    as (s8 & R8 & (L8 & _)); [tree_step Hne|].
  unfold yaml_dump_file. rewrite (bind_step _ _ _ _ _ R8).
  exists s8. split; [reflexivity|exact L8].
Qed.

(** X15: in an application directory that has no entry of the name of the
    target (one path component), [create] completes (the call that extends
    the python path completing and leaving the new directory alone) and the
    directory of the target then holds [src/<name>/main.py] with the example
    text, an empty [src/<name>/__init__.py], an empty [src/pyproject.toml],
    an empty directory [tests], and [docker-compose.yaml] with the compose
    document of the target, and besides these and the directories on the
    way to them nothing: no [requirements.txt] and no [Dockerfile]. *)
Theorem create_lays_out_target (name : string) (s : state) (es : list (string * node)) :
  component name -> name <> "pyproject.toml" ->
  fs_lookup app_dir (Some (st_fs s)) = Some (Dir es) ->
  assoc name es = None ->
  (forall s0, exists s1,
     extend_pythonpath (app_dir ++ [name; "src"]) s0 = Ok tt s1 /\
     fs_lookup (app_dir ++ [name]) (Some (st_fs s1))
       = fs_lookup (app_dir ++ [name]) (Some (st_fs s0))) ->
  exists s',
    create yaml_dump app_dir extend_pythonpath name s = Ok tt s' /\
    fs_lookup (app_dir ++ [name; "src"; name; "main.py"]) (Some (st_fs s'))
      = Some (File example_main_py) /\
    fs_lookup (app_dir ++ [name; "src"; name; "__init__.py"]) (Some (st_fs s'))
      = Some (File "") /\
    fs_lookup (app_dir ++ [name; "src"; "pyproject.toml"]) (Some (st_fs s'))
      = Some (File "") /\
    fs_lookup (app_dir ++ [name; "tests"]) (Some (st_fs s')) = Some (Dir []) /\
    fs_lookup (app_dir ++ [name; "docker-compose.yaml"]) (Some (st_fs s'))
      = Some (File (yaml_dump (scaffold_compose name))) /\
    (forall q, fs_lookup (app_dir ++ name :: q) (Some (st_fs s')) <> None ->
       In q [ []; ["src"]; ["src"; name]; ["src"; name; "main.py"];
              ["src"; name; "__init__.py"]; ["src"; "pyproject.toml"];
              ["tests"]; ["docker-compose.yaml"] ]) /\
    fs_lookup (app_dir ++ [name; "requirements.txt"]) (Some (st_fs s')) = None /\
    fs_lookup (app_dir ++ [name; "Dockerfile"]) (Some (st_fs s')) = None.
Proof.
  intros _ Hname Hdir Hfresh Hext.
  destruct (create_ok name s es Hname Hdir Hfresh Hext) as (s' & Hrun & Ht).
  assert (Hbelow : forall q, fs_lookup (app_dir ++ name :: q) (Some (st_fs s'))
                             = fs_lookup q (Some (scaffold yaml_dump name))).
  { intros q. change (app_dir ++ name :: q) with (app_dir ++ [name] ++ q).
    now rewrite app_assoc, fs_lookup_app, Ht. }
  assert (Hne : String.eqb "pyproject.toml" name = false)
    by (apply String.eqb_neq; congruence).
  exists s'. split; [exact Hrun|]. rewrite !Hbelow. unfold scaffold.
  repeat (cbn [fs_lookup assoc]; rewrite ?String.eqb_refl, ?Hne; eqb_closed).
  do 5 (split; [reflexivity|]).
  split; [|split; reflexivity].
  intros q Hq. rewrite Hbelow in Hq. now apply (scaffold_entries yaml_dump name q).
Qed.

(** X16: a target is never scaffolded over an entry that is there: when
    the application directory has an entry of the name of the target, a
    directory or a file, [create] raises [FileExistsError] and has changed
    nothing. *)
Theorem create_refuses_existing (name : string) (s : state) (x : node) :
  component name ->
  fs_lookup (app_dir ++ [name]) (Some (st_fs s)) = Some x ->
  create yaml_dump app_dir extend_pythonpath name s
    = Raise (FileExistsError (app_dir ++ [name])) s.
Proof.
  intros _ H. unfold create, mbind, M_bind, bind, path_mkdir_new.
  now rewrite (fs_graft_exists _ _ _ _ H), H.
Qed.

(** X17: the compose document of a new target is one [configure_compose]
    accepts.  After [create], and with a codec that reads the document back,
    the mutation for the target completes for any port mapping, and the
    file then holds the document of the scaffold with the ports in the
    place of the null value, between [build] and [network_mode]. *)
Theorem scaffold_is_configurable (name : string) (ports : list (Z * Z))
    (s : state) (es : list (string * node)) :
  component name -> name <> "pyproject.toml" ->
  fs_lookup app_dir (Some (st_fs s)) = Some (Dir es) ->
  assoc name es = None ->
  (forall s0, exists s1,
     extend_pythonpath (app_dir ++ [name; "src"]) s0 = Ok tt s1 /\
     fs_lookup (app_dir ++ [name]) (Some (st_fs s1))
       = fs_lookup (app_dir ++ [name]) (Some (st_fs s0))) ->
  yaml_load (yaml_dump (scaffold_compose name)) = Some (scaffold_compose name) ->
  exists s' s'',
    create yaml_dump app_dir extend_pythonpath name s = Ok tt s' /\
    configure_compose yaml_load yaml_dump (app_dir ++ [name]) name ports s' = Ok tt s'' /\
    fs_lookup (app_dir ++ [name; "docker-compose.yaml"]) (Some (st_fs s'')) =
      Some (File (yaml_dump
        (YMap [("services",
                YMap [(name,
                       YMap [("build", YMap [("context", YStr "."); ("network", YStr "host")]);
                             ("ports", port_strings ports);
                             ("network_mode", YStr "host")])])]))).
Proof.
  intros _ Hname Hdir Hfresh Hext Hrt.
  destruct (create_ok name s es Hname Hdir Hfresh Hext) as (s' & Hrun & Ht).
  assert (Hf : fs_lookup ((app_dir ++ [name]) ++ ["docker-compose.yaml"]) (Some (st_fs s'))
               = Some (File (yaml_dump (scaffold_compose name))))
    by (rewrite fs_lookup_app, Ht; reflexivity).
  assert (Hs : service_entry (scaffold_compose name) name
               = Some [("build", YMap [("context", YStr "."); ("network", YStr "host")]);
                       ("ports", YNull); ("network_mode", YStr "host")]).
  { unfold service_entry, scaffold_compose. cbn [yaml_at].
    now rewrite !assoc_here. }
  destruct (configure_compose_service yaml_load yaml_dump (app_dir ++ [name]) name ports
              s' _ _ _ Hf Hrt Hs) as (top & svcs & n & Htop & E1 & E2 & Hn & Hr).
  exists s', (set_fs n s'). split; [exact Hrun|]. split; [exact Hr|].
  cbn [st_fs set_fs].
  change (app_dir ++ [name; "docker-compose.yaml"])
    with (app_dir ++ [name] ++ ["docker-compose.yaml"]).
  rewrite app_assoc, (fs_write_is_file _ _ _ _ Hn).
  injection Htop as <-. rewrite assoc_here in E1. injection E1 as <-.
  cbn [assoc_set]. rewrite !String.eqb_refl. eqb_closed. reflexivity.
Qed.

(** X18: a new target does not pass [verify] as it is.  After [create]
    (the check of the base class completing without writing files),
    [verify] returns true, its value for a target that is not in order;
    when the base class has no objection, it is the missing
    [requirements.txt] that is logged. *)
Theorem scaffold_fails_verify (name : string) (self : Webapp)
    (s : state) (es : list (string * node)) :
  component name -> name <> "pyproject.toml" ->
  fs_lookup app_dir (Some (st_fs s)) = Some (Dir es) ->
  assoc name es = None ->
  (forall s0, exists s1,
     extend_pythonpath (app_dir ++ [name; "src"]) s0 = Ok tt s1 /\
     fs_lookup (app_dir ++ [name]) (Some (st_fs s1))
       = fs_lookup (app_dir ++ [name]) (Some (st_fs s0))) ->
  (forall s0, exists failed s1, super_verify s0 = Ok failed s1 /\ st_fs s1 = st_fs s0) ->
  exists s' failed s1 s'',
    create yaml_dump app_dir extend_pythonpath name s = Ok tt s' /\
    super_verify s' = Ok failed s1 /\
    verify super_verify (app_dir ++ [name]) self s' = Ok true s'' /\
    st_fs s'' = st_fs s' /\
    (failed = false -> st_log s'' = st_log s1 ++ ["No Python requirements specified."]).
Proof.
  intros _ Hname Hdir Hfresh Hext Hsuper.
  destruct (create_ok name s es Hname Hdir Hfresh Hext) as (s' & Hrun & Ht).
  destruct (Hsuper s') as (failed & s1 & Hv & Hfs).
  exists s', failed, s1.
  unfold verify. rewrite (bind_step _ _ _ _ _ Hv). destruct failed.
  - exists s1. split; [exact Hrun|]. split; [exact Hv|].
    split; [reflexivity|]. split; [exact Hfs|discriminate].
  - exists (add_log "No Python requirements specified." s1).
    split; [exact Hrun|]. split; [exact Hv|].
    split; [|split; [exact Hfs|reflexivity]].
    unfold mbind, M_bind, bind, path_glob_any. rewrite Hfs, fs_lookup_app, Ht.
    reflexivity.
Qed.

End ScaffoldFacts.

(** ** The probes of [deploy] *)

Lemma issue_returns ses cs s :
  (forall history c, exists b, ses history c = Returned b) ->
  exists s', issue ses cs s = Ok tt s' /\
             st_trace s' = st_trace s ++ cs /\ same_local s s'.
Proof.
  intros Hses. revert s. induction cs as [|c cs IH]; intros s.
  - exists s. split; [reflexivity|]. rewrite app_nil_r. split; [reflexivity|].
    apply same_local_refl.
  - destruct (Hses (st_trace s) c) as (b & Hb).
    destruct (IH (add_call c s)) as (s' & Hrun & Ht & Hl).
    exists s'. split; [|split].
    + unfold issue in *. cbn [for_each].
      unfold mbind, M_bind, bind, session_call in *. cbv beta. rewrite Hb. exact Hrun.
    + rewrite Ht. simpl. now rewrite <- app_assoc.
    + eapply same_local_trans; [apply (same_local_call c)|exact Hl].
Qed.

Lemma ensure_returns ses tool installs s b :
  (forall history c, exists b, ses history c = Returned b) ->
  ses (st_trace s) (Run (probe tool)) = Returned b ->
  exists s', ensure ses tool installs s = Ok tt s' /\
             st_trace s' = st_trace s ++ Run (probe tool) :: (if b then installs else []) /\
             same_local s s'.
Proof.
  intros Hses Hb. unfold ensure, mbind, M_bind, bind, session_run, session_call.
  rewrite Hb. destruct b.
  - destruct (issue_returns ses installs (add_call (Run (probe tool)) s) Hses)
      as (s' & Hrun & Ht & Hl).
    exists s'. split; [exact Hrun|]. split.
    + rewrite Ht. simpl. now rewrite <- app_assoc.
    + eapply same_local_trans; [apply (same_local_call (Run (probe tool)))|exact Hl].
  - exists (add_call (Run (probe tool)) s). split; [reflexivity|].
    split; [reflexivity|apply same_local_call].
Qed.

Section DeployMore.
Variable install_docker : list string.
Variable docker_compose_build : path -> list string.
Variable apt_get_install : list string -> list string.

(** X19: [deploy] decides each install by the truth value its probe
    returned, and by nothing else.  On a session that raises nothing it
    completes, and the calls it has made are: the probe for docker, the
    install of docker exactly when that probe returned a true value; the
    probe for python, the install of [python-is-python3] exactly when that
    probe returned a true value; the probe for nginx, the install of nginx
    and the removal of its two default sites exactly when that probe
    returned a true value; then the five calls of the roll-out.  The local
    files, the environment and the log are untouched. *)
Theorem installs_follow_probe_values (ses : session) (self : Webapp) (s : state)
    (b1 b2 b3 : bool) :
  let docker := if b1 then [Run install_docker] else [] in
  let python := if b2 then [Run (apt_get_install ["python-is-python3"])] else [] in
  let nginx := if b3 then [Run (apt_get_install ["nginx"]);
                           Run ["rm"; "/etc/nginx/sites-available/default"];
                           Run ["rm"; "/etc/nginx/sites-enabled/default"]]
               else [] in
  (forall history c, exists b, ses history c = Returned b) ->
  ses (st_trace s) (Run (probe "docker")) = Returned b1 ->
  ses (st_trace s ++ Run (probe "docker") :: docker) (Run (probe "python"))
    = Returned b2 ->
  ses (st_trace s ++ Run (probe "docker") :: docker ++ Run (probe "python") :: python)
      (Run (probe "nginx")) = Returned b3 ->
  exists s',
    deploy install_docker docker_compose_build apt_get_install ses self s = Ok tt s' /\
    st_trace s' =
      st_trace s ++ Run (probe "docker") :: docker ++ Run (probe "python") :: python ++
      Run (probe "nginx") :: nginx ++
      rollout docker_compose_build apt_get_install self /\
    same_local s s'.
Proof.
  intros docker python nginx Hses H1 H2 H3.
  rewrite deploy_shape.
  destruct (ensure_returns ses "docker" [Run install_docker] s b1 Hses H1)
    as (s1 & R1 & T1 & L1).
  fold docker in T1. rewrite <- T1 in H2.
  destruct (ensure_returns ses "python" [Run (apt_get_install ["python-is-python3"])]
              s1 b2 Hses H2) as (s2 & R2 & T2 & L2).
  fold python in T2.
  assert (T2' : st_trace s2 = st_trace s ++ Run (probe "docker") :: docker ++
                              Run (probe "python") :: python).
  { rewrite T2, T1, <- app_assoc. reflexivity. }
  rewrite <- T2' in H3.
  destruct (ensure_returns ses "nginx"
              [Run (apt_get_install ["nginx"]);
               Run ["rm"; "/etc/nginx/sites-available/default"];
               Run ["rm"; "/etc/nginx/sites-enabled/default"]]
              s2 b3 Hses H3) as (s3 & R3 & T3 & L3).
  fold nginx in T3.
  destruct (issue_returns ses (rollout docker_compose_build apt_get_install self) s3 Hses)
    as (s4 & R4 & T4 & L4).
  exists s4. split; [|split].
  - rewrite (bind_step _ _ _ _ _ R1), (bind_step _ _ _ _ _ R2), (bind_step _ _ _ _ _ R3).
    exact R4.
  - rewrite T4, T3, T2'. rewrite <- !app_assoc. simpl. rewrite <- !app_assoc. reflexivity.
  - eapply same_local_trans; [exact L1|].
    eapply same_local_trans; [exact L2|].
    eapply same_local_trans; [exact L3|exact L4].
Qed.

End DeployMore.

(** ** Text that cannot be decoded or encoded *)

(** Nothing is in the way of a destination that is not there. *)
Lemma fresh_no_clash (T D : path) (n : node) :
  fs_lookup D (Some n) = None ->
  (forall q, q <> [] ->
     is_file (fs_lookup (D ++ q) (Some n)) = true ->
     is_dir (fs_lookup (T ++ q) (Some n)) = false) /\
  (forall q, q <> [] ->
     is_dir (fs_lookup (D ++ q) (Some n)) = true ->
     is_file (fs_lookup (T ++ q) (Some n)) = false).
Proof.
  intros H. split; intros q _; rewrite fs_lookup_app, H, fs_lookup_None'; discriminate.
Qed.

(** X20: a template file that is not UTF-8 stops the renderer: the run over
    its template set fails, and what is at the destination path of the file
    is what was there before the run.  When nothing is in the way and every
    file listed before it can be rendered, the exception is
    [UnicodeDecodeError], and nothing was written for it. *)
Theorem render_needs_utf8 (T D rel : path) (text : string) (s : state) :
  apart T D ->
  rel <> [] ->
  fs_lookup (T ++ rel) (Some (st_fs s)) = Some (File text) ->
  utf8_valid text = false ->
  (exists e s',
     copy_files_with_substitution T D s = Raise e s' /\
     fs_lookup (D ++ rel) (Some (st_fs s')) = fs_lookup (D ++ rel) (Some (st_fs s))) /\
  ((forall P, P `prefix_of` D -> is_file (fs_lookup P (Some (st_fs s))) = false) ->
   (forall q, q <> [] ->
      is_file (fs_lookup (D ++ q) (Some (st_fs s))) = true ->
      is_dir (fs_lookup (T ++ q) (Some (st_fs s))) = false) ->
   (forall q, q <> [] ->
      is_dir (fs_lookup (D ++ q) (Some (st_fs s))) = true ->
      is_file (fs_lookup (T ++ q) (Some (st_fs s))) = false) ->
   (forall r, In r (rglob_at T (st_fs s)) ->
      fs_lookup (T ++ r) (Some (st_fs s)) <> None) ->
   forall pre post,
     rglob_at T (st_fs s) = pre ++ rel :: post ->
     (forall r t, In r pre ->
        fs_lookup (T ++ r) (Some (st_fs s)) = Some (File t) ->
        utf8_valid t = true /\
        exists out, substitute (universal_newlines t) (st_env s) = inr out /\
                    utf8_valid out = true) ->
     exists s', copy_files_with_substitution T D s = Raise UnicodeDecodeError s').
Proof.
  intros HTD Hne Ht Hv.
  assert (Hr : rendering text (st_env s) = inl UnicodeDecodeError)
    by (unfold rendering, read_as_text; now rewrite Hv).
  split.
  - destruct (copy_files_with_substitution T D s) as [[] s'|e s'] eqn:Hrun.
    { apply (copy_files_ok T D HTD) in Hrun as (_ & _ & _ & Hc).
      destruct (cp_rendered _ _ _ _ _ Hc rel text Hne Ht) as (out & Ho & _). congruence. }
    exists e, s'. split; [reflexivity|].
    apply (copy_files_raise T D HTD) in Hrun
      as [[_ ->]|(s1 & s2 & pre & x & post & Hmk & _ & Hpre & Hx & _)]; [reflexivity|].
    apply (for_each_rendered T D HTD) in Hpre as (He & _ & _ & Hrd).
    assert (Htpl : forall q, fs_lookup (T ++ q) (Some (st_fs s1)) =
                             fs_lookup (T ++ q) (Some (st_fs s)))
      by (intros q; apply (mkdir_dest_templates T D HTD _ _ q Hmk)).
    assert (Henv : st_env s1 = st_env s).
    { apply path_mkdir_ok in Hmk as (n & -> & _). reflexivity. }
    assert (Hs2 : fs_lookup (D ++ rel) (Some (st_fs s2)) =
                  fs_lookup (D ++ rel) (Some (st_fs s))).
    { rewrite <- (mkdir_dest_below D _ _ rel Hne Hmk).
      apply (rendered_skips T D _ _ _ _ rel text Hrd).
      - now rewrite Htpl.
      - rewrite Henv. congruence. }
    destruct (copy_entry_raise _ _ _ _ _ _ Hx)
      as [[_ ->]|(_ & content & out & n & Hl & Hvc & _ & _ & -> & Hn)]; [exact Hs2|].
    rewrite <- Hs2. cbn [st_fs set_fs]. eapply fs_write_elsewhere; eauto.
    intros Hp. apply prefix_app_inv in Hp.
    rewrite (rd_templates _ _ _ _ _ _ Hrd), Htpl in Hl.
    destruct (prefix_cases _ _ Hp) as [->|(r & -> & Hr0)].
    + rewrite Ht in Hl. injection Hl as <-. congruence.
    + rewrite app_assoc in Hl. apply lookup_below_dir in Hl; [|assumption].
      rewrite Ht in Hl. discriminate.
  - intros Hway Hfiles Hdirs Hlist pre post Hsplit Hpre.
    apply (run_stops T D HTD s Hway Hfiles Hdirs Hlist pre rel post text _ Hsplit);
      [|exact Ht|exact Hr].
    intros r t Hin Hl. destruct (Hpre r t Hin Hl) as (Hvt & out & Hs & Hvo).
    exists out. apply rendering_ok. auto.
Qed.

(** X21: a template file whose substituted text cannot be encoded is not
    skipped: its destination is opened, which creates or empties it, before
    the encoding fails.  When nothing is in the way and every file listed
    before it can be rendered, the run fails with [UnicodeEncodeError] and
    leaves an empty file at the destination of the template, whatever was
    there before. *)
Theorem render_bad_text_leaves_empty_file (T D rel : path) (text out : string)
    (pre post : list path) (s : state) :
  apart T D ->
  (forall P, P `prefix_of` D -> is_file (fs_lookup P (Some (st_fs s))) = false) ->
  (forall q, q <> [] ->
     is_file (fs_lookup (D ++ q) (Some (st_fs s))) = true ->
     is_dir (fs_lookup (T ++ q) (Some (st_fs s))) = false) ->
  (forall q, q <> [] ->
     is_dir (fs_lookup (D ++ q) (Some (st_fs s))) = true ->
     is_file (fs_lookup (T ++ q) (Some (st_fs s))) = false) ->
  (forall r, In r (rglob_at T (st_fs s)) ->
     fs_lookup (T ++ r) (Some (st_fs s)) <> None) ->
  rglob_at T (st_fs s) = pre ++ rel :: post ->
  (forall r t, In r pre ->
     fs_lookup (T ++ r) (Some (st_fs s)) = Some (File t) ->
     utf8_valid t = true /\
     exists o, substitute (universal_newlines t) (st_env s) = inr o /\
               utf8_valid o = true) ->
  fs_lookup (T ++ rel) (Some (st_fs s)) = Some (File text) ->
  utf8_valid text = true ->
  substitute (universal_newlines text) (st_env s) = inr out ->
  utf8_valid out = false ->
  exists s',
    copy_files_with_substitution T D s = Raise UnicodeEncodeError s' /\
    fs_lookup (D ++ rel) (Some (st_fs s')) = Some (File "").
Proof.
  intros HTD Hway Hfiles Hdirs Hlist Hsplit Hpre Ht Hv Hs Hvo.
  assert (Hr : rendering text (st_env s) = inl UnicodeEncodeError)
    by (unfold rendering, read_as_text; now rewrite Hv, Hs, Hvo).
  destruct (run_reaches T D HTD s Hway Hfiles Hdirs Hlist pre (rel :: post) Hsplit)
    as (s1 & s2 & Hmk & Hrun & U & Hp).
  { intros r t Hin Hl. destruct (Hpre r t Hin Hl) as (Hvt & o & Ho & Hvo').
    exists o. apply rendering_ok. auto. }
  destruct Hp as [Hp _].
  assert (Hne : rel <> []).
  { apply (rglob_at_nonempty T s). rewrite Hsplit. apply in_or_app. right. now left. }
  destruct (copy_entry_truncates T D (st_fs s) (st_env s) _ _ _ _ U Hne Ht Hr Hp)
    as (n & Hturn & Hn).
  exists (set_fs n s2). split.
  - unfold copy_files_with_substitution. rewrite (bind_step _ _ _ _ _ Hmk).
    unfold mbind, M_bind, bind, path_rglob.
    rewrite (mkdir_dest_rglob T D HTD _ _ Hmk), Hsplit.
    eapply for_each_stops; eauto.
  - cbn [st_fs set_fs]. eapply fs_write_is_file; eauto.
Qed.

(** * The further properties on the targets *)

Lemma render_mirrors_witness :
  is_dir (fs_lookup ["out"] (Some (st_fs Demo.first_run))) = true /\
  exists out,
    utf8_valid Demo.site_conf = true /\
    substitute (universal_newlines Demo.site_conf) (st_env Demo.proxied) = inr out /\
    utf8_valid out = true /\
    fs_lookup (["out"] ++ ["conf.d"; "site.conf"]) (Some (st_fs Demo.first_run))
      = Some (File out).
Proof.
  assert (A : apart ["pkg"; "nginx_config"] ["out"]) by apart_paths.
  assert (H : copy_files_with_substitution ["pkg"; "nginx_config"] ["out"] Demo.proxied
              = Ok tt Demo.first_run) by (vm_compute; reflexivity).
  assert (Hf : fs_lookup (["pkg"; "nginx_config"] ++ ["conf.d"; "site.conf"])
                 (Some (st_fs Demo.proxied)) = Some (File Demo.site_conf))
    by (vm_compute; reflexivity).
  destruct (render_mirrors _ _ _ _ A H) as (Hd & Hr & _).
  split; [exact Hd|].
  apply (Hr ["conf.d"; "site.conf"] Demo.site_conf); [discriminate|exact Hf].
Defined.

Lemma render_keeps_other_files_witness :
  fs_lookup ["repo"; "build"; "shop"; "notes.txt"] (Some (st_fs Demo.first_run))
    = Some (File "keep").
Proof.
  assert (A : apart ["pkg"; "nginx_config"] ["out"]) by apart_paths.
  assert (H : copy_files_with_substitution ["pkg"; "nginx_config"] ["out"] Demo.proxied
              = Ok tt Demo.first_run) by (vm_compute; reflexivity).
  assert (Hf : fs_lookup ["repo"; "build"; "shop"; "notes.txt"] (Some (st_fs Demo.proxied))
               = Some (File "keep")) by (vm_compute; reflexivity).
  destruct (render_keeps_other_files _ _ _ _ A H) as (Hk & _).
  apply Hk; [exact Hf|]. intros rel _. discriminate.
Defined.

Lemma render_again_changes_nothing_witness :
  copy_files_with_substitution ["pkg"; "nginx_config"] ["out"] Demo.first_run
    = Ok tt Demo.first_run.
Proof.
  assert (A : apart ["pkg"; "nginx_config"] ["out"]) by apart_paths.
  assert (H : copy_files_with_substitution ["pkg"; "nginx_config"] ["out"] Demo.proxied
              = Ok tt Demo.first_run) by (vm_compute; reflexivity).
  exact (render_again_changes_nothing _ _ _ _ A H).
Defined.

Lemma render_without_templates_witness :
  copy_files_with_substitution ["pkg"; "missing"] ["out"] Demo.start
    = path_mkdir ["out"] Demo.start.
Proof.
  assert (H : rglob_at ["pkg"; "missing"] (st_fs Demo.start) = [])
    by (vm_compute; reflexivity).
  apply (render_without_templates _ _ _ H).
  intros [r Hr]. simpl in Hr. discriminate Hr.
Defined.

Lemma render_copies_plain_text_witness :
  fs_lookup (["out"] ++ ["robots.txt"])
    (Some (st_fs (state_of (copy_files_with_substitution ["tpl"] ["out"] Sample.static))))
    = Some (File ("User-agent: *" +:+ String "010" ("Disallow: /private" +:+
                  String "010" EmptyString))).
Proof.
  assert (A : apart ["tpl"] ["out"]) by apart_paths.
  assert (H : copy_files_with_substitution ["tpl"] ["out"] Sample.static
              = Ok tt (state_of (copy_files_with_substitution ["tpl"] ["out"] Sample.static)))
    by (vm_compute; reflexivity).
  assert (Hf : fs_lookup (["tpl"] ++ ["robots.txt"]) (Some (st_fs Sample.static))
               = Some (File Sample.robots_txt)) by (vm_compute; reflexivity).
  assert (Hp : occurs "$" Sample.robots_txt = false) by (vm_compute; reflexivity).
  assert (Hrel : ["robots.txt"] <> []) by discriminate.
  assert (Hnl : universal_newlines Sample.robots_txt
                = "User-agent: *" +:+ String "010" ("Disallow: /private" +:+
                  String "010" EmptyString)) by (vm_compute; reflexivity).
  destruct (render_copies_plain_text _ _ ["robots.txt"] _ _ _ A H Hrel Hf Hp) as (_ & Ho & _).
  rewrite Hnl in Ho. exact Ho.
Defined.

Lemma site_conf_placeholders k :
  references Demo.site_conf k -> k = "DOMAIN_NAME" \/ k = "APPLICATION_PORT".
Proof.
  assert (Ht : tokenize Demo.site_conf =
               lits "server_name " ++ [Placeholder "DOMAIN_NAME"] ++
               lits "; proxy_pass http://127.0.0.1:" ++ [Placeholder "APPLICATION_PORT"] ++
               lits ";") by (vm_compute; reflexivity).
  unfold references. rewrite Ht. clear Ht. intros Hk.
  rewrite !in_app_iff in Hk. unfold lits in Hk. rewrite !in_map_iff in Hk.
  destruct Hk as [(c & Hc & _)|[[Hk|[]]|[(c & Hc & _)|[[Hk|[]]|(c & Hc & _)]]]];
    try discriminate; injection Hk as <-; auto.
Qed.

Lemma render_reads_placeholders_only_witness :
  st_env Demo.proxied <> st_env Sample.proxied_at_home /\
  forall rel,
    fs_lookup (["out"] ++ rel)
      (Some (st_fs (state_of (copy_files_with_substitution
                                ["pkg"; "nginx_config"; "conf.d"] ["out"]
                                Demo.proxied)))) =
    fs_lookup (["tmp"] ++ rel)
      (Some (st_fs (state_of (copy_files_with_substitution
                                ["pkg"; "nginx_config"; "conf.d"] ["tmp"]
                                Sample.proxied_at_home)))).
Proof.
  assert (A1 : apart ["pkg"; "nginx_config"; "conf.d"] ["out"]) by apart_paths.
  assert (A2 : apart ["pkg"; "nginx_config"; "conf.d"] ["tmp"]) by apart_paths.
  assert (HT : fs_lookup ["pkg"; "nginx_config"; "conf.d"] (Some (st_fs Demo.proxied))
               = fs_lookup ["pkg"; "nginx_config"; "conf.d"]
                   (Some (st_fs Sample.proxied_at_home))) by (vm_compute; reflexivity).
  assert (F1 : fs_lookup ["out"] (Some (st_fs Demo.proxied)) = None) by (vm_compute; reflexivity).
  assert (F2 : fs_lookup ["tmp"] (Some (st_fs Sample.proxied_at_home)) = None)
    by (vm_compute; reflexivity).
  assert (R1 : copy_files_with_substitution ["pkg"; "nginx_config"; "conf.d"] ["out"]
                 Demo.proxied
               = Ok tt (state_of (copy_files_with_substitution
                                    ["pkg"; "nginx_config"; "conf.d"] ["out"] Demo.proxied)))
    by (vm_compute; reflexivity).
  assert (R2 : copy_files_with_substitution ["pkg"; "nginx_config"; "conf.d"] ["tmp"]
                 Sample.proxied_at_home
               = Ok tt (state_of (copy_files_with_substitution
                                    ["pkg"; "nginx_config"; "conf.d"] ["tmp"]
                                    Sample.proxied_at_home)))
    by (vm_compute; reflexivity).
  assert (Henv : forall rel text k,
             fs_lookup (["pkg"; "nginx_config"; "conf.d"] ++ rel) (Some (st_fs Demo.proxied))
               = Some (File text) ->
             references text k ->
             st_env Demo.proxied !! k = st_env Sample.proxied_at_home !! k).
  { intros rel text k Hl Hk.
    change (fs_lookup rel (Some (Dir [("site.conf", File Demo.site_conf)]))
            = Some (File text)) in Hl.
    destruct rel as [|a rel]; [discriminate|]. cbn [fs_lookup assoc] in Hl.
    destruct (String.eqb a "site.conf"); [|now rewrite fs_lookup_None' in Hl].
    destruct rel; [|discriminate]. injection Hl as <-.
    destruct (site_conf_placeholders k Hk) as [Hc|Hc].
    all: rewrite Hc; vm_compute; reflexivity. }
  split.
  - assert (H1 : st_env Demo.proxied !! "HOME" = None) by (vm_compute; reflexivity).
    assert (H2 : st_env Sample.proxied_at_home !! "HOME" = Some "/root")
      by (vm_compute; reflexivity).
    intros E. rewrite E, H2 in H1. discriminate H1.
  - exact (render_reads_placeholders_only _ _ _ _ _ _ _ A1 A2 HT Henv F1 F2 R1 R2).
Defined.

Lemma compose_last_mapping_wins_witness :
  configure_compose Sample.yaml_load Demo.yaml_show ["art"] "shop" [(9090, 90)]%Z
    Sample.configured
  = configure_compose Sample.yaml_load Demo.yaml_show ["art"] "shop" [(9090, 90)]%Z
      Demo.artifact /\
  configure_compose Sample.yaml_load Demo.yaml_show ["art"] "shop" [(8080, 80)]%Z
    Sample.configured
  = Ok tt Sample.configured.
Proof.
  assert (Hf : fs_lookup (["art"] ++ ["docker-compose.yaml"]) (Some (st_fs Demo.artifact))
               = Some (File (Demo.yaml_show Demo.compose))) by (vm_compute; reflexivity).
  assert (Hl : Sample.yaml_load (Demo.yaml_show Demo.compose) = Some Demo.compose)
    by (vm_compute; reflexivity).
  assert (Hrt : Sample.yaml_load
                  (Demo.yaml_show (with_ports "shop" [(8080, 80)]%Z Demo.compose))
                = Some (with_ports "shop" [(8080, 80)]%Z Demo.compose))
    by (vm_compute; reflexivity).
  assert (Hrun : configure_compose Sample.yaml_load Demo.yaml_show ["art"] "shop"
                   [(8080, 80)]%Z Demo.artifact = Ok tt Sample.configured)
    by (vm_compute; reflexivity).
  exact (compose_last_mapping_wins Sample.yaml_load Demo.yaml_show ["art"] "shop"
           [(8080, 80)]%Z [(9090, 90)]%Z Demo.artifact Sample.configured
           _ _ Hf Hl Hrt Hrun).
Defined.

Lemma clean_build_removes_before_it_checks_witness :
  exists e s',
    (e = FileNotFoundError ["repo"; "targets"; "gone"; "src"] \/
     e = NotADirectoryError ["repo"; "targets"; "gone"; "src"]) /\
    build Demo.yaml_load Demo.yaml_show Demo.module_dir Sample.orphan false Demo.start
      = Raise e Demo.start /\
    build Demo.yaml_load Demo.yaml_show Demo.module_dir Sample.orphan true Demo.start
      = Raise e s' /\
    fs_lookup ["repo"; "build"; "shop"] (Some (st_fs s')) = None.
Proof.
  assert (A : apart (target_build_dir Sample.orphan)
                    (parent (target_src_dir Sample.orphan))) by apart_paths.
  assert (HB : is_dir (fs_lookup (target_build_dir Sample.orphan)
                         (Some (st_fs Demo.start))) = true) by (vm_compute; reflexivity).
  assert (HS : is_dir (fs_lookup (parent (target_src_dir Sample.orphan))
                         (Some (st_fs Demo.start))) = false) by (vm_compute; reflexivity).
  assert (Hne : target_build_dir Sample.orphan <> []) by discriminate.
  destruct (clean_build_removes_before_it_checks Demo.yaml_load Demo.yaml_show
              Demo.module_dir Sample.orphan Demo.start A Hne HB HS)
    as (e & s' & He & H1 & H2 & H3 & _).
  exists e, s'. auto.
Defined.

Ltac a_component := repeat split; try discriminate; reflexivity.

Lemma sample_extend_pythonpath name :
  forall s0, exists s1,
    Sample.extend_pythonpath (Sample.app_dir ++ [name; "src"]) s0 = Ok tt s1 /\
    fs_lookup (Sample.app_dir ++ [name]) (Some (st_fs s1))
      = fs_lookup (Sample.app_dir ++ [name]) (Some (st_fs s0)).
Proof. intros s0. eexists. split; reflexivity. Defined.

Lemma create_lays_out_target_witness :
  exists s',
    create Demo.yaml_show Sample.app_dir Sample.extend_pythonpath
      "blog" Demo.start = Ok tt s' /\
    fs_lookup (Sample.app_dir ++ ["blog"; "src"; "blog"; "main.py"]) (Some (st_fs s'))
      = Some (File example_main_py) /\
    fs_lookup (Sample.app_dir ++ ["blog"; "src"; "blog"; "__init__.py"]) (Some (st_fs s'))
      = Some (File "") /\
    fs_lookup (Sample.app_dir ++ ["blog"; "src"; "pyproject.toml"]) (Some (st_fs s'))
      = Some (File "") /\
    fs_lookup (Sample.app_dir ++ ["blog"; "tests"]) (Some (st_fs s')) = Some (Dir []) /\
    fs_lookup (Sample.app_dir ++ ["blog"; "docker-compose.yaml"]) (Some (st_fs s'))
      = Some (File "{services: {blog: {build: {context: ., network: host}, ports: null, network_mode: host}}}") /\
    (forall q, fs_lookup (Sample.app_dir ++ "blog" :: q) (Some (st_fs s')) <> None ->
       In q [ []; ["src"]; ["src"; "blog"]; ["src"; "blog"; "main.py"];
              ["src"; "blog"; "__init__.py"]; ["src"; "pyproject.toml"];
              ["tests"]; ["docker-compose.yaml"] ]).
Proof.
  assert (Hc : component "blog") by a_component.
  assert (Hn : "blog" <> "pyproject.toml") by discriminate.
  assert (Hd : fs_lookup Sample.app_dir (Some (st_fs Demo.start))
               = Some (Dir [("shop", Dir [("src", Dir Demo.sources)])])) by (vm_compute; reflexivity).
  assert (Hf : assoc "blog" [("shop", Dir [("src", Dir Demo.sources)])] = None)
    by (vm_compute; reflexivity).
  assert (Hy : Demo.yaml_show (scaffold_compose "blog")
               = "{services: {blog: {build: {context: ., network: host}, ports: null, network_mode: host}}}")
    by (vm_compute; reflexivity).
  destruct (create_lays_out_target Demo.yaml_show Sample.app_dir
              Sample.extend_pythonpath "blog" Demo.start _ Hc Hn Hd Hf
              (sample_extend_pythonpath "blog"))
    as (s' & Hrun & H1 & H2 & H3 & H4 & H5 & H6 & _).
  rewrite Hy in H5.
  exists s'. split; [exact Hrun|]. split; [exact H1|]. split; [exact H2|].
  split; [exact H3|]. split; [exact H4|]. split; [exact H5|exact H6].
Defined.

Lemma create_refuses_existing_witness :
  create Demo.yaml_show Sample.app_dir Sample.extend_pythonpath
    "shop" Demo.start
  = Raise (FileExistsError ["repo"; "targets"; "shop"]) Demo.start.
Proof.
  assert (Hc : component "shop") by a_component.
  assert (Hx : fs_lookup (Sample.app_dir ++ ["shop"]) (Some (st_fs Demo.start))
               = Some (Dir [("src", Dir Demo.sources)])) by (vm_compute; reflexivity).
  exact (create_refuses_existing Demo.yaml_show Sample.app_dir
           Sample.extend_pythonpath "shop" Demo.start _ Hc Hx).
Defined.

Lemma scaffold_is_configurable_witness :
  exists s' s'',
    create Demo.yaml_show Sample.app_dir Sample.extend_pythonpath
      "blog" Demo.start = Ok tt s' /\
    configure_compose Sample.yaml_load_blog Demo.yaml_show ["repo"; "targets"; "blog"]
      "blog" [(8081, 80)]%Z s' = Ok tt s'' /\
    fs_lookup ["repo"; "targets"; "blog"; "docker-compose.yaml"] (Some (st_fs s'')) =
      Some (File "{services: {blog: {build: {context: ., network: host}, ports: [8081:80], network_mode: host}}}").
Proof.
  assert (Hc : component "blog") by a_component.
  assert (Hn : "blog" <> "pyproject.toml") by discriminate.
  assert (Hd : fs_lookup Sample.app_dir (Some (st_fs Demo.start))
               = Some (Dir [("shop", Dir [("src", Dir Demo.sources)])])) by (vm_compute; reflexivity).
  assert (Hf : assoc "blog" [("shop", Dir [("src", Dir Demo.sources)])] = None)
    by (vm_compute; reflexivity).
  assert (Hrt : Sample.yaml_load_blog (Demo.yaml_show (scaffold_compose "blog"))
                = Some (scaffold_compose "blog")) by (vm_compute; reflexivity).
  destruct (scaffold_is_configurable Sample.yaml_load_blog Demo.yaml_show Sample.app_dir
              Sample.extend_pythonpath "blog" [(8081, 80)]%Z
              Demo.start _ Hc Hn Hd Hf (sample_extend_pythonpath "blog") Hrt)
    as (s' & s'' & H1 & H2 & H3).
  exists s', s''. split; [exact H1|]. split; [exact H2|exact H3].
Defined.

Lemma scaffold_fails_verify_witness :
  exists s' s'',
    create Demo.yaml_show Sample.app_dir Sample.extend_pythonpath
      "blog" Demo.start = Ok tt s' /\
    verify Sample.super_verify ["repo"; "targets"; "blog"] Sample.blog s' = Ok true s'' /\
    st_log s'' = st_log s' ++ ["No Python requirements specified."].
Proof.
  assert (Hc : component "blog") by a_component.
  assert (Hn : "blog" <> "pyproject.toml") by discriminate.
  assert (Hd : fs_lookup Sample.app_dir (Some (st_fs Demo.start))
               = Some (Dir [("shop", Dir [("src", Dir Demo.sources)])])) by (vm_compute; reflexivity).
  assert (Hf : assoc "blog" [("shop", Dir [("src", Dir Demo.sources)])] = None)
    by (vm_compute; reflexivity).
  assert (Hs : forall s0, exists failed s1,
               Sample.super_verify s0 = Ok failed s1 /\ st_fs s1 = st_fs s0)
    by (intros s0; exists false, s0; split; reflexivity).
  destruct (scaffold_fails_verify Demo.yaml_show Sample.app_dir
              Sample.extend_pythonpath Sample.super_verify "blog" Sample.blog
              Demo.start _ Hc Hn Hd Hf (sample_extend_pythonpath "blog") Hs)
    as (s' & failed & s1 & s'' & H1 & H2 & H3 & _ & H5).
  injection H2 as <- <-.
  exists s', s''. split; [exact H1|]. split; [exact H3|exact (H5 eq_refl)].
Defined.

Lemma render_completes_witness :
  exists s',
    copy_files_with_substitution ["pkg"; "nginx_config"; "conf.d"] ["out"] Demo.proxied
      = Ok tt s'.
Proof.
  assert (A : apart ["pkg"; "nginx_config"; "conf.d"] ["out"]) by apart_paths.
  assert (F : forall q, fs_lookup (["out"] ++ q) (Some (st_fs Demo.proxied)) = None).
  { intros q. rewrite fs_lookup_app.
    assert (E : fs_lookup ["out"] (Some (st_fs Demo.proxied)) = None)
      by (vm_compute; reflexivity).
    rewrite E. apply fs_lookup_None'. }
  assert (W : forall P, P `prefix_of` ["out"] ->
                is_file (fs_lookup P (Some (st_fs Demo.proxied))) = false).
  { intros P [r Hr]. destruct P as [|x [|y P]]; [reflexivity| |discriminate Hr].
    injection Hr as <- _. vm_compute. reflexivity. }
  assert (L : forall rel,
             In rel (rglob_at ["pkg"; "nginx_config"; "conf.d"] (st_fs Demo.proxied)) ->
             fs_lookup (["pkg"; "nginx_config"; "conf.d"] ++ rel)
               (Some (st_fs Demo.proxied)) <> None).
  { assert (E : rglob_at ["pkg"; "nginx_config"; "conf.d"] (st_fs Demo.proxied)
                = [["site.conf"]]) by (vm_compute; reflexivity).
    rewrite E. intros rel [<-|[]]. vm_compute. discriminate. }
  assert (Hv : utf8_valid Demo.site_conf = true) by (vm_compute; reflexivity).
  assert (Hs : substitute (universal_newlines Demo.site_conf) (st_env Demo.proxied)
               = inr "server_name shop.example.org; proxy_pass http://127.0.0.1:8000;")
    by (vm_compute; reflexivity).
  assert (Hvo : utf8_valid "server_name shop.example.org; proxy_pass http://127.0.0.1:8000;"
                = true) by (vm_compute; reflexivity).
  assert (S : forall rel text,
             rel <> [] ->
             fs_lookup (["pkg"; "nginx_config"; "conf.d"] ++ rel)
               (Some (st_fs Demo.proxied)) = Some (File text) ->
             utf8_valid text = true /\
             ~ ill_formed text /\
             (forall k, references text k -> st_env Demo.proxied !! k <> None) /\
             (forall out, substitute (universal_newlines text) (st_env Demo.proxied)
                          = inr out -> utf8_valid out = true)).
  { intros rel text _ Hl.
    change (fs_lookup rel (Some (Dir [("site.conf", File Demo.site_conf)]))
            = Some (File text)) in Hl.
    destruct rel as [|a rel]; [discriminate|]. cbn [fs_lookup assoc] in Hl.
    destruct (String.eqb a "site.conf"); [|now rewrite fs_lookup_None' in Hl].
    destruct rel; [|discriminate]. injection Hl as <-.
    split; [exact Hv|].
    destruct (proj1 (substitute_ok_iff _ _) (ex_intro _ _ Hs)) as [Hi Hk].
    split; [now rewrite <- ill_formed_newlines|].
    split; [intros k Hr; now apply Hk, references_newlines|].
    intros out Ho. rewrite Hs in Ho. injection Ho as <-. exact Hvo. }
  destruct (render_completes ["pkg"; "nginx_config"; "conf.d"] ["out"] Demo.proxied A W)
    as [_ H].
  - intros q _ Hq. rewrite F in Hq. discriminate Hq.
  - intros q _ Hq. rewrite F in Hq. discriminate Hq.
  - exact L.
  - exact (H S).
Defined.

Lemma render_fresh_same_shape_witness :
  is_file (fs_lookup (["out"] ++ ["conf.d"; "site.conf"]) (Some (st_fs Demo.first_run)))
    = is_file (fs_lookup (["pkg"; "nginx_config"] ++ ["conf.d"; "site.conf"])
                 (Some (st_fs Demo.proxied))) /\
  is_dir (fs_lookup (["out"] ++ ["conf.d"; "site.conf"]) (Some (st_fs Demo.first_run)))
    = is_dir (fs_lookup (["pkg"; "nginx_config"] ++ ["conf.d"; "site.conf"])
                (Some (st_fs Demo.proxied))).
Proof.
  assert (A : apart ["pkg"; "nginx_config"] ["out"]) by apart_paths.
  assert (F : fs_lookup ["out"] (Some (st_fs Demo.proxied)) = None)
    by (vm_compute; reflexivity).
  assert (H : copy_files_with_substitution ["pkg"; "nginx_config"] ["out"] Demo.proxied
              = Ok tt Demo.first_run) by (vm_compute; reflexivity).
  apply (render_fresh_same_shape _ _ _ _ A F H). discriminate.
Defined.

Lemma debug_serves_main_module_witness :
  st_log (state_of (debug Sample.subprocess_run ["repo"; "targets"; "blog"] Sample.blog
                      Demo.start)) =
  ["pip install -r /repo/targets/blog/requirements.txt";
   "fastapi dev /repo/targets/blog/src/blog/main.py";
   "uvicorn blog.main:app --reload --reload-dir /repo/targets/blog/src/blog --port 8001"].
Proof.
  assert (Hs : target_src_dir Sample.blog = ["repo"; "targets"; "blog"; "src"] ++ ["blog"])
    by reflexivity.
  assert (Hc : component "blog") by a_component.
  rewrite (debug_serves_main_module Sample.subprocess_run ["repo"; "targets"; "blog"]
             Sample.blog _ _ Hs Hc Demo.start).
  vm_compute. reflexivity.
Defined.

Lemma render_fails_on_kind_clash_witness :
  exists e s',
    copy_files_with_substitution ["pkg"; "nginx_config"] ["out"] Sample.clash = Raise e s'.
Proof.
  assert (A : apart ["pkg"; "nginx_config"] ["out"]) by apart_paths.
  assert (Ht : is_dir (fs_lookup (["pkg"; "nginx_config"] ++ ["conf.d"])
                         (Some (st_fs Sample.clash))) = true)
    by (vm_compute; reflexivity).
  assert (Hd : is_file (fs_lookup (["out"] ++ ["conf.d"])
                          (Some (st_fs Sample.clash))) = true)
    by (vm_compute; reflexivity).
  apply (render_fails_on_kind_clash _ _ ["conf.d"] _ A); [discriminate|].
  left. split; [exact Ht|exact Hd].
Defined.

Lemma installs_follow_probe_values_witness :
  exists s',
    deploy Demo.install_docker Demo.docker_compose_build Demo.apt_get_install
      Sample.answers_docker Demo.self Demo.start = Ok tt s' /\
    st_trace s' =
      Run (probe "docker") :: Run Demo.install_docker ::
      Run (probe "python") :: Run (probe "nginx") ::
      rollout Demo.docker_compose_build Demo.apt_get_install Demo.self.
Proof.
  assert (Hses : forall history c, exists b, Sample.answers_docker history c = Returned b)
    by (intros history c; eexists; reflexivity).
  assert (H1 : Sample.answers_docker (st_trace Demo.start) (Run (probe "docker"))
               = Returned true) by (vm_compute; reflexivity).
  assert (H2 : Sample.answers_docker
                 (st_trace Demo.start ++ Run (probe "docker") :: [Run Demo.install_docker])
                 (Run (probe "python")) = Returned false) by (vm_compute; reflexivity).
  assert (H3 : Sample.answers_docker
                 (st_trace Demo.start ++ Run (probe "docker") :: [Run Demo.install_docker]
                    ++ Run (probe "python") :: [])
                 (Run (probe "nginx")) = Returned false) by (vm_compute; reflexivity).
  destruct (installs_follow_probe_values Demo.install_docker Demo.docker_compose_build
              Demo.apt_get_install Sample.answers_docker Demo.self Demo.start
              true false false Hses H1 H2 H3) as (s' & Hrun & Ht & _).
  exists s'. split; [exact Hrun|exact Ht].
Defined.

Lemma render_needs_utf8_witness :
  utf8_valid Sample.menu_latin1 = false /\
  utf8_valid ("caf" +:+ String "195" (String "169" EmptyString)) = true /\
  exists s',
    copy_files_with_substitution ["tpl"] ["out"] Sample.latin1
      = Raise UnicodeDecodeError s' /\
    fs_lookup (["out"] ++ ["menu.txt"]) (Some (st_fs s')) = None.
Proof.
  assert (Hv : utf8_valid Sample.menu_latin1 = false) by (vm_compute; reflexivity).
  assert (Hu : utf8_valid ("caf" +:+ String "195" (String "169" EmptyString)) = true)
    by (vm_compute; reflexivity).
  assert (A : apart ["tpl"] ["out"]) by apart_paths.
  assert (Hrel : ["menu.txt"] <> []) by discriminate.
  assert (Hf : fs_lookup (["tpl"] ++ ["menu.txt"]) (Some (st_fs Sample.latin1))
               = Some (File Sample.menu_latin1)) by (vm_compute; reflexivity).
  assert (F : fs_lookup ["out"] (Some (st_fs Sample.latin1)) = None)
    by (vm_compute; reflexivity).
  assert (B : blocked ["out"] (st_fs Sample.latin1) = false) by (vm_compute; reflexivity).
  assert (Hlist : rglob_at ["tpl"] (st_fs Sample.latin1) = [] ++ ["menu.txt"] :: [])
    by (vm_compute; reflexivity).
  assert (Hkeep : fs_lookup (["out"] ++ ["menu.txt"]) (Some (st_fs Sample.latin1)) = None)
    by (vm_compute; reflexivity).
  split; [exact Hv|]. split; [exact Hu|].
  destruct (render_needs_utf8 ["tpl"] ["out"] ["menu.txt"] Sample.menu_latin1
              Sample.latin1 A Hrel Hf Hv) as ((e & s' & Hrun & Hsame) & Hexact).
  destruct (fresh_no_clash ["tpl"] ["out"] (st_fs Sample.latin1) F) as [Hfiles Hdirs].
  destruct (Hexact (not_blocked _ _ B F) Hfiles Hdirs) with (pre := @nil path)
                                                            (post := @nil path)
    as (s'' & Hrun'').
  - intros r Hr. rewrite Hlist in Hr. destruct Hr as [<-|[]]. rewrite Hf. discriminate.
  - exact Hlist.
  - intros r t [].
  - exists s''. split; [exact Hrun''|].
    rewrite Hrun in Hrun''. injection Hrun'' as _ <-. rewrite Hsame. exact Hkeep.
Defined.

Lemma render_bad_text_leaves_empty_file_witness :
  utf8_valid Sample.escaped_byte = false /\
  exists s',
    copy_files_with_substitution ["tpl"] ["out"] Sample.greeted
      = Raise UnicodeEncodeError s' /\
    fs_lookup (["out"] ++ ["greeting.txt"]) (Some (st_fs s')) = Some (File "").
Proof.
  assert (Hb : utf8_valid Sample.escaped_byte = false) by (vm_compute; reflexivity).
  assert (A : apart ["tpl"] ["out"]) by apart_paths.
  assert (Hf : fs_lookup (["tpl"] ++ ["greeting.txt"]) (Some (st_fs Sample.greeted))
               = Some (File "hello $WHO")) by (vm_compute; reflexivity).
  assert (F : fs_lookup ["out"] (Some (st_fs Sample.greeted)) = None)
    by (vm_compute; reflexivity).
  assert (B : blocked ["out"] (st_fs Sample.greeted) = false) by (vm_compute; reflexivity).
  assert (Hlist : rglob_at ["tpl"] (st_fs Sample.greeted) = [] ++ ["greeting.txt"] :: [])
    by (vm_compute; reflexivity).
  assert (Hv : utf8_valid "hello $WHO" = true) by (vm_compute; reflexivity).
  assert (Hs : substitute (universal_newlines "hello $WHO") (st_env Sample.greeted)
               = inr ("hello Ren" +:+ Sample.escaped_byte)) by (vm_compute; reflexivity).
  assert (Hvo : utf8_valid ("hello Ren" +:+ Sample.escaped_byte) = false)
    by (vm_compute; reflexivity).
  destruct (fresh_no_clash ["tpl"] ["out"] (st_fs Sample.greeted) F) as [Hfiles Hdirs].
  split; [exact Hb|].
  apply (render_bad_text_leaves_empty_file ["tpl"] ["out"] ["greeting.txt"]
           "hello $WHO" ("hello Ren" +:+ Sample.escaped_byte) [] [] Sample.greeted
           A (not_blocked _ _ B F) Hfiles Hdirs); auto.
  - intros r Hr. rewrite Hlist in Hr. destruct Hr as [<-|[]]. rewrite Hf. discriminate.
  - intros r t [].
Defined.
